(** * PDScan: the matching pipeline and the asynchronous Oracle scan engine

  A shallow embedding of the parts of [pdscan/internal] that decide how
  values are matched and how a scan is driven:

  - [match_finder.py]  (rule aggregation, token matching, pattern catalog),
  - [scan_opts.py]     (the per-call options object),
  - [oracle_adapter_async.py] (retrying connect, early rejection, value
    cache, adaptive batch size, progress accounting).

  Python [str] values are modelled as [string]: a sequence of characters
  whose code points are below 256.  The character classes of [str.isdigit],
  [str.isspace] and [str.lower] are those of Python on that range.  Regular
  expressions are objects of the [re] library; an [re.Pattern] is modelled
  by the behaviour of its [search] and [finditer] methods. *)

From Stdlib Require Import ZArith QArith Ascii String Lia Bool.
From stdpp Require Import base option list sorting gmap strings.

Local Open Scope nat_scope.

(** ** Python strings *)

Module Py.

Definition code (c : ascii) : nat := nat_of_ascii c.

(** [c.isdigit()]: the ASCII digits, and the superscripts 2, 3 and 1
    (U+00B2, U+00B3, U+00B9). *)
Definition isdigit_char (c : ascii) : bool :=
  let n := code c in
  ((48 <=? n) && (n <=? 57)) || (n =? 178) || (n =? 179) || (n =? 185).

(** [c.isspace()], which is also the class [\s] of [re] on [str]. *)
Definition isspace_char (c : ascii) : bool :=
  let n := code c in
  ((9 <=? n) && (n <=? 13)) || ((28 <=? n) && (n <=? 32))
  || (n =? 133) || (n =? 160).

(** [c.lower()]: A-Z, and the upper-case letters U+00C0..U+00DE
    (without the multiplication sign U+00D7), move up by 32. *)
Definition lower_char (c : ascii) : ascii :=
  let n := code c in
  if ((65 <=? n) && (n <=? 90))
     || ((192 <=? n) && (n <=? 222) && negb (n =? 215))
  then ascii_of_nat (n + 32) else c.

Fixpoint lower (s : string) : string :=
  match s with
  | EmptyString => EmptyString
  | String c s' => String (lower_char c) (lower s')
  end.

Definition len (s : string) : nat := String.length s.

(** [all(p(c) for c in s)] and [any(p(c) for c in s)]. *)
Fixpoint all_chars (p : ascii -> bool) (s : string) : bool :=
  match s with
  | EmptyString => true
  | String c s' => p c && all_chars p s'
  end.

Fixpoint any_chars (p : ascii -> bool) (s : string) : bool :=
  match s with
  | EmptyString => false
  | String c s' => p c || any_chars p s'
  end.

(** [s.isdigit()]: every character is a digit and there is at least one. *)
Definition isdigit (s : string) : bool :=
  negb (len s =? 0) && all_chars isdigit_char s.

(** [s.startswith(p)]. *)
Fixpoint startswith (p s : string) : bool :=
  match p, s with
  | EmptyString, _ => true
  | String a p', String b s' => bool_decide (a = b) && startswith p' s'
  | String _ _, EmptyString => false
  end.

(** [needle in hay] on strings: substring test. *)
Fixpoint contains (needle hay : string) : bool :=
  startswith needle hay
  || match hay with
     | EmptyString => false
     | String _ hay' => contains needle hay'
     end.

(** [x in l] for a list of strings. *)
Definition in_list (x : string) (l : list string) : bool :=
  bool_decide (x ∈ l).

(** [s.strip()]: leading and trailing white space removed. *)
Fixpoint lstrip (s : string) : string :=
  match s with
  | EmptyString => EmptyString
  | String c s' => if isspace_char c then lstrip s' else s
  end.

Fixpoint rstrip (s : string) : string :=
  match s with
  | EmptyString => EmptyString
  | String c s' =>
      match rstrip s' with
      | EmptyString => if isspace_char c then EmptyString
                       else String c EmptyString
      | r => String c r
      end
  end.

Definition strip (s : string) : string := rstrip (lstrip s).

(** [re.sub(r'\s+', ' ', s)]: every maximal run of white space becomes
    one blank. *)
Fixpoint collapse_ws (in_run : bool) (s : string) : string :=
  match s with
  | EmptyString => EmptyString
  | String c s' =>
      if isspace_char c
      then if in_run then collapse_ws true s'
           else String " "%char (collapse_ws true s')
      else String c (collapse_ws false s')
  end.

Definition sub_ws (s : string) : string := collapse_ws false s.

End Py.

(** ** The [re] library, as far as the scanner uses it *)

Module re.

(** A compiled pattern, given by what its methods return: [search s] says
    whether some substring of [s] matches, [finditer s] lists the matched
    substrings ([m.group()]) from left to right. *)
Record Pattern := mkPattern {
  search : string -> bool;
  finditer : string -> list string
}.

Fixpoint take (n : nat) (s : string) : string :=
  match n, s with
  | S k, String c s' => String c (take k s')
  | _, _ => EmptyString
  end.

Fixpoint occurrences (lit : string) (skip : nat) (s : string) : list string :=
  match s with
  | EmptyString => []
  | String c s' =>
      match skip with
      | S k => occurrences lit k s'
      | O => if Py.startswith lit (Py.lower s)
             then take (Py.len lit) s :: occurrences lit (Py.len lit - 1) s'
             else occurrences lit 0 s'
      end
  end.

(** [re.compile(lit, re.IGNORECASE)] for a pattern made of ordinary
    characters only (no metacharacter): it matches its own text, case
    folded. *)
Definition literal (lit : string) : Pattern :=
  {| search := fun s => Py.contains (Py.lower lit) (Py.lower s);
     finditer := fun s => occurrences (Py.lower lit) 0 s |}.

End re.

(** ** [rules.py]: rule dictionaries and the aggregated match record *)

Module RuleMatch.

(** The dataclass [RuleMatch]. *)
Record t := mk {
  name : string;
  display_name : string;
  confidence : string;
  location : string;
  values : list string
}.

End RuleMatch.

Module Rules.

(** The keys every rule dictionary carries. *)
Record Rule := mkRule {
  name : string;
  display_name : string;
  confidence : string
}.

(** A rule with a compiled ["regex"] (name rules, regex rules, custom
    patterns), with a list of ["regexes"] (multi-name rules), and with a
    list of ["tokens"] (token rules). *)
Record RegexRule := mkRegexRule {
  regex_rule :> Rule;
  regex : re.Pattern
}.

Record MultiRule := mkMultiRule {
  multi_rule :> Rule;
  regexes : list re.Pattern
}.

Record TokenRule := mkTokenRule {
  token_rule :> Rule;
  tokens : list string
}.

(** [MatchConfig]; [custom_patterns] is a dictionary whose [values()] are
    visited in insertion order. *)
Record MatchConfig := mkMatchConfig {
  name_rules : list RegexRule;
  multi_name_rules : list MultiRule;
  token_rules : list TokenRule;
  regex_rules : list RegexRule;
  custom_patterns : list RegexRule
}.

(** The token rules installed by [MatchConfig.__init__]. *)
Definition default_token_rules : list TokenRule :=
  [ mkTokenRule (mkRule "api-key" "API Key" "high")
      ["api"; "key"; "secret"; "token"; "auth"; "password"; "pwd"];
    mkTokenRule (mkRule "database-connection" "Database Connection String" "high")
      ["jdbc:"; "mysql://"; "postgresql://"; "mongodb://"; "redis://"; "oracle://"];
    mkTokenRule (mkRule "file-path" "File Path" "low")
      ["/home/"; "/var/"; "C:\"; "D:\"; "/tmp/"; "/usr/"] ].

End Rules.

(** ** [match_finder.py]: token matching and match aggregation *)

Module MatchFinder.
Import Rules.

(** [_token_match(line, token)]. *)
Definition _token_match (line token : string) : bool :=
  let line_lower := Py.lower line in
  let token_lower := Py.lower token in
  if Py.contains (" " +:+ token_lower +:+ " ") (" " +:+ line_lower +:+ " ")
  then true
  else if Py.contains token_lower line_lower then
    if Py.in_list token_lower
         ["jdbc:"; "mysql://"; "postgresql://"; "mongodb://"; "redis://"; "oracle://"]
    then Py.contains "://" line_lower || Py.contains "jdbc:" line_lower
    else if Py.in_list token_lower
         ["/home/"; "/var/"; "c:\"; "d:\"; "/tmp/"; "/usr/"]
    then existsb (fun path => Py.contains path line_lower) ["/"; "\"]
    else true
  else false.

(** [_normalize_value(value)]. *)
Definition _normalize_value (value : string) : string :=
  let normalized := Py.sub_ws (Py.strip value) in
  Py.lower normalized.

(** The dictionary key of a rule at a location: [f"{rule['name']}:{location}"]. *)
Definition match_key (rule : Rule) (location : string) : string :=
  name rule +:+ ":" +:+ location.

(** [_add_match(rule, value, location)] on the dictionary [self.matches]. *)
Definition _add_match (rule : Rule) (value location : string)
    (matches : gmap string RuleMatch.t) : gmap string RuleMatch.t :=
  let key := match_key rule location in
  let matches :=
    match matches !! key with
    | None =>
        <[key := RuleMatch.mk (name rule) (display_name rule)
                   (confidence rule) location []]> matches
    | Some _ => matches
    end in
  let normalized_value := _normalize_value value in
  match matches !! key with
  | Some m =>
      if Py.in_list normalized_value (_normalize_value <$> RuleMatch.values m)
      then matches
      else <[key := RuleMatch.mk (RuleMatch.name m) (RuleMatch.display_name m)
                      (RuleMatch.confidence m) (RuleMatch.location m)
                      (RuleMatch.values m ++ [value])]> matches
  | None => matches
  end.

(** The inner loop shared by the regex-based rule kinds:
    [for match in regex.finditer(line): self._add_match(rule, match.group(), location)]. *)
Definition add_found (rule : Rule) (rx : re.Pattern) (line location : string)
    (matches : gmap string RuleMatch.t) : gmap string RuleMatch.t :=
  foldl (fun ms v => _add_match rule v location ms) matches (re.finditer rx line).

(** [check_line(line, location)]. *)
Definition check_line (cfg : MatchConfig) (line location : string)
    (matches : gmap string RuleMatch.t) : gmap string RuleMatch.t :=
  let matches :=
    foldl (fun ms (rule : RegexRule) => add_found rule (regex rule) line location ms)
          matches (name_rules cfg) in
  let matches :=
    foldl (fun ms (rule : MultiRule) =>
             foldl (fun ms rx => add_found rule rx line location ms) ms (regexes rule))
          matches (multi_name_rules cfg) in
  let matches :=
    foldl (fun ms (rule : TokenRule) =>
             foldl (fun ms token =>
                      if _token_match line token
                      then _add_match rule line location ms else ms)
                   ms (tokens rule))
          matches (token_rules cfg) in
  let matches :=
    foldl (fun ms (rule : RegexRule) => add_found rule (regex rule) line location ms)
          matches (regex_rules cfg) in
  foldl (fun ms (rule : RegexRule) => add_found rule (regex rule) line location ms)
        matches (custom_patterns cfg).

(** A run of the aggregator: [check_line] called on each (line, location)
    in turn, starting from the dictionary [self.matches]; every call comes
    with the configuration in force when it is made. *)
Definition check_lines (calls : list (MatchConfig * string * string))
    (matches : gmap string RuleMatch.t) : gmap string RuleMatch.t :=
  foldl (fun ms call => check_line call.1.1 call.1.2 call.2 ms) matches calls.

End MatchFinder.

(** ** [scan_opts.py]: the options object *)

Module ScanOpts.

(** The Python values an option can hold. *)
Inductive pyval :=
| PNone
| PBool (b : bool)
| PInt (z : Z)
| PStr (s : string)
| PList (l : list string).

#[global] Instance pyval_eq_dec : EqDecision pyval.
Proof. solve_decision. Defined.

(** Truth value of an object in a condition. *)
Definition truthy (v : pyval) : bool :=
  match v with
  | PNone => false
  | PBool b => b
  | PInt z => negb (z =? 0)%Z
  | PStr s => negb (Py.len s =? 0)
  | PList l => negb (length l =? 0)
  end.

(** The declared parameters of [ScanOptions.__init__]. *)
Record params := mkParams {
  show_data : pyval;
  show_all : pyval;
  sample_size : pyval;
  processes : pyval;
  only : pyval;
  except_ : pyval;
  min_count : pyval;
  pattern : pyval;
  debug : pyval;
  format : pyval;
  only_patterns : pyval
}.

(** Their default values. *)
Definition defaults : params :=
  {| show_data := PBool false; show_all := PBool false;
     sample_size := PInt 1000; processes := PInt 1;
     only := PNone; except_ := PNone; min_count := PInt 1;
     pattern := PNone; debug := PBool false; format := PStr "text";
     only_patterns := PNone |}.

(** [setattr(self, k, v)] on the instance dictionary. *)
Definition setattr (self : gmap string pyval) (k : string) (v : pyval)
    : gmap string pyval :=
  <[k := v]> self.

(** [ScanOptions.__init__(self, ..., **kwargs)]: the attributes of the new
    object.  [kwargs] holds the keywords that are not declared parameters,
    in the order they were passed. *)
Definition __init__ (p : params) (kwargs : list (string * pyval))
    : gmap string pyval :=
  let self : gmap string pyval := ∅ in
  let self := setattr self "show_data" (show_data p) in
  let self := setattr self "show_all" (show_all p) in
  let self := setattr self "sample_size" (sample_size p) in
  let self := setattr self "processes" (processes p) in
  let self := setattr self "only" (only p) in
  let self := setattr self "except_" (except_ p) in
  let self := setattr self "min_count" (min_count p) in
  let self := setattr self "pattern" (pattern p) in
  let self := setattr self "debug" (debug p) in
  let self := setattr self "format" (format p) in
  let self := setattr self "only_patterns" (only_patterns p) in
  let self := setattr self "except_patterns" PNone in
  foldl (fun self kv => setattr self kv.1 kv.2) self kwargs.

End ScanOpts.

(** ** [match_finder.py]: the pattern catalog *)

Module Catalog.
Import ScanOpts.

(** The dataclass [Pattern]; [regex] holds whatever the caller supplied. *)
Record Pattern := mkPattern {
  name : string;
  regex : pyval;
  description : string
}.

(** What evaluating an expression can end in. *)
Inductive exn :=
| AttributeError (attr : string)
| TypeError.

Inductive result (A : Type) :=
| Ok (a : A)
| Raise (e : exn).
Arguments Ok {A} a.
Arguments Raise {A} e.

#[global] Instance result_bind : MBind result := fun A B k r =>
  match r with
  | Ok a => k a
  | Raise e => Raise e
  end.

(** [options.attr]. *)
Definition getattr (o : gmap string pyval) (attr : string) : result pyval :=
  match o !! attr with
  | Some v => Ok v
  | None => Raise (AttributeError attr)
  end.

(** [x in v] for a string [x]: membership in a list, substring of a
    string, [TypeError] on the other values. *)
Definition py_in (x : string) (v : pyval) : result bool :=
  match v with
  | PList l => Ok (Py.in_list x l)
  | PStr s => Ok (Py.contains x s)
  | _ => Raise TypeError
  end.

(** [[p for p in patterns if cond(p)]]. *)
Fixpoint comprehension (cond : Pattern -> result bool) (patterns : list Pattern)
    : result (list Pattern) :=
  match patterns with
  | [] => Ok []
  | p :: rest =>
      b ← cond p;
      r ← comprehension cond rest;
      Ok (if b : bool then p :: r else r)
  end.

(** [_get_default_patterns()].  The [regex] texts are the source's
    literals, byte for byte (UTF-8). *)
Definition _get_default_patterns : list Pattern :=
  [ mkPattern "email"
      (PStr "\b[a-zA-Z0-9._%+-]+@[a-zA-Z0-9.-]+\.[a-zA-Z]{2,}\b")
      "Email address";
    mkPattern "phone"
      (PStr "\b(?:\+\d{1,3}\s?)?\(?\d{3}\)?[\s.-]?\d{3}[\s.-]?\d{4}\b")
      "Phone number";
    mkPattern "ssn"
      (PStr "\b\d{3}[-\s]?\d{2}[-\s]?\d{4}\b")
      "Social Security Number";
    mkPattern "credit_card"
      (PStr ("(?:"
         +:+ "4\d{3}(?:[\-\.\s_\u2013]\d{4}){3}"
         +:+ "|5[1-5]\d{2}(?:[\-\.\s_\u2013]\d{4}){3}"
         +:+ "|3[47]\d{2}[\-\.\s_\u2013]\d{6}[\-\.\s_\u2013]\d{5}"
         +:+ "|6011[\-\.\s_\u2013]\d{4}[\-\.\s_\u2013]\d{4}[\-\.\s_\u2013]\d{4}"
         +:+ ")"))
      "Credit card number (Visa, MasterCard, AmEx, Discover)";
    mkPattern "credit_card_masked"
      (PStr "\b\d{4}[-\s]?[\*X]{4,8}[-\s]?\d{4}\b")
      "Masked credit card number";
    mkPattern "ipv4"
      (PStr "\b\d{1,3}\.\d{1,3}\.\d{1,3}\.\d{1,3}\b")
      "IPv4 address";
    mkPattern "ipv6"
      (PStr "\b(?:[A-F0-9]{1,4}:){7}[A-F0-9]{1,4}\b")
      "IPv6 address";
    mkPattern "url"
      (PStr "https?://(?:[-\w.]|(?:%[\da-fA-F]{2}))+")
      "URL";
    mkPattern "mac"
      (PStr "\b(?:[0-9A-Fa-f]{2}[:-]){5}(?:[0-9A-Fa-f]{2})\b")
      "MAC address";
    mkPattern "date"
      (PStr "\b\d{4}[-/]\d{1,2}[-/]\d{1,2}\b")
      "Date (YYYY-MM-DD or YYYY/MM/DD)";
    mkPattern "time"
      (PStr "\b\d{1,2}:\d{2}(?::\d{2})?(?:\s?[AP]M)?\b")
      "Time (HH:MM:SS or HH:MM AM/PM)";
    mkPattern "person_name"
      (PStr "\b[A-Z][a-zàáạảãâầấậẩẫăằắặẳẵèéẹẻẽêềếệểễìíịỉĩòóọỏõôồốộổỗơờớợởỡùúụủũưừứựửữỳýỵỷỹđ]+ [A-Z][a-zàáạảãâầấậẩẫăằắặẳẵèéẹẻẽêềếệểễìíịỉĩòóọỏõôồốộổỗơờớợởỡùúụủũưừứựửữỳýỵỷỹđ]+\b")
      "Person name (Vietnamese and English)";
    mkPattern "company_name"
      (PStr "\b[A-Z][a-zA-Z\s&.,\'-]+(?:Inc\.|Corp\.|LLC|Ltd\.|Company|Co\.|Technologies|Technology|Systems|Solutions|Services)\b")
      "Company name" ].

(** [get_patterns(options)]. *)
Definition get_patterns (options : gmap string pyval) : result (list Pattern) :=
  let patterns := _get_default_patterns in
  only_patterns ← getattr options "only_patterns";
  patterns ←
    (if truthy only_patterns
     then comprehension (fun p => py_in (name p) only_patterns) patterns
     else
       except_patterns ← getattr options "except_patterns";
       if truthy except_patterns
       then comprehension
              (fun p => b ← py_in (name p) except_patterns; Ok (negb b))
              patterns
       else Ok patterns);
  pattern ← getattr options "pattern";
  Ok (if truthy pattern
      then patterns ++ [mkPattern "custom" pattern "Custom pattern"]
      else patterns).

End Catalog.

(** ** [oracle_adapter_async.py]: the asynchronous Oracle adapter *)

Module OracleAsync.

(** The options read once from the configuration mapping in [__init__]. *)
Record Config := mkConfig {
  fetch_size : Z;
  early_termination : bool;
  value_caching : bool;
  pattern_optimization : bool;
  adaptive_batch : bool;
  min_batch_size : Z;
  max_batch_size : Z;
  retry_attempts : Z;
  show_all : bool
}.

(** The values [__init__] uses when the mapping is empty. *)
Definition default_config : Config :=
  {| fetch_size := 10000; early_termination := true; value_caching := true;
     pattern_optimization := true; adaptive_batch := true;
     min_batch_size := 1000; max_batch_size := 50000;
     retry_attempts := 3; show_all := false |}.

(** A match dictionary [{'pattern_name': ..., 'matched_value': ...}]. *)
Record Hit := mkHit {
  pattern_name : string;
  matched_value : string
}.

(** The counters of [self._metrics] and [self._scan_progress]. *)
Record Metrics := mkMetrics {
  total_rows_processed : Z;
  total_matches_found : Z;
  cache_hits : Z;
  cache_misses : Z;
  early_terminations : Z;
  column_skips : Z;
  batch_times : list Q;
  connection_errors : Z;
  retry_count : Z;
  tables_skipped : Z;
  tables_completed : Z
}.

Record Progress := mkProgress {
  completed : Z;
  total : Z
}.

(** What the adapter does to the outside world, in order. *)
Inductive event :=
| Attempt (n : Z)
| Sleep (seconds : Q)
| Say (text : string)
| Advance.

(** The mutable attributes of the adapter object, and the trace of its
    effects ([trace] is kept newest first). *)
Record Adapter := mkAdapter {
  _compiled_patterns : gmap string re.Pattern;
  _value_cache : gmap string (list Hit);
  _metrics : Metrics;
  _scan_progress : Progress;
  _retry_delay : Q;
  _pool : option nat;
  trace : list event
}.

Definition set_cache (f : gmap string (list Hit) -> gmap string (list Hit))
    (self : Adapter) : Adapter :=
  mkAdapter (_compiled_patterns self) (f (_value_cache self)) (_metrics self) (_scan_progress self)
            (_retry_delay self) (_pool self) (trace self).

Definition set_metrics (f : Metrics -> Metrics) (self : Adapter) : Adapter :=
  mkAdapter (_compiled_patterns self) (_value_cache self) (f (_metrics self)) (_scan_progress self)
            (_retry_delay self) (_pool self) (trace self).

Definition set_progress (f : Progress -> Progress) (self : Adapter) : Adapter :=
  mkAdapter (_compiled_patterns self) (_value_cache self) (_metrics self) (f (_scan_progress self))
            (_retry_delay self) (_pool self) (trace self).

Definition set_retry_delay (d : Q) (self : Adapter) : Adapter :=
  mkAdapter (_compiled_patterns self) (_value_cache self) (_metrics self) (_scan_progress self)
            d (_pool self) (trace self).

Definition set_pool (p : option nat) (self : Adapter) : Adapter :=
  mkAdapter (_compiled_patterns self) (_value_cache self) (_metrics self) (_scan_progress self)
            (_retry_delay self) p (trace self).

Definition set_compiled (c : gmap string re.Pattern) (self : Adapter) : Adapter :=
  mkAdapter c (_value_cache self) (_metrics self) (_scan_progress self)
            (_retry_delay self) (_pool self) (trace self).

Definition emit (e : event) (self : Adapter) : Adapter :=
  mkAdapter (_compiled_patterns self) (_value_cache self) (_metrics self) (_scan_progress self)
            (_retry_delay self) (_pool self) (e :: trace self).

Definition incr_early_terminations (m : Metrics) : Metrics :=
  mkMetrics (total_rows_processed m) (total_matches_found m) (cache_hits m)
    (cache_misses m) (early_terminations m + 1) (column_skips m)
    (batch_times m) (connection_errors m) (retry_count m)
    (tables_skipped m) (tables_completed m).

Definition incr_cache_hits (m : Metrics) : Metrics :=
  mkMetrics (total_rows_processed m) (total_matches_found m) (cache_hits m + 1)
    (cache_misses m) (early_terminations m) (column_skips m)
    (batch_times m) (connection_errors m) (retry_count m)
    (tables_skipped m) (tables_completed m).

Definition incr_cache_misses (m : Metrics) : Metrics :=
  mkMetrics (total_rows_processed m) (total_matches_found m) (cache_hits m)
    (cache_misses m + 1) (early_terminations m) (column_skips m)
    (batch_times m) (connection_errors m) (retry_count m)
    (tables_skipped m) (tables_completed m).

Definition incr_connection_errors (m : Metrics) : Metrics :=
  mkMetrics (total_rows_processed m) (total_matches_found m) (cache_hits m)
    (cache_misses m) (early_terminations m) (column_skips m)
    (batch_times m) (connection_errors m + 1) (retry_count m)
    (tables_skipped m) (tables_completed m).

Definition incr_tables_skipped (m : Metrics) : Metrics :=
  mkMetrics (total_rows_processed m) (total_matches_found m) (cache_hits m)
    (cache_misses m) (early_terminations m) (column_skips m)
    (batch_times m) (connection_errors m) (retry_count m)
    (tables_skipped m + 1) (tables_completed m).

Definition incr_tables_completed (m : Metrics) : Metrics :=
  mkMetrics (total_rows_processed m) (total_matches_found m) (cache_hits m)
    (cache_misses m) (early_terminations m) (column_skips m)
    (batch_times m) (connection_errors m) (retry_count m)
    (tables_skipped m) (tables_completed m + 1).

Definition incr_completed (p : Progress) : Progress :=
  mkProgress (completed p + 1) (total p).

(** The attributes as [__init__] leaves them. *)
Definition fresh (retry_delay : Q) : Adapter :=
  {| _compiled_patterns := ∅;
     _value_cache := ∅;
     _metrics := mkMetrics 0 0 0 0 0 0 [] 0 0 0 0;
     _scan_progress := mkProgress 0 0;
     _retry_delay := retry_delay;
     _pool := None;
     trace := [] |}.

(** *** Early rejection, value cache and pattern evaluation *)

(** [_early_termination_check(value, patterns)]; the pattern dictionary is
    not consulted. *)
Definition _early_termination_check (cfg : Config) (value : string)
    (patterns : list (string * re.Pattern)) : bool :=
  if negb (early_termination cfg) then false
  else
    let value_len := Py.len value in
    if (Py.contains "@" value && Py.contains "." value)
       || (Py.contains "-" value && ((value_len =? 9) || (value_len =? 11)))
    then false
    else if value_len <? 10 then true
    else if 1000 <? value_len then true
    else if Py.isdigit value && (value_len <? 13) then true
    else if negb (Py.any_chars Py.isdigit_char value) then true
    else false.

(** [_batch_match_patterns(value, compiled_patterns)]. *)
Fixpoint _batch_match_patterns (value : string)
    (compiled_patterns : list (string * re.Pattern)) : list Hit :=
  match compiled_patterns with
  | [] => []
  | (pattern_name, compiled_regex) :: rest =>
      if re.search compiled_regex value
      then mkHit pattern_name value :: _batch_match_patterns value rest
      else _batch_match_patterns value rest
  end.

(** The per-pattern shape checks of [_optimized_pattern_matching]: [true]
    when the loop body ends in [continue] before the regex is tried. *)
Definition shape_skip (pattern_name value : string) : bool :=
  if bool_decide (pattern_name = "credit_card") then
    ((Py.len value <? 13) || (19 <? Py.len value))
    || negb (Py.any_chars Py.isdigit_char value)
  else if bool_decide (pattern_name = "email") then
    (negb (Py.contains "@" value) || negb (Py.contains "." value))
    || ((Py.len value <? 5) || (254 <? Py.len value))
  else if bool_decide (pattern_name = "ssn") then
    ((Py.len value <? 9) || (11 <? Py.len value))
    || negb (Py.any_chars Py.isdigit_char value)
  else false.

(** The evaluation loop of [_optimized_pattern_matching]; [matches] is the
    list built so far. *)
Fixpoint match_loop (cfg : Config) (value : string)
    (compiled_patterns : list (string * re.Pattern)) (matches : list Hit)
    : list Hit :=
  match compiled_patterns with
  | [] => matches
  | (pattern_name, compiled_regex) :: rest =>
      if shape_skip pattern_name value then match_loop cfg value rest matches
      else if re.search compiled_regex value then
        let matches := matches ++ [mkHit pattern_name value] in
        if negb (show_all cfg) then matches
        else match_loop cfg value rest matches
      else match_loop cfg value rest matches
  end.

Section Hashing.

(** [hashlib.md5(value.encode('utf-8')).hexdigest()]. *)
Variable md5_hexdigest : string -> string.

Definition _hash_value (value : string) : string := md5_hexdigest value.

Definition _is_value_cached (cfg : Config) (self : Adapter) (value_hash : string)
    : bool :=
  if negb (value_caching cfg) then false
  else bool_decide (is_Some (_value_cache self !! value_hash)).

Definition _cache_value_result (cfg : Config) (value_hash : string)
    (matches : list Hit) (self : Adapter) : Adapter :=
  if negb (value_caching cfg) then self
  else set_cache (fun c => <[value_hash := matches]> c) self.

Definition _get_cached_result (cfg : Config) (self : Adapter) (value_hash : string)
    : option (list Hit) :=
  if negb (value_caching cfg) then None
  else _value_cache self !! value_hash.

(** [_optimized_pattern_matching(value, compiled_patterns)]: the returned
    list and the adapter afterwards. *)
Definition _optimized_pattern_matching (cfg : Config) (value : string)
    (compiled_patterns : list (string * re.Pattern)) (self : Adapter)
    : list Hit * Adapter :=
  if negb (pattern_optimization cfg)
  then (_batch_match_patterns value compiled_patterns, self)
  else
    let matches : list Hit := [] in
    if _early_termination_check cfg value compiled_patterns
    then (matches, set_metrics incr_early_terminations self)
    else
      let value_hash := _hash_value value in
      let evaluate (self : Adapter) :=
        let matches := match_loop cfg value compiled_patterns matches in
        (matches, _cache_value_result cfg value_hash matches self) in
      if _is_value_cached cfg self value_hash then
        match _get_cached_result cfg self value_hash with
        | Some cached_result => (cached_result, set_metrics incr_cache_hits self)
        | None => evaluate self
        end
      else evaluate (set_metrics incr_cache_misses self).

End Hashing.

(** *** Connecting with retries *)

(** Exceptions: [cx_Oracle.Error], and everything else. *)
Inductive exc :=
| CxOracleError (msg : string)
| OtherException (msg : string).

(** What one pass through the [try] block of [connect] meets: the session
    pool is created and the test query runs, or creating the pool raises,
    or the pool is created and the test query raises. *)
Inductive attempt_outcome :=
| Connected (pool : nat)
| PoolFailed (e : exc)
| TestFailed (pool : nat) (e : exc).

Inductive connect_result :=
| Returned
| Raised (e : exc)
| OutOfFuel.

(** The [while attempt < self._retry_attempts] loop of [connect].  The
    database is [backend]: the outcome of the try block when it is entered
    with the given value of [attempt]. *)
Fixpoint connect_loop (cfg : Config) (backend : Z -> attempt_outcome)
    (fuel : nat) (attempt : Z) (self : Adapter) : connect_result * Adapter :=
  if (attempt <? retry_attempts cfg)%Z then
    match fuel with
    | O => (OutOfFuel, self)
    | S fuel =>
        let self := emit (Attempt attempt) self in
        let handle (e : exc) (self : Adapter) :=
          match e with
          | CxOracleError _ =>
              let attempt := (attempt + 1)%Z in
              if (retry_attempts cfg <=? attempt)%Z then (Raised e, self)
              else
                let self := emit (Say "connection attempt failed, retrying") self in
                let self := emit (Sleep (_retry_delay self)) self in
                let self := set_retry_delay (_retry_delay self * 2)%Q self in
                connect_loop cfg backend fuel attempt self
          | OtherException _ => (Raised e, self)
          end in
        match backend attempt with
        | Connected pool =>
            let self := set_pool (Some pool) self in
            (Returned, emit (Say "Connected to Oracle with async connection pool") self)
        | PoolFailed e => handle e self
        | TestFailed pool e => handle e (set_pool (Some pool) self)
        end
    end
  else (Returned, self).

(** [connect()]; the loop runs at most [retry_attempts] times. *)
Definition connect (cfg : Config) (backend : Z -> attempt_outcome)
    (self : Adapter) : connect_result * Adapter :=
  let attempt := 0%Z in
  connect_loop cfg backend (Z.to_nat (retry_attempts cfg)) attempt self.

(** The attempts and the sleeps of a trace, oldest first. *)
Definition attempts_of (tr : list event) : list Z :=
  omap (fun e => match e with Attempt n => Some n | _ => None end) (rev tr).

Definition sleeps_of (tr : list event) : list Q :=
  omap (fun e => match e with Sleep d => Some d | _ => None end) (rev tr).

(** [n] delays, each twice the one before, from [d] on. *)
Fixpoint doubling (d : Q) (n : nat) : list Q :=
  match n with
  | O => []
  | S n => d :: doubling (d * 2)%Q n
  end.

(** *** Adaptive batch size *)

Definition Qltb (x y : Q) : bool := negb (Qle_bool y x).

(** [int(n * num / den)] for the decimal factors 0.8 and 1.2: the product
    truncated towards zero.  The source multiplies in double precision;
    for sizes below 2^50 the truncated value is the same. *)
Definition int_scaled (n num den : Z) : Z := Z.quot (n * num) den.

(** [_adjust_batch_size(current_batch_size, batch_time)]. *)
Definition _adjust_batch_size (cfg : Config) (current_batch_size : Z)
    (batch_time : Q) : Z :=
  if negb (adaptive_batch cfg) then current_batch_size
  else
    let target_time : Q := 1 # 2 in
    if Qltb (target_time * (3 # 2)) batch_time
    then Z.max (min_batch_size cfg) (int_scaled current_batch_size 8 10)
    else if Qltb batch_time (target_time * (1 # 2))
    then Z.min (max_batch_size cfg) (int_scaled current_batch_size 12 10)
    else current_batch_size.

(** The local variables of the batch loop of [_scan_table_streaming]. *)
Record Loop := mkLoop {
  batch_count : Z;
  current_batch_size : Z
}.

(** The loop variables before the first fetch. *)
Definition loop_start (cfg : Config) : Loop :=
  {| batch_count := 0; current_batch_size := fetch_size cfg |}.

(** One non-empty batch, processed in [batch_time] seconds. *)
Definition after_batch (cfg : Config) (l : Loop) (batch_time : Q) : Loop :=
  let batch_count := (batch_count l + 1)%Z in
  let current_batch_size :=
    if adaptive_batch cfg && (batch_count mod 5 =? 0)%Z
    then _adjust_batch_size cfg (current_batch_size l) batch_time
    else current_batch_size l in
  {| batch_count := batch_count; current_batch_size := current_batch_size |}.

(** The loop variables after batches with the given durations. *)
Definition after_batches (cfg : Config) (batch_times : list Q) : Loop :=
  foldl (after_batch cfg) (loop_start cfg) batch_times.

(** *** One scan unit and the progress record *)

(** A yielded match dictionary. *)
Record Found := mkFound {
  path : string;
  value : string;
  table : string;
  column : string;
  rule : string
}.

Inductive stream_outcome :=
| Streamed (matches : list Found)
| StreamRaised (e : exc).

Section Engine.

(** [re.compile(text, re.IGNORECASE)]; [None] when it raises [re.error]. *)
Variable re_compile : string -> option re.Pattern.

(** [compiled[name] = regex] on an insertion-ordered dictionary. *)
Fixpoint dict_set (name : string) (regex : re.Pattern)
    (compiled : list (string * re.Pattern)) : list (string * re.Pattern) :=
  match compiled with
  | [] => [(name, regex)]
  | (k, v) :: rest =>
      if bool_decide (k = name) then (k, regex) :: rest
      else (k, v) :: dict_set name regex rest
  end.

(** [_compile_patterns(patterns)]: the dictionary [compiled] built so far
    and the adapter, whose [_compiled_patterns] remembers every regex by
    pattern name; [None] when a [re.compile] raises. *)
Fixpoint _compile_patterns (patterns : list Catalog.Pattern)
    (compiled : list (string * re.Pattern)) (self : Adapter)
    : option (list (string * re.Pattern)) * Adapter :=
  match patterns with
  | [] => (Some compiled, self)
  | pattern :: rest =>
      let name := Catalog.name pattern in
      match _compiled_patterns self !! name with
      | Some regex => _compile_patterns rest (dict_set name regex compiled) self
      | None =>
          match Catalog.regex pattern with
          | ScanOpts.PStr text =>
              match re_compile text with
              | Some regex =>
                  _compile_patterns rest (dict_set name regex compiled)
                    (set_compiled (<[name := regex]> (_compiled_patterns self)) self)
              | None => (None, self)
              end
          | _ => (None, self)
          end
      end
  end.

(** [_scan_table_streaming(table, patterns, options)], run to its end.
    The patterns are compiled before the [try] block is entered; [body] is
    the [try] block with its [except Exception] handler, which yields
    matches and lets no exception out. *)
Definition _scan_table_streaming (patterns : list Catalog.Pattern)
    (body : list (string * re.Pattern) -> Adapter -> list Found * Adapter)
    (self : Adapter) : stream_outcome * Adapter :=
  match _compile_patterns patterns [] self with
  | (None, self) => (StreamRaised (OtherException "re.error"), self)
  | (Some compiled_patterns, self) =>
      let '(matches, self) := body compiled_patterns self in
      (Streamed matches, self)
  end.

End Engine.

Section Units.

Variable re_compile : string -> option re.Pattern.

(** [_scan_table_with_progress(table, patterns, options, progress,
    main_task)]; [Advance] is [progress.advance(main_task)]. *)
Definition _scan_table_with_progress (table : string)
    (patterns : list Catalog.Pattern)
    (body : list (string * re.Pattern) -> Adapter -> list Found * Adapter)
    (self : Adapter) : list Found * Adapter :=
  match _scan_table_streaming re_compile patterns body self with
  | (Streamed matches, self) =>
      let self := emit Advance self in
      let self := set_progress incr_completed self in
      let self := set_metrics incr_tables_completed self in
      let self := emit (Say ("Scanned " +:+ table)) self in
      (matches, self)
  | (StreamRaised e, self) =>
      let self := emit (Say ("Skipping " +:+ table)) self in
      let self := set_metrics incr_connection_errors self in
      let self := set_metrics incr_tables_skipped self in
      let self := emit Advance self in
      ([], self)
  end.

(** The progress record as [scan] initialises it for [n] tables. *)
Definition start_progress (n : nat) (self : Adapter) : Adapter :=
  set_progress (fun _ => mkProgress 0 (Z.of_nat n)) self.

(** The tasks of [scan]: every table is scanned with the same patterns;
    [units] lists the tables with the behaviour of their [try] blocks, in
    the order the tasks run. *)
Definition scan_units (patterns : list Catalog.Pattern)
    (units : list (string * (list (string * re.Pattern) -> Adapter -> list Found * Adapter)))
    (self : Adapter) : list Found * Adapter :=
  foldl (fun acc u =>
           let '(found, self) :=
             _scan_table_with_progress u.1 patterns u.2 acc.2 in
           (acc.1 ++ found, self))
        ([], start_progress (length units) self) units.

End Units.

End OracleAsync.

(** * More of the adapter and of the rule engine *)

(** ** Counters *)

Module Counters.
Import OracleAsync.

(** The three counters a call of the optimised matching can move. *)
Definition lookups (m : Metrics) : Z :=
  (early_terminations m + cache_hits m + cache_misses m)%Z.

End Counters.

(** ** [oracle_adapter_async.py]: column selection *)

Module Columns.

Definition newline : string := String "010"%char EmptyString.

(** [s.endswith(suffix)]. *)
Fixpoint endswith (suffix s : string) : bool :=
  bool_decide (suffix = s)
  || match s with
     | EmptyString => false
     | String _ s' => endswith suffix s'
     end.

(** [s[:-1]]. *)
Fixpoint but_last (s : string) : string :=
  match s with
  | EmptyString => EmptyString
  | String c EmptyString => EmptyString
  | String c s' => String c (but_last s')
  end.

(** [re.match(pattern, s, re.IGNORECASE)] for the patterns of the skip
    list, which are an optional [^], ordinary characters and an optional
    [$].  [re.match] anchors at the start of [s] with or without [^];
    [$] matches at the end of [s] and before a newline that ends [s]. *)
Definition re_match (pattern s : string) : bool :=
  let body :=
    match pattern with
    | String "^"%char rest => rest
    | _ => pattern
    end in
  if endswith "$" body
  then
    let literal := Py.lower (but_last body) in
    bool_decide (Py.lower s = literal)
    || bool_decide (Py.lower s = literal +:+ newline)
  else Py.startswith (Py.lower body) (Py.lower s).

Definition skip_patterns : list string :=
  [ "^ID$"; "^PK_"; "^FK_"; "_ID$";
    "^CREATED_"; "^UPDATED_"; "^MODIFIED_";
    "^VERSION$"; "^STATUS$"; "^FLAG$";
    "^DELETED$"; "^ACTIVE$"; "^ENABLED$";
    "^SORT_"; "^ORDER_"; "^SEQ_";
    "^TEMP_"; "^TMP_"; "^BKP_" ].

(** [_should_skip_column(column_name, data_type, table_name)]; the flag is
    [self._column_optimization]. *)
Definition _should_skip_column (column_optimization : bool)
    (column_name data_type table_name : string) : bool :=
  if negb column_optimization then false
  else if existsb (fun pattern => re_match pattern column_name) skip_patterns
  then true
  else if Py.in_list data_type ["NUMBER"; "FLOAT"; "DECIMAL"; "NUMERIC"]
  then true
  else false.

Definition high_prob_patterns : list string :=
  [ "CARD"; "CREDIT"; "DEBIT"; "PAYMENT";
    "SSN"; "SOCIAL"; "TAX";
    "EMAIL"; "MAIL"; "ADDRESS";
    "PHONE"; "TEL"; "MOBILE";
    "PASSWORD"; "PASS"; "SECRET"; "KEY";
    "NAME"; "FIRST"; "LAST"; "FULL" ].

Definition medium_prob_patterns : list string :=
  [ "USER"; "CUSTOMER"; "CLIENT";
    "ACCOUNT"; "BANK"; "FINANCIAL";
    "PERSONAL"; "PRIVATE"; "CONFIDENTIAL" ].

(** The score [_optimize_column_order] gives a column; the keywords are
    searched with [re.search(pattern, col_name, re.IGNORECASE)]. *)
Definition column_score (col_name data_type : string) : nat :=
  let score := 0 in
  let score :=
    foldl (fun score pattern =>
             if re.search (re.literal pattern) col_name
             then score + 10 else score)
          score high_prob_patterns in
  let score :=
    foldl (fun score pattern =>
             if re.search (re.literal pattern) col_name
             then score + 5 else score)
          score medium_prob_patterns in
  if Py.in_list data_type ["VARCHAR2"; "VARCHAR"; "CHAR"; "CLOB"]
  then score + 3 else score.

(** [list.sort(key=lambda x: x[2], reverse=True)]: a stable sort, highest
    key first; entries with the same key keep their order. *)
Fixpoint insert_scored (x : string * string * nat)
    (l : list (string * string * nat)) : list (string * string * nat) :=
  match l with
  | [] => [x]
  | y :: l' => if y.2 <=? x.2 then x :: y :: l' else y :: insert_scored x l'
  end.

Definition sort_scored (l : list (string * string * nat))
    : list (string * string * nat) :=
  foldr insert_scored [] l.

(** [_optimize_column_order(columns)]. *)
Definition _optimize_column_order (column_optimization : bool)
    (columns : list (string * string)) : list (string * string) :=
  if negb column_optimization then columns
  else
    let column_scores :=
      (fun c : string * string => (c.1, c.2, column_score c.1 c.2)) <$> columns in
    let column_scores := sort_scored column_scores in
    (fun x : string * string * nat => (x.1.1, x.1.2)) <$> column_scores.

(** The score of a column given as a pair, and whether a column name holds
    one of the keywords. *)
Definition score_of (c : string * string) : nat := column_score c.1 c.2.

Definition mentions (keywords : list string) (col_name : string) : bool :=
  existsb (fun pattern => re.search (re.literal pattern) col_name) keywords.

(** The column name, case folded, is [literal], with or without a newline
    at its end. *)
Definition exact_name (literal col_name : string) : bool :=
  bool_decide (Py.lower col_name = literal)
  || bool_decide (Py.lower col_name = literal +:+ newline).

(** The prefixes of the skip list, and whether a column name starts with
    one of them (case folded). *)
Definition skip_prefixes : list string :=
  [ "pk_"; "fk_"; "created_"; "updated_"; "modified_";
    "sort_"; "order_"; "seq_"; "temp_"; "tmp_"; "bkp_" ].

Definition has_skip_prefix (col_name : string) : bool :=
  existsb (fun prefix => Py.startswith prefix (Py.lower col_name)) skip_prefixes.

Definition numeric_types : list string :=
  ["NUMBER"; "FLOAT"; "DECIMAL"; "NUMERIC"].

End Columns.

(** ** [scan_opts.py]: the parameter [only] *)

Module OptionsMore.
Import ScanOpts.

(** The declared parameters with another value for [only]. *)
Definition with_only (x : pyval) (p : params) : params :=
  mkParams (show_data p) (show_all p) (sample_size p) (processes p) x
    (except_ p) (min_count p) (pattern p) (debug p) (format p)
    (only_patterns p).

End OptionsMore.

(** ** [oracle_adapter_async.py]: errors while a table is streamed *)

Module Streaming.
Import OracleAsync.

Definition retryable_errors : list string :=
  [ "ORA-12541"; "ORA-12547"; "ORA-12170";
    "ORA-12514"; "ORA-12505";
    "ORA-03113"; "ORA-03114";
    "ORA-00028"; "ORA-00068" ].

(** [_should_retry(exception)], on [str(exception)]. *)
Definition _should_retry (error_msg : string) : bool :=
  existsb (fun error => Py.contains error error_msg) retryable_errors.

(** The codes the handler of [_scan_table_streaming] gives up on. *)
Definition skip_codes : list string :=
  ["ORA-00942"; "ORA-01031"; "ORA-03113"].

Definition incr_retry_count (m : Metrics) : Metrics :=
  mkMetrics (total_rows_processed m) (total_matches_found m) (cache_hits m)
    (cache_misses m) (early_terminations m) (column_skips m)
    (batch_times m) (connection_errors m) (retry_count m + 1)
    (tables_skipped m) (tables_completed m).

(** How one pass through the [try] block of [_scan_table_streaming] ends:
    it runs to its end, or it raises an exception with the given message;
    either way after having yielded some matches. *)
Inductive try_outcome :=
| Finished (yielded : list Found)
| Failed (yielded : list Found) (error_msg : string).

(** [_scan_table_streaming] as a loop over its rounds: the body with its
    [except Exception] handler, which calls the function again on a
    retryable error.  [backend] is the body before the handler (the
    patterns compiled, then the [try] block): its outcome and what it does
    to the adapter when it is entered for the given round.  [None] is
    returned when [fuel] rounds do not end the scan. *)
Fixpoint stream_table (fuel : nat) (backend : nat -> Adapter -> try_outcome * Adapter)
    (round : nat) (self : Adapter) : option (list Found) * Adapter :=
  match fuel with
  | O => (None, self)
  | S fuel =>
      match backend round self with
      | (Finished yielded, self) => (Some yielded, self)
      | (Failed yielded error_msg, self) =>
          if existsb (fun code => Py.contains code error_msg) skip_codes then
            let self := emit (Say "Skipping table") self in
            let self := set_metrics incr_connection_errors self in
            (Some yielded, self)
          else if _should_retry error_msg then
            let self := emit (Say "Retrying table due to transient error") self in
            let self := set_metrics incr_retry_count self in
            let self := emit (Sleep (_retry_delay self)) self in
            match stream_table fuel backend (S round) self with
            | (Some more, self) => (Some (yielded ++ more), self)
            | (None, self) => (None, self)
            end
          else
            let self := emit (Say "Error scanning table") self in
            let self := set_metrics incr_connection_errors self in
            (Some yielded, self)
      end
  end.



(** A [try] block that fails in every round, with the same message and
    without a match. *)
Definition always_failing (error_msg : string) (round : nat) (self : Adapter)
    : try_outcome * Adapter :=
  (Failed [] error_msg, self).


End Streaming.

(** ** [rules.py], [match_finder.py]: custom patterns taken away *)

Module Config.
Import Rules.

(** [MatchConfig.remove_custom_pattern(name)]: the entry of the dictionary
    [custom_patterns] under [name] is deleted, when there is one; an entry
    is filed under the name of its rule. *)
Definition remove_custom_pattern (name : string) (self : MatchConfig) : MatchConfig :=
  mkMatchConfig (name_rules self) (multi_name_rules self) (token_rules self)
    (regex_rules self)
    (filter (fun r : RegexRule => Rules.name r <> name) (custom_patterns self)).

End Config.

Module Finder.
Import Rules.

(** A [MatchFinder]: its configuration and its dictionary of matches. *)
Record t := mk {
  match_config : MatchConfig;
  matches : gmap string RuleMatch.t
}.

(** [check_line(line, location)] on the object. *)
Definition check_line (line location : string) (self : t) : t :=
  mk (match_config self)
     (MatchFinder.check_line (match_config self) line location (matches self)).

(** [remove_custom_pattern(name)]: the pattern leaves the configuration,
    and every key of [self.matches] that starts with [f"{name}:"] is
    deleted. *)
Definition remove_custom_pattern (name : string) (self : t) : t :=
  let match_config := Config.remove_custom_pattern name (match_config self) in
  let keys_to_remove :=
    filter (fun k => Py.startswith (name +:+ ":") k = true)
           (map_to_list (matches self)).*1 in
  mk match_config (foldl (fun ms key => delete key ms) (matches self) keys_to_remove).

(** What holds between a record [m] and a later state [m'] of it: the
    same rule and location, and the values of [m] with more values after
    them. *)
Definition extends (m' m : RuleMatch.t) : Prop :=
  RuleMatch.name m' = RuleMatch.name m
  /\ RuleMatch.display_name m' = RuleMatch.display_name m
  /\ RuleMatch.confidence m' = RuleMatch.confidence m
  /\ RuleMatch.location m' = RuleMatch.location m
  /\ RuleMatch.values m `prefix_of` RuleMatch.values m'.

(** Two custom patterns, one named after the other with a colon inside,
    and the matches both have left for one column. *)
Definition colon_names : t :=
  let short := mkRegexRule (mkRule "card" "Card" "medium") (re.literal "4111") in
  let long := mkRegexRule (mkRule "card:test" "Card:Test" "medium") (re.literal "0000") in
  check_line "4111 0000" "T.C"
    (mk (mkMatchConfig [] [] [] [] [short; long]) ∅).

End Finder.

(** ** [oracle_adapter_async.py]: the names of tables *)

Module TableNames.

(** The double quote. *)
Definition quote : ascii := "034"%char.

(** [s.split(sep)] for a separator that is not empty: the pieces between
    the occurrences of [sep], found from left to right without overlap.
    [skip] counts the characters of a separator still to be passed over,
    [piece] is the piece read so far. *)
Fixpoint split_go (sep : string) (skip : nat) (piece : string) (s : string)
    : list string :=
  match s with
  | EmptyString => [piece]
  | String c s' =>
      match skip with
      | S k => split_go sep k piece s'
      | O => if Py.startswith sep s
             then piece :: split_go sep (Py.len sep - 1) EmptyString s'
             else split_go sep 0 (piece +:+ String c EmptyString) s'
      end
  end.

Definition split (sep s : string) : list string := split_go sep 0 EmptyString s.

(** [s.strip(chars)]: the characters of [chars] removed from both ends. *)
Definition among (chars : string) (c : ascii) : bool :=
  Py.any_chars (fun d => bool_decide (d = c)) chars.

Fixpoint lstrip_chars (chars s : string) : string :=
  match s with
  | EmptyString => EmptyString
  | String c s' => if among chars c then lstrip_chars chars s' else s
  end.

Fixpoint rstrip_chars (chars s : string) : string :=
  match s with
  | EmptyString => EmptyString
  | String c s' =>
      match rstrip_chars chars s' with
      | EmptyString => if among chars c then EmptyString
                       else String c EmptyString
      | r => String c r
      end
  end.

Definition strip_chars (chars s : string) : string :=
  rstrip_chars chars (lstrip_chars chars s).

(** One entry of the list [fetch_tables] returns, for a row
    [(owner, table)] of the catalogue: the two names in double quotes with
    a dot between them. *)
Definition qualified (owner table : string) : string :=
  String quote owner
  +:+ String quote (String "."%char (String quote table))
  +:+ String quote EmptyString.

Definition fetch_tables (rows : list (string * string)) : list string :=
  (fun row => qualified row.1 row.2) <$> rows.

(** The separator the scan splits a name at: quote, dot, quote. *)
Definition separator : string :=
  String quote (String "."%char (String quote EmptyString)).

(** The head of [_scan_table_streaming]: the owner and the table name read
    off the entry.  [user_upper] is [self._user.upper()]; [None] is the
    [IndexError] of [parts[1]]. *)
Definition parse_table (user_upper table : string) : option (string * string) :=
  if Py.contains (String quote EmptyString) table then
    let parts := split separator table in
    match parts with
    | part0 :: part1 :: _ =>
        let owner := strip_chars (String quote EmptyString) part0 in
        let table_name := strip_chars (String quote EmptyString) part1 in
        Some (owner, table_name)
    | _ => None
    end
  else
    let owner := user_upper in
    let table_name := table in
    Some (owner, table_name).

End TableNames.

(** ** [oracle_adapter_async.py]: one batch of rows *)

Module Batches.
Import OracleAsync Columns.

(** A match dictionary as [_optimized_batch_processing] yields it. *)
Record Match := mkMatch {
  path : string;
  value : string;
  table : string;
  column : string;
  full_value : string;
  rule : string;
  data_type : string
}.

Definition incr_column_skips (m : Metrics) : Metrics :=
  mkMetrics (total_rows_processed m) (total_matches_found m) (cache_hits m)
    (cache_misses m) (early_terminations m) (column_skips m + 1)
    (batch_times m) (connection_errors m) (retry_count m)
    (tables_skipped m) (tables_completed m).

Definition incr_total_matches_found (m : Metrics) : Metrics :=
  mkMetrics (total_rows_processed m) (total_matches_found m + 1) (cache_hits m)
    (cache_misses m) (early_terminations m) (column_skips m)
    (batch_times m) (connection_errors m) (retry_count m)
    (tables_skipped m) (tables_completed m).

(** [cols.index(col)]: the position of the first entry equal to [col];
    [None] is [ValueError]. *)
Fixpoint index (col : string * string) (cols : list (string * string))
    : option nat :=
  match cols with
  | [] => None
  | c :: rest => if bool_decide (c = col) then Some 0 else S <$> index col rest
  end.

(** How the generator ends: it is exhausted, or an exception leaves it. *)
Inductive ending :=
| Exhausted
| IndexError
| ValueError.

(** The dictionary yielded for a hit of the value [str_val] of a column. *)
Definition yield_of (table col_name str_val : string) (m : Hit) : Match :=
  mkMatch (table +:+ "." +:+ col_name) str_val table col_name str_val
          (pattern_name m) "text".

(** The local set [processed_values], the adapter and the matches yielded
    so far. *)
Record State := mkState {
  processed_values : gset string;
  adapter : Adapter;
  yielded : list Match
}.

Section Processing.

Variable md5_hexdigest : string -> string.
Variable cfg : Config.

(** [self._column_optimization] and [self._batch_optimization]. *)
Variable column_optimization : bool.
Variable batch_optimization : bool.

Variable table : string.
Variable compiled_patterns : list (string * re.Pattern).

(** The plain loop over one row: [for col, val in zip(cols, row)].  A cell
    is [None] or holds a value, given by its [str(val)]. *)
Definition plain_row (cols : list (string * string)) (row : list (option string))
    : list Match :=
  zip cols row ≫= fun cell =>
    match cell.2 with
    | None => []
    | Some str_val =>
        yield_of table cell.1.1 str_val
        <$> _batch_match_patterns str_val compiled_patterns
    end.

(** The optimised loop over the columns of one row; [cols] is the whole
    list, [todo] what is left of it. *)
Fixpoint scan_cols (cols : list (string * string)) (row : list (option string))
    (todo : list (string * string)) (st : State) : State * ending :=
  match todo with
  | [] => (st, Exhausted)
  | (col_name, data_type) :: todo =>
      if _should_skip_column column_optimization col_name data_type table then
        scan_cols cols row todo
          (mkState (processed_values st)
                   (set_metrics incr_column_skips (adapter st)) (yielded st))
      else
        match index (col_name, data_type) cols with
        | None => (st, ValueError)
        | Some i =>
            match row !! i with
            | None => (st, IndexError)
            | Some None => scan_cols cols row todo st
            | Some (Some str_val) =>
                if bool_decide (str_val ∈ processed_values st)
                then scan_cols cols row todo st
                else
                  let processed_values := {[str_val]} ∪ processed_values st in
                  let '(matches, self) :=
                    _optimized_pattern_matching md5_hexdigest cfg str_val
                      compiled_patterns (adapter st) in
                  let self :=
                    foldl (fun self _ => set_metrics incr_total_matches_found self)
                          self matches in
                  scan_cols cols row todo
                    (mkState processed_values self
                       (yielded st ++ (yield_of table col_name str_val <$> matches)))
            end
        end
  end.

Fixpoint scan_rows (cols : list (string * string))
    (rows : list (list (option string))) (st : State) : State * ending :=
  match rows with
  | [] => (st, Exhausted)
  | row :: rows =>
      match scan_cols cols row cols st with
      | (st, Exhausted) => scan_rows cols rows st
      | stopped => stopped
      end
  end.

(** [_optimized_batch_processing(rows, cols, compiled_patterns, table)], run
    until the generator ends: the matches yielded, the adapter afterwards
    and how it ended. *)
Definition _optimized_batch_processing (rows : list (list (option string)))
    (cols : list (string * string)) (self : Adapter)
    : list Match * Adapter * ending :=
  if negb batch_optimization then
    (rows ≫= plain_row cols, self, Exhausted)
  else
    let '(st, e) := scan_rows cols rows (mkState ∅ self []) in
    (yielded st, adapter st, e).

End Processing.

(** What the optimised loop keeps true of its state, [base] being the
    matches counted before the batch: the matches counted since are the
    matches yielded, every value yielded is in [processed_values], a value
    is yielded for one column only, and that column is a column of the
    table that is not skipped. *)
Definition batch_inv (column_optimization : bool) (table : string)
    (cols : list (string * string)) (base : Z) (st : State) : Prop :=
  total_matches_found (_metrics (adapter st))
  = (base + Z.of_nat (length (yielded st)))%Z
  /\ (forall y, y ∈ yielded st -> value y ∈ processed_values st)
  /\ (forall y1 y2, y1 ∈ yielded st -> y2 ∈ yielded st ->
        value y1 = value y2 -> column y1 = column y2)
  /\ (forall y, y ∈ yielded st ->
        exists data_type, (column y, data_type) ∈ cols
          /\ _should_skip_column column_optimization (column y) data_type table = false
          /\ path y = table +:+ "." +:+ column y).

(** Two rows of a table of customers; the mail address of the second row
    stands in two columns. *)
Definition customer_cols : list (string * string) :=
  [("ID", "NUMBER"); ("EMAIL", "VARCHAR2"); ("CONTACT", "VARCHAR2")].

Definition customer_rows : list (list (option string)) :=
  [ [Some "1"; Some "ann@example.com"; None];
    [Some "2"; Some "bob@example.com"; Some "bob@example.com"] ].

Definition mail_pattern : list (string * re.Pattern) :=
  [("email", re.literal "@example.com")].

(** Two patterns that both match a mail address, and the options with
    pattern optimisation off, under which every pattern is tried. *)
Definition mail_patterns : list (string * re.Pattern) :=
  [("email", re.literal "@example.com"); ("domain", re.literal "example.com")].

Definition every_pattern_tried : Config :=
  {| fetch_size := 10000; early_termination := true; value_caching := true;
     pattern_optimization := false; adaptive_batch := true;
     min_batch_size := 1000; max_batch_size := 50000;
     retry_attempts := 3; show_all := false |}.

End Batches.

(** ** [oracle_adapter_async.py]: the whole scan *)

Module Scan.
Import OracleAsync.

(** The codes [scan] ends the process on. *)
Definition critical_codes : list string :=
  ["ORA-01017"; "ORA-12514"; "TNS-12541"; "ORA-12547"; "ORA-12170"].

(** [str(e)]. *)
Definition message (e : exc) : string :=
  match e with
  | CxOracleError msg => msg
  | OtherException msg => msg
  end.

(** The exceptions of [get_patterns] as [scan] catches them; their
    messages name Python types and attributes. *)
Definition of_exn (e : Catalog.exn) : exc :=
  match e with
  | Catalog.AttributeError attr =>
      OtherException ("object has no attribute '" +:+ attr +:+ "'")
  | Catalog.TypeError => OtherException "argument is not iterable"
  end.

(** How [scan] ends: it returns its list of matches, or [sys.exit(code)]
    leaves it. *)
Inductive scan_result :=
| Matches (matches : list Found)
| SystemExit (code : Z)
| Unfinished.

(** [disconnect()]; [self.conn] is [None] throughout. *)
Definition disconnect (self : Adapter) : Adapter :=
  match _pool self with
  | Some _ => set_pool None self
  | None => self
  end.

(** [fetch_tables()]: a connection is taken from the pool, and the rows
    [catalogue] of the query, or its exception, come back. *)
Definition fetch_tables (catalogue : exc + list (string * string))
    (self : Adapter) : exc + list string :=
  match _pool self with
  | None => inl (OtherException "'NoneType' object has no attribute 'acquire'")
  | Some _ =>
      match catalogue with
      | inl e => inl e
      | inr tables => inr (TableNames.fetch_tables tables)
      end
  end.

Section Run.

Variable re_compile : string -> option re.Pattern.
Variable cfg : Config.

(** [scan(options)].  [backend] is the database as [connect] meets it,
    [catalogue] what the query of [fetch_tables] gives, [body_of] the
    [try] block of [_scan_table_streaming] for each table. *)
Definition scan (backend : Z -> attempt_outcome)
    (catalogue : exc + list (string * string))
    (body_of : string -> list (string * re.Pattern) -> Adapter -> list Found * Adapter)
    (options : gmap string ScanOpts.pyval) (self : Adapter)
    : scan_result * Adapter :=
  let matches : list Found := [] in
  let handler (e : exc) (self : Adapter) : scan_result * Adapter :=
    let error_msg := message e in
    if existsb (fun code => Py.contains code error_msg) critical_codes then
      let self := emit (Say "Critical error during scan") self in
      (SystemExit 1, disconnect self)
    else
      let self := emit (Say "Minor error during scan, continuing") self in
      let self := disconnect self in
      (Matches matches, emit (Say "Scan completed") self) in
  match connect cfg backend self with
  | (OutOfFuel, self) => (Unfinished, self)
  | (Raised e, self) => handler e self
  | (Returned, self) =>
      match fetch_tables catalogue self with
      | inl e => handler e self
      | inr tables =>
          let self := emit (Say "Found tables to scan") self in
          let self := start_progress (length tables) self in
          match Catalog.get_patterns options with
          | Catalog.Raise e => handler (of_exn e) self
          | Catalog.Ok patterns =>
              let self := emit (Say "Using patterns for scanning") self in
              let '(found, self) :=
                scan_units re_compile patterns
                  ((fun table => (table, body_of table)) <$> tables) self in
              let matches := matches ++ found in
              let self := disconnect self in
              (Matches matches, emit (Say "Scan completed") self)
          end
      end
  end.

End Run.

(** A table that holds one mail address, and options whose inclusion
    filter is a number. *)
Definition one_address (table : string) (compiled : list (string * re.Pattern))
    (self : Adapter) : list Found * Adapter :=
  ([mkFound (table +:+ ".EMAIL") "ann@example.com" table "EMAIL" "email"], self).

Definition numeric_filter : gmap string ScanOpts.pyval :=
  ScanOpts.__init__ ScanOpts.defaults [("only_patterns", ScanOpts.PInt 5)].

End Scan.

(** ** [oracle_adapter_async.py]: the columns of a table *)

Module ValidColumns.
Import ScanOpts Catalog Columns.

Definition credit_card_names : list string :=
  ["creditcard"; "credit-card"; "credit_card"].

(** The data types of the two queries. *)
Definition text_types : list string :=
  ["CHAR"; "VARCHAR"; "VARCHAR2"; "CLOB"; "NCHAR"; "NVARCHAR2"; "NCLOB"].

Definition all_types : list string :=
  ["CHAR"; "VARCHAR"; "VARCHAR2"; "CLOB"; "NCHAR"; "NVARCHAR2"; "NCLOB";
   "NUMBER"; "FLOAT"; "DECIMAL"; "NUMERIC"].

(** [any('credit' in p.lower() for p in v)]; a string is gone through
    character by character. *)
Definition any_credit (v : pyval) : result bool :=
  match v with
  | PList l => Ok (existsb (fun p => Py.contains "credit" (Py.lower p)) l)
  | PStr s =>
      Ok (Py.any_chars
            (fun c => Py.contains "credit" (Py.lower (String c EmptyString))) s)
  | _ => Raise TypeError
  end.

(** The flag [is_credit_card_scan]; [options] may be [None]. *)
Definition is_credit_card_scan (options : option (gmap string pyval))
    : result bool :=
  match options with
  | None => Ok false
  | Some options =>
      pattern ← getattr options "pattern";
      if truthy pattern then
        match pattern with
        | PStr s => Ok (Py.in_list (Py.lower s) credit_card_names)
        | _ => Raise (AttributeError "lower")
        end
      else
        only_patterns ← getattr options "only_patterns";
        if truthy only_patterns then any_credit only_patterns
        else Ok false
  end.

(** [_get_valid_columns(owner, table_name, options)] on a connection that
    works; [catalogue] lists the columns of the table with their data
    types, as [all_tab_columns] has them. *)
Definition _get_valid_columns (column_optimization : bool)
    (catalogue : list (string * string)) (options : option (gmap string pyval))
    : result (list (string * string)) :=
  is_credit_card_scan ← is_credit_card_scan options;
  let columns :=
    filter (fun row : string * string =>
              row.2 ∈ (if is_credit_card_scan : bool then text_types else all_types))
           catalogue in
  let columns :=
    if column_optimization
    then _optimize_column_order column_optimization columns
    else columns in
  Ok columns.

(** The columns the optimised batch loop looks into. *)
Definition examined (column_optimization : bool) (table : string)
    (cols : list (string * string)) : list (string * string) :=
  filter (fun c : string * string =>
            _should_skip_column column_optimization c.1 c.2 table = false) cols.

(** A table of accounts, and the options of a scan for card numbers. *)
Definition account_columns : list (string * string) :=
  [ ("ID", "NUMBER"); ("BALANCE", "NUMBER"); ("OPENED", "DATE");
    ("OWNER_NAME", "VARCHAR2"); ("CARD_NUMBER", "CHAR") ].

Definition card_scan : gmap string pyval :=
  ScanOpts.__init__ ScanOpts.defaults [("only_patterns", PList ["credit_card"])].

End ValidColumns.

(** * Vocabulary of the specification *)

(** ** Token rules *)

Module TokenSpec.

(** The token stands as a word of its own: blanks, or the ends of the
    line, on both sides (case folded). *)
Definition whole_word (line token : string) : Prop :=
  Py.contains (" " +:+ Py.lower token +:+ " ") (" " +:+ Py.lower line +:+ " ") = true.
(** The token occurs somewhere in the line (case folded). *)
Definition occurs (token line : string) : Prop :=
  Py.contains (Py.lower token) (Py.lower line) = true.
(** The two token families that have a validator. *)
Definition connection_tokens : list string :=
  ["jdbc:"; "mysql://"; "postgresql://"; "mongodb://"; "redis://"; "oracle://"].
Definition path_tokens : list string :=
  ["/home/"; "/var/"; "c:\"; "d:\"; "/tmp/"; "/usr/"].
Definition is_connection_token (token : string) : Prop :=
  Py.lower token ∈ connection_tokens.
Definition is_path_token (token : string) : Prop :=
  Py.lower token ∈ path_tokens.

Definition has_url_marker (line : string) : Prop :=
  Py.contains "://" (Py.lower line) = true
  \/ Py.contains "jdbc:" (Py.lower line) = true.

Definition has_separator (s : string) : Prop :=
  Py.contains "/" s = true \/ Py.contains "\" s = true.

(** A separator outside of some occurrence of the token. *)
Definition separator_elsewhere (line token : string) : Prop :=
  exists a b, Py.lower line = a +:+ Py.lower token +:+ b
              /\ (has_separator a \/ has_separator b).

Definition validator_passes (line token : string) : Prop :=
  (is_connection_token token /\ occurs token line /\ has_url_marker line)
  \/ (is_path_token token /\ separator_elsewhere line token).

(** Token matching as the specification words it: a hit needs a whole word
    or a passing validator. *)
Definition stated_token_rule (line token : string) : Prop :=
  MatchFinder._token_match line token = true ->
  whole_word line token \/ validator_passes line token.

End TokenSpec.

(** ** Early rejection *)

Module RejectSpec.









End RejectSpec.

(** ** Match aggregation *)

Module AggregatorSpec.
Import Rules MatchFinder.

(** The hits a regex contributes for a rule: one per match, with the
    matched text. *)
Definition regex_hits (rule : Rule) (rx : re.Pattern) (line location : string)
    : list (Rule * string * string) :=
  (fun v => (rule, v, location)) <$> re.finditer rx line.

(** Every (rule, value, location) that one [check_line] call passes to
    [_add_match], in the order of the call. *)
Definition line_hits (cfg : MatchConfig) (line location : string)
    : list (Rule * string * string) :=
  (name_rules cfg ≫= fun r : RegexRule =>
     regex_hits r (regex r) line location)
  ++ (multi_name_rules cfg ≫= fun r : MultiRule =>
        regexes r ≫= fun rx => regex_hits r rx line location)
  ++ (token_rules cfg ≫= fun r : TokenRule =>
        tokens r ≫= fun token =>
          if _token_match line token
          then [(token_rule r, line, location)] else [])
  ++ (regex_rules cfg ≫= fun r : RegexRule =>
        regex_hits r (regex r) line location)
  ++ (custom_patterns cfg ≫= fun r : RegexRule =>
        regex_hits r (regex r) line location).

(** The hits of a run of [check_line] calls. *)
Definition run_hits (calls : list (MatchConfig * string * string))
    : list (Rule * string * string) :=
  calls ≫= fun call => line_hits call.1.1 call.1.2 call.2.

(** [_add_match] applied to a list of hits. *)
Definition add_hits (hits : list (Rule * string * string))
    (matches : gmap string RuleMatch.t) : gmap string RuleMatch.t :=
  foldl (fun ms h => _add_match h.1.1 h.1.2 h.2 ms) matches hits.

(** The record a first hit creates. *)
Definition new_record (rule : Rule) (location : string) : RuleMatch.t :=
  RuleMatch.mk (name rule) (display_name rule) (confidence rule) location [].

(** A record after one more value was offered to it. *)
Definition offer (value : string) (m : RuleMatch.t) : RuleMatch.t :=
  if Py.in_list (_normalize_value value) (_normalize_value <$> RuleMatch.values m)
  then m
  else RuleMatch.mk (RuleMatch.name m) (RuleMatch.display_name m)
         (RuleMatch.confidence m) (RuleMatch.location m)
         (RuleMatch.values m ++ [value]).



(** A configuration that holds the token rules of [MatchConfig] only, and
    two lines of one column that differ in case and spacing. *)
Definition token_only : MatchConfig :=
  mkMatchConfig [] [] default_token_rules [] [].

Definition two_spellings : list (MatchConfig * string * string) :=
  [(token_only, "my api key", "users.note");
   (token_only, "MY  API   key", "users.note")].

End AggregatorSpec.

(** ** Connecting *)

Module ConnectSpec.
Import OracleAsync.

(** The exception an attempt ends in, if any. *)
Definition raised (o : attempt_outcome) : option exc :=
  match o with
  | Connected _ => None
  | PoolFailed e => Some e
  | TestFailed _ e => Some e
  end.

(** The attempt fails: it raises [cx_Oracle.Error]. *)
Definition fails (o : attempt_outcome) : Prop :=
  exists msg, raised o = Some (CxOracleError msg).

(** A database that is down: every attempt fails to create the pool. *)
Definition down (attempt : Z) : attempt_outcome :=
  PoolFailed (CxOracleError "ORA-12541").

(** A database that comes up for the third attempt. *)
Definition up_at_third (attempt : Z) : attempt_outcome :=
  if (attempt <? 2)%Z then PoolFailed (CxOracleError "ORA-12541")
  else Connected 0.

(** The default options with a retry budget of zero. *)
Definition plain_zero : Config :=
  {| fetch_size := 10000; early_termination := true; value_caching := true;
     pattern_optimization := true; adaptive_batch := true;
     min_batch_size := 1000; max_batch_size := 50000;
     retry_attempts := 0; show_all := false |}.

End ConnectSpec.

(** ** Adaptive batch size *)

Module BatchSpec.
Import OracleAsync.





(** The bounds as the specification words them, for a run of batches. *)
Definition stated_bounds (cfg : Config) (batch_times : list Q) : Prop :=
  (min_batch_size cfg <= current_batch_size (after_batches cfg batch_times)
   <= max_batch_size cfg)%Z.

(** The default options with a fetch size of 500 rows. *)
Definition small_fetch : Config :=
  {| fetch_size := 500; early_termination := true; value_caching := true;
     pattern_optimization := true; adaptive_batch := true;
     min_batch_size := 1000; max_batch_size := 50000;
     retry_attempts := 3; show_all := false |}.

End BatchSpec.

(** ** The pattern catalog *)

Module CatalogSpec.
Import ScanOpts Catalog.


Definition regex_value (r : option string) : pyval :=
  match r with
  | None => PNone
  | Some text => PStr text
  end.


(** The names a pair of filters excludes: an inclusion filter excludes
    what it does not list, and otherwise an exclusion filter excludes what
    it lists; an absent or empty filter excludes nothing. *)
Definition excluded (only exc : option (list string)) (n : string) : bool :=
  match only with
  | Some ((_ :: _) as l) => negb (Py.in_list n l)
  | _ =>
      match exc with
      | Some ((_ :: _) as l) => Py.in_list n l
      | _ => false
      end
  end.

(** The ad-hoc pattern a caller's option contributes. *)
Definition ad_hoc (pattern : pyval) : list Pattern :=
  if truthy pattern then [mkPattern "custom" pattern "Custom pattern"] else [].

(** The catalog as the specification words it: the defaults without the
    excluded names, then the ad-hoc pattern. *)
Definition stated_patterns (only exc : option (list string))
    (pattern : option string) : list Pattern :=
  List.filter (fun p => negb (excluded only exc (name p))) _get_default_patterns
  ++ ad_hoc (regex_value pattern).

(** The declared parameters with another value for [except_]. *)
Definition with_except_ (x : pyval) (p : params) : params :=
  mkParams (show_data p) (show_all p) (sample_size p) (processes p) (only p)
    x (min_count p) (pattern p) (debug p) (format p) (only_patterns p).

(** Options as a caller writes them: an inclusion list with a name that
    is no pattern, and an ad-hoc regex. *)
Definition email_and_unknown : params :=
  mkParams (PBool false) (PBool false) (PInt 1000) (PInt 1) PNone PNone
    (PInt 1) (PStr "\d{7}") (PBool false) (PStr "text")
    (PList ["bogus"; "email"]).

End CatalogSpec.

(** ** Progress accounting *)

Module ProgressSpec.
Import ScanOpts Catalog OracleAsync.

(** A stand-in for [re.compile] in examples: the text "(" is rejected, as
    [re] does ("missing ), unterminated subpattern"); any other text is
    taken as a literal. *)
Definition rejects_open_paren (text : string) : option re.Pattern :=
  if bool_decide (text = "(") then None else Some (re.literal text).

(** Options with an ad-hoc regex that does not compile, and an inclusion
    filter that leaves no default pattern. *)
Definition bad_regex_options : params :=
  mkParams (PBool false) (PBool false) (PInt 1000) (PInt 1) PNone PNone
    (PInt 1) (PStr "(") (PBool false) (PStr "text") (PList ["-"]).

(** The pattern list [get_patterns] returns for them. *)
Definition bad_patterns : list Pattern :=
  [mkPattern "custom" (PStr "(") "Custom pattern"].

(** A [try] block that finds nothing. *)
Definition empty_table (compiled : list (string * re.Pattern)) (self : Adapter)
    : list Found * Adapter :=
  ([], self).

End ProgressSpec.

(** * Properties *)

(** ** Strings *)

Section StringFacts.

Lemma str_app_nil_l (s : string) : "" +:+ s = s.
Proof. reflexivity. Qed.

Lemma str_app_cons (c : ascii) (s t : string) : String c s +:+ t = String c (s +:+ t).
Proof. reflexivity. Qed.

Lemma str_app_nil_r (s : string) : s +:+ "" = s.
Proof. induction s as [|c s IH]; [done|]. by rewrite str_app_cons, IH. Qed.

Lemma str_app_assoc (s t u : string) : (s +:+ t) +:+ u = s +:+ (t +:+ u).
Proof. induction s as [|c s IH]; [done|]. by rewrite !str_app_cons, IH. Qed.

Lemma str_len_app (s t : string) : Py.len (s +:+ t) = Py.len s + Py.len t.
Proof.
  unfold Py.len. induction s as [|c s IH]; [done|].
  rewrite str_app_cons. cbn. by rewrite IH.
Qed.

Lemma lower_app (s t : string) : Py.lower (s +:+ t) = Py.lower s +:+ Py.lower t.
Proof. induction s as [|c s IH]; [done|]. rewrite str_app_cons. cbn. by rewrite IH. Qed.

Lemma startswith_spec (p s : string) :
  Py.startswith p s = true <-> exists r, s = p +:+ r.
Proof.
  revert s. induction p as [|a p IH]; intros s.
  - split; [intros _; by exists s | done].
  - destruct s as [|b s]; cbn.
    + split; [done | intros [r Hr]; discriminate].
    + rewrite andb_true_iff, bool_decide_eq_true, IH. split.
      * intros [-> [r ->]]. by exists r.
      * intros [r Hr]. rewrite str_app_cons in Hr. injection Hr as -> ->. eauto.
Qed.

Lemma contains_spec (n h : string) :
  Py.contains n h = true <-> exists a b, h = a +:+ n +:+ b.
Proof.
  induction h as [|c h IH].
  - cbn. rewrite orb_false_r, startswith_spec. split.
    + intros [r Hr]. by exists "", r.
    + intros [a [b Hab]]. destruct a; [by exists b | discriminate].
  - cbn [Py.contains]. rewrite orb_true_iff, startswith_spec, IH. split.
    + intros [[r Hr] | [a [b Hab]]].
      * by exists "", r.
      * exists (String c a), b. by rewrite str_app_cons, Hab.
    + intros [a [b Hab]]. destruct a as [|d a].
      * left. by exists b.
      * right. rewrite str_app_cons in Hab. injection Hab as -> ->. eauto.
Qed.

Lemma contains_trans (a b c : string) :
  Py.contains a b = true -> Py.contains b c = true -> Py.contains a c = true.
Proof.
  rewrite !contains_spec. intros [x [y ->]] [u [v ->]].
  exists (u +:+ x), (y +:+ v). by rewrite !str_app_assoc.
Qed.

Lemma blank_tail_prefix (t l b : string) :
  l +:+ " " = t +:+ " " +:+ b -> exists b', l = t +:+ b'.
Proof.
  revert l. induction t as [|c t IH]; intros l H.
  - by exists l.
  - destruct l as [|d l].
    + injection H as _ H. destruct t; discriminate.
    + rewrite !str_app_cons in H. injection H as -> H.
      destruct (IH _ H) as [b' ->]. by exists b'.
Qed.

Lemma blank_tail_infix (a t l b : string) :
  l +:+ " " = a +:+ " " +:+ t +:+ " " +:+ b -> exists x y, l = x +:+ t +:+ y.
Proof.
  revert l. induction a as [|e a IH]; intros l H.
  - destruct l as [|d l].
    + injection H as H. destruct t; discriminate.
    + rewrite str_app_nil_l in H. change (" " +:+ t +:+ " " +:+ b)
        with (String " " (t +:+ " " +:+ b)) in H.
      rewrite str_app_cons in H. injection H as -> H.
      destruct (blank_tail_prefix _ _ _ H) as [b' ->]. by exists " ", b'.
  - destruct l as [|d l].
    + injection H as _ H. destruct a; discriminate.
    + rewrite !str_app_cons in H. injection H as -> H.
      destruct (IH _ H) as [x [y ->]]. by exists (String e x), y.
Qed.

(** A token delimited by blanks inside the blank-padded line occurs in the
    line itself. *)
Lemma whole_word_contains (t l : string) :
  Py.contains (" " +:+ t +:+ " ") (" " +:+ l +:+ " ") = true ->
  Py.contains t l = true.
Proof.
  rewrite !contains_spec. intros [a [b H]].
  rewrite !str_app_assoc in H. destruct a as [|e a].
  - rewrite str_app_nil_l in H.
    change (" " +:+ ?x) with (String " " x) in H. injection H as H.
    destruct (blank_tail_prefix _ _ _ H) as [b' ->]. by exists "", b'.
  - change (" " +:+ l +:+ " ") with (String " " (l +:+ " ")) in H.
    rewrite str_app_cons in H. injection H as _ H.
    destruct (blank_tail_infix _ _ _ _ H) as [x [y ->]]. by exists x, y.
Qed.

End StringFacts.


(** ** Token matching *)

Section TokenMatch.
Import MatchFinder TokenSpec.

Lemma connection_token_marker (t l : string) :
  t ∈ connection_tokens -> Py.contains t l = true ->
  Py.contains "://" l || Py.contains "jdbc:" l = true.
Proof.
  intros Ht Hc. apply orb_true_iff.
  unfold connection_tokens in Ht.
  repeat (apply elem_of_cons in Ht as [-> | Ht]);
    try (by apply elem_of_nil in Ht);
    first [ right; exact Hc
          | left; refine (contains_trans _ _ _ _ Hc); reflexivity ].
Qed.

Lemma path_token_separator (t l : string) :
  t ∈ path_tokens -> Py.contains t l = true ->
  existsb (fun path => Py.contains path l) ["/"; "\"] = true.
Proof.
  intros Ht Hc. cbn [existsb]. rewrite orb_false_r. apply orb_true_iff.
  unfold path_tokens in Ht.
  repeat (apply elem_of_cons in Ht as [-> | Ht]);
    try (by apply elem_of_nil in Ht);
    first [ left; refine (contains_trans _ _ _ _ Hc); reflexivity
          | right; refine (contains_trans _ _ _ _ Hc); reflexivity ].
Qed.

Lemma token_match_substring (line token : string) :
  _token_match line token = Py.contains (Py.lower token) (Py.lower line).
Proof.
  unfold _token_match, Py.in_list.
  destruct (Py.contains (" " +:+ _ +:+ " ") _) eqn:Hw.
  - symmetry. by apply whole_word_contains.
  - destruct (Py.contains (Py.lower token) _) eqn:Hc; [|done].
    case_bool_decide as Hconn.
    + by apply connection_token_marker with (t := Py.lower token).
    + case_bool_decide as Hpath; [|done].
      by apply path_token_separator with (t := Py.lower token).
Qed.

End TokenMatch.

Section TokenRule.
Import MatchFinder TokenSpec.

(** C3, as stated, fails: the token "key" hits the line "monkey", where it
    is no word of its own and belongs to no family with a validator. *)
Lemma token_rule_counterexample : ~ stated_token_rule "monkey" "key".
Proof.
  intros H. destruct (H eq_refl) as [Hw | [[Hc _] | [Hp _]]].
  - discriminate Hw.
  - unfold is_connection_token, connection_tokens in Hc.
    change (Py.lower "key") with "key" in Hc.
    repeat (apply elem_of_cons in Hc as [Hc | Hc]; [discriminate Hc|]).
    by apply elem_of_nil in Hc.
  - unfold is_path_token, path_tokens in Hp.
    change (Py.lower "key") with "key" in Hp.
    repeat (apply elem_of_cons in Hp as [Hp | Hp]; [discriminate Hp|]).
    by apply elem_of_nil in Hp.
Qed.

(** C3, amended: a token hits exactly when it is a whole word of the line
    or occurs in it with the validator of its family passed, where the
    connection-string validator asks for "://" or "jdbc:" anywhere in the
    line, the path validator for a separator anywhere in the line, and a
    token of neither family needs no validator; and since every family
    token carries its own marker, a plain occurrence of the token in the
    line is always enough for a hit. *)
Theorem token_match_amended (line token : string) :
  (_token_match line token = true <->
     whole_word line token
     \/ (occurs token line
         /\ (is_connection_token token -> has_url_marker line)
         /\ (is_path_token token -> has_separator (Py.lower line))))
  /\ (occurs token line -> _token_match line token = true).
Proof.
  rewrite token_match_substring. split; [|done]. split.
  - intros Hc. right. split; [done|]. split.
    + intros Ht. apply orb_true_iff. by eapply connection_token_marker.
    + intros Ht. pose proof (path_token_separator _ _ Ht Hc) as Hs.
      cbn [existsb] in Hs. rewrite orb_false_r in Hs.
      by apply orb_true_iff in Hs.
  - intros [Hw | [Hc _]]; [by apply whole_word_contains | done].
Qed.

(** A line in which the token "secret" is only part of a longer word. *)
Lemma token_match_amended_witness :
  _token_match "topsecrets" "secret" = true.
Proof. by apply (proj2 (token_match_amended "topsecrets" "secret")). Defined.

End TokenRule.

(** ** Early rejection and the value cache *)

Section EarlyRejection.
Import OracleAsync RejectSpec.


(** The check does not look at the patterns. *)
Lemma early_termination_check_patterns (cfg : Config) (v : string)
    (ps qs : list (string * re.Pattern)) :
  _early_termination_check cfg v ps = _early_termination_check cfg v qs.
Proof. reflexivity. Qed.

(** A value met a second time is answered from the cache, whatever the
    patterns of the second call are. *)
Lemma second_lookup_is_cached (md5 : string -> string) (cfg : Config) (v : string)
    (ps qs : list (string * re.Pattern)) (self : Adapter) :
  pattern_optimization cfg = true -> value_caching cfg = true ->
  _early_termination_check cfg v ps = false ->
  let first := _optimized_pattern_matching md5 cfg v ps self in
  (_optimized_pattern_matching md5 cfg v qs first.2).1 = first.1.
Proof.
  intros Hopt Hcache Hkeep. cbn zeta.
  unfold _optimized_pattern_matching.
  rewrite Hopt. cbn [negb].
  rewrite (early_termination_check_patterns cfg v qs ps), Hkeep.
  unfold _is_value_cached, _get_cached_result, _cache_value_result.
  rewrite Hcache. cbn [negb].
  destruct (_value_cache self !! _hash_value md5 v) as [old|] eqn:Hold.
  - cbn. by rewrite Hold.
  - cbn. by rewrite lookup_insert_eq.
Qed.

End EarlyRejection.

Section EarlyRejectionClaims.
Import OracleAsync RejectSpec.




(** C10: the cache is keyed by the value alone.  The value
    "4111-1111-1111-1111" evaluated first under an email-only pattern set
    and then under a credit-card pattern set returns the memoized (empty)
    result of the first set, although the second set alone matches it. *)
Theorem cache_ignores_pattern_set (md5 : string -> string) :
  exists (v : string) (ps qs : list (string * re.Pattern)),
    let first := _optimized_pattern_matching md5 default_config v ps (fresh 1) in
    let second := _optimized_pattern_matching md5 default_config v qs first.2 in
    let alone := _optimized_pattern_matching md5 default_config v qs (fresh 1) in
    value_caching default_config = true
    /\ ps.*1 <> qs.*1
    /\ second.1 = first.1
    /\ alone.1 = [mkHit "credit_card" v]
    /\ alone.1 <> first.1.
Proof.
  exists "4111-1111-1111-1111",
    [("email", re.literal "@")], [("credit_card", re.literal "4111")].
  cbn zeta. split; [done|]. split; [done|]. split.
  { by apply second_lookup_is_cached. }
  assert (Hfirst :
    (_optimized_pattern_matching md5 default_config "4111-1111-1111-1111"
       [("email", re.literal "@")] (fresh 1)).1 = []).
  { unfold _optimized_pattern_matching, _is_value_cached, _get_cached_result.
    cbn [pattern_optimization value_caching default_config negb].
    change (_early_termination_check _ _ _) with false. cbn iota.
    change (_value_cache (fresh 1)) with (∅ : gmap string (list Hit)).
    by rewrite lookup_empty. }
  rewrite Hfirst.
  unfold _optimized_pattern_matching, _is_value_cached, _get_cached_result.
    cbn [pattern_optimization value_caching default_config negb].
    change (_early_termination_check _ _ _) with false. cbn iota.
    change (_value_cache (fresh 1)) with (∅ : gmap string (list Hit)).
    rewrite lookup_empty. cbn. split; [done|]. discriminate.
Qed.

End EarlyRejectionClaims.

(** ** Match aggregation *)

Section Aggregation.
Import Rules MatchFinder AggregatorSpec.

Lemma foldl_bind {A B C} (f : A -> C -> A) (g : B -> list C) (l : list B) (a : A) :
  foldl f a (l ≫= g) = foldl (fun a x => foldl f a (g x)) a l.
Proof.
  revert a. induction l as [|x l IH]; intros a; [done|].
  cbn. by rewrite foldl_app, IH.
Qed.

Lemma foldl_ext_fun {A B} (f g : A -> B -> A) (l : list B) (a b : A) :
  (forall a x, f a x = g a x) -> a = b -> foldl f a l = foldl g b l.
Proof.
  intros H <-. revert a. induction l as [|x l IH]; intros a; [done|].
  cbn. by rewrite H, IH.
Qed.

Lemma add_found_hits (rule : Rule) (rx : re.Pattern) (line location : string)
    (ms : gmap string RuleMatch.t) :
  add_found rule rx line location ms
  = add_hits (regex_hits rule rx line location) ms.
Proof.
  unfold add_found, add_hits, regex_hits.
  generalize (re.finditer rx line). intros l. revert ms.
  induction l as [|v l IH]; intros ms; [done|]. cbn. by rewrite IH.
Qed.

(** [check_line] is [_add_match] folded over the hits of the line. *)
Lemma check_line_hits (cfg : MatchConfig) (line location : string)
    (ms : gmap string RuleMatch.t) :
  check_line cfg line location ms = add_hits (line_hits cfg line location) ms.
Proof.
  unfold check_line, line_hits, add_hits.
  rewrite !foldl_app, !foldl_bind.
  repeat (apply foldl_ext_fun; [intros a r; try apply add_found_hits|]);
    [| |done].
  - rewrite foldl_bind.
    apply foldl_ext_fun; [|done]. intros b token.
    by destruct (_token_match line token).
  - rewrite foldl_bind.
    apply foldl_ext_fun; [|done]. intros b rx. apply add_found_hits.
Qed.

Lemma check_lines_hits (calls : list (MatchConfig * string * string))
    (ms : gmap string RuleMatch.t) :
  check_lines calls ms = add_hits (run_hits calls) ms.
Proof.
  unfold check_lines, run_hits, add_hits. rewrite foldl_bind.
  apply foldl_ext_fun; [|done]. intros a call. apply check_line_hits.
Qed.

(** What [_add_match] leaves in the dictionary. *)
Lemma add_match_insert (rule : Rule) (value location : string)
    (ms : gmap string RuleMatch.t) :
  _add_match rule value location ms
  = <[match_key rule location :=
        offer value (default (new_record rule location)
                             (ms !! match_key rule location))]> ms.
Proof.
  unfold _add_match, offer, new_record.
  destruct (ms !! match_key rule location) as [m|] eqn:Hm; cbn.
  - rewrite Hm. destruct (Py.in_list _ _); [by rewrite insert_id | done].
  - rewrite lookup_insert_eq. cbn.
    destruct (Py.in_list _ _); [done | by rewrite insert_insert_eq].
Qed.

Lemma offer_values (value : string) (m : RuleMatch.t) :
  RuleMatch.values (offer value m)
  = if Py.in_list (_normalize_value value) (_normalize_value <$> RuleMatch.values m)
    then RuleMatch.values m else RuleMatch.values m ++ [value].
Proof. unfold offer. by destruct (Py.in_list _ _). Qed.



Lemma offer_holds (value : string) (m : RuleMatch.t) :
  exists w, w ∈ RuleMatch.values (offer value m)
            /\ _normalize_value w = _normalize_value value.
Proof.
  rewrite offer_values. unfold Py.in_list. case_bool_decide as Hin.
  - apply list_elem_of_fmap in Hin as [w [Hw Hin]]. eauto.
  - exists value. split; [|done]. apply elem_of_app. right. by left.
Qed.









End Aggregation.

Section AggregationExamples.
Import Rules MatchFinder AggregatorSpec.

Example two_spellings_one_entry :
  RuleMatch.values <$> (check_lines two_spellings ∅ !! "api-key:users.note")
  = Some ["my api key"].
Proof. vm_compute. reflexivity. Qed.

End AggregationExamples.

(** ** Connecting with retries *)

Section Connect.
Import OracleAsync ConnectSpec.

Lemma attempts_of_app (x y : list event) :
  attempts_of (x ++ y) = attempts_of y ++ attempts_of x.
Proof. unfold attempts_of. by rewrite rev_app_distr, omap_app. Qed.

Lemma sleeps_of_app (x y : list event) :
  sleeps_of (x ++ y) = sleeps_of y ++ sleeps_of x.
Proof. unfold sleeps_of. by rewrite rev_app_distr, omap_app. Qed.

(** The loop never runs out of fuel when it is given [retry_attempts -
    attempt] rounds, and it enters the [try] block at most that often. *)
Lemma connect_loop_bound (cfg : Config) (backend : Z -> attempt_outcome)
    (fuel : nat) (attempt : Z) (self : Adapter) :
  exists new,
    trace (connect_loop cfg backend fuel attempt self).2 = new ++ trace self
    /\ (Z.of_nat (length (attempts_of new)) <= Z.max 0 (retry_attempts cfg - attempt))%Z
    /\ ((retry_attempts cfg - attempt <= Z.of_nat fuel)%Z ->
        (connect_loop cfg backend fuel attempt self).1 <> OutOfFuel).
Proof.
  revert attempt self. induction fuel as [|fuel IH]; intros attempt self.
  - cbn. destruct (Z.ltb_spec attempt (retry_attempts cfg)).
    + exists []. cbn. split; [done|]. split; lia.
    + exists []. cbn. split; [done|]. split; [lia | done].
  - cbn [connect_loop]. destruct (Z.ltb_spec attempt (retry_attempts cfg)).
    2:{ exists []. cbn. split; [done|]. split; [lia | done]. }
    destruct (backend attempt) as [pool|[msg|msg]|pool [msg|msg]];
      cbn beta iota zeta;
      try destruct (Z.leb_spec (retry_attempts cfg) (attempt + 1));
      try (eexists [_; _]; cbn; split; [reflexivity|]; cbn; split; [lia | done]);
      try (eexists [_]; cbn; split; [reflexivity|]; cbn; split; [lia | done]).
    all: match goal with |- context [connect_loop _ _ _ _ ?s] =>
           destruct (IH (attempt + 1)%Z s) as [new [Htr [Hlen Hfuel]]] end.
    all: eexists (new ++ [_; _; _]); split; [|split];
      [ rewrite Htr; cbn; rewrite <- app_assoc; reflexivity
      | rewrite attempts_of_app, length_app; cbn; lia
      | intros Hf; apply Hfuel; lia ].
Qed.

(** [k] failed attempts, then one that connects, all within the budget. *)
Lemma connect_loop_succeeds (cfg : Config) (backend : Z -> attempt_outcome)
    (p : nat) (k : nat) :
  forall (fuel : nat) (attempt : Z) (self : Adapter),
    (forall i, (attempt <= i < attempt + Z.of_nat k)%Z -> fails (backend i)) ->
    backend (attempt + Z.of_nat k)%Z = Connected p ->
    (attempt + Z.of_nat k < retry_attempts cfg)%Z ->
    k < fuel ->
    exists self' new,
      connect_loop cfg backend fuel attempt self = (Returned, self')
      /\ _pool self' = Some p
      /\ trace self' = new ++ trace self
      /\ length (attempts_of new) = S k
      /\ sleeps_of new = doubling (_retry_delay self) k.
Proof.
  induction k as [|k IH]; intros fuel attempt self Hfail Hup Hlt Hfuel;
    (destruct fuel as [|fuel]; [lia|]); cbn [connect_loop];
    rewrite (proj2 (Z.ltb_lt _ _)) by lia.
  - rewrite Z.add_0_r in Hup. rewrite Hup.
    eexists _, [_; _]. repeat split; reflexivity.
  - destruct (Hfail attempt) as [msg Hmsg]; [lia|].
    assert (Hrest : forall i, (attempt + 1 <= i < attempt + 1 + Z.of_nat k)%Z ->
                               fails (backend i)) by (intros i Hi; apply Hfail; lia).
    assert (Hup' : backend (attempt + 1 + Z.of_nat k)%Z = Connected p)
      by (rewrite <- Hup; f_equal; lia).
    destruct (backend attempt) as [pool|e|pool e]; cbn in Hmsg;
      [discriminate | |]; injection Hmsg as ->; cbn beta iota zeta;
      rewrite (proj2 (Z.leb_gt _ _)) by lia;
      match goal with |- context [connect_loop _ _ _ _ ?s] =>
        destruct (IH fuel (attempt + 1)%Z s Hrest Hup') as
          [self' [new [Hrun [Hpool [Htr [Hlen Hsl]]]]]]; [lia | lia |] end;
      exists self', (new ++ [Sleep (_retry_delay self);
                             Say "connection attempt failed, retrying";
                             Attempt attempt]);
      (split; [exact Hrun|]); (split; [exact Hpool|]);
      (split; [rewrite Htr; cbn; by rewrite <- app_assoc|]);
      (split; [rewrite attempts_of_app, length_app; cbn; lia|]);
      rewrite sleeps_of_app, Hsl; reflexivity.
Qed.

(** Every attempt of the budget fails: the last error is raised. *)
Lemma connect_loop_exhausts (cfg : Config) (backend : Z -> attempt_outcome)
    (k : nat) :
  forall (fuel : nat) (attempt : Z) (self : Adapter),
    (attempt + Z.of_nat k + 1 = retry_attempts cfg)%Z ->
    (forall i, (attempt <= i < retry_attempts cfg)%Z -> fails (backend i)) ->
    k < fuel ->
    exists self' new msg,
      connect_loop cfg backend fuel attempt self = (Raised (CxOracleError msg), self')
      /\ raised (backend (retry_attempts cfg - 1)%Z) = Some (CxOracleError msg)
      /\ trace self' = new ++ trace self
      /\ length (attempts_of new) = S k
      /\ sleeps_of new = doubling (_retry_delay self) k.
Proof.
  induction k as [|k IH]; intros fuel attempt self Hlast Hfail Hfuel;
    (destruct fuel as [|fuel]; [lia|]); cbn [connect_loop];
    rewrite (proj2 (Z.ltb_lt _ _)) by lia;
    (destruct (Hfail attempt) as [msg Hmsg]; [lia|]).
  - assert (Hidx : (retry_attempts cfg - 1 = attempt)%Z) by lia.
    rewrite Hidx.
    destruct (backend attempt) as [pool|e|pool e]; cbn in Hmsg;
      [discriminate | |]; injection Hmsg as ->; cbn beta iota zeta;
      rewrite (proj2 (Z.leb_le _ _)) by lia;
      eexists _, [_], msg; repeat split; reflexivity.
  - assert (Hrest : forall i, (attempt + 1 <= i < retry_attempts cfg)%Z ->
                               fails (backend i)) by (intros i Hi; apply Hfail; lia).
    destruct (backend attempt) as [pool|e|pool e]; cbn in Hmsg;
      [discriminate | |]; injection Hmsg as ->; cbn beta iota zeta;
      rewrite (proj2 (Z.leb_gt _ _)) by lia;
      match goal with |- context [connect_loop _ _ _ _ ?s] =>
        destruct (IH fuel (attempt + 1)%Z s) as
          [self' [new [msg' [Hrun [Hmsg' [Htr [Hlen Hsl]]]]]]];
          [lia | exact Hrest | lia |] end;
      exists self', (new ++ [Sleep (_retry_delay self);
                             Say "connection attempt failed, retrying";
                             Attempt attempt]), msg';
      (split; [exact Hrun|]); (split; [exact Hmsg'|]);
      (split; [rewrite Htr; cbn; by rewrite <- app_assoc|]);
      (split; [rewrite attempts_of_app, length_app; cbn; lia|]);
      rewrite sleeps_of_app, Hsl; reflexivity.
Qed.

(** C4: [connect()] always ends, after at most [retry_attempts] attempts.
    For a budget of at least one attempt: when the first [retry_attempts -
    1] attempts fail and the next one connects, [connect()] returns with
    the pool in place; when [retry_attempts] attempts fail, it raises the
    connection error of the last one.  In both cases every attempt of the
    budget was made and the delays slept in between start at the configured
    delay and double each time. *)
Theorem connect_retry_budget (cfg : Config) (backend : Z -> attempt_outcome)
    (self : Adapter) :
  let R := retry_attempts cfg in
  let out := connect cfg backend self in
  (out.1 <> OutOfFuel
   /\ exists new, trace out.2 = new ++ trace self
        /\ (Z.of_nat (length (attempts_of new)) <= Z.max 0 R)%Z)
  /\ (forall p, (1 <= R)%Z ->
        (forall i, (0 <= i < R - 1)%Z -> fails (backend i)) ->
        backend (R - 1)%Z = Connected p ->
        out.1 = Returned /\ _pool out.2 = Some p
        /\ exists new, trace out.2 = new ++ trace self
             /\ Z.of_nat (length (attempts_of new)) = R
             /\ sleeps_of new = doubling (_retry_delay self) (Z.to_nat (R - 1)))
  /\ ((1 <= R)%Z ->
      (forall i, (0 <= i < R)%Z -> fails (backend i)) ->
      exists msg, out.1 = Raised (CxOracleError msg)
        /\ raised (backend (R - 1)%Z) = Some (CxOracleError msg)
        /\ exists new, trace out.2 = new ++ trace self
             /\ Z.of_nat (length (attempts_of new)) = R
             /\ sleeps_of new = doubling (_retry_delay self) (Z.to_nat (R - 1))).
Proof.
  cbn zeta. unfold connect. split; [|split].
  - destruct (connect_loop_bound cfg backend (Z.to_nat (retry_attempts cfg))
                0 self) as [new [Htr [Hlen Hfuel]]].
    split; [apply Hfuel; lia|]. exists new. split; [done|].
    by rewrite Z.sub_0_r in Hlen.
  - intros p HR Hfail Hup.
    destruct (connect_loop_succeeds cfg backend p (Z.to_nat (retry_attempts cfg - 1))
                (Z.to_nat (retry_attempts cfg)) 0 self)
      as [self' [new [Hrun [Hpool [Htr [Hlen Hsl]]]]]].
    + intros i Hi. apply Hfail. lia.
    + rewrite <- Hup. f_equal. lia.
    + lia.
    + lia.
    + rewrite Hrun. cbn. split; [done|]. split; [done|].
      exists new. split; [done|]. split; [lia | done].
  - intros HR Hfail.
    destruct (connect_loop_exhausts cfg backend (Z.to_nat (retry_attempts cfg - 1))
                (Z.to_nat (retry_attempts cfg)) 0 self)
      as [self' [new [msg [Hrun [Hmsg [Htr [Hlen Hsl]]]]]]].
    + lia.
    + intros i Hi. apply Hfail. lia.
    + lia.
    + rewrite Hrun. cbn. exists msg. split; [done|]. split; [done|].
      exists new. split; [done|]. split; [lia | done].
Qed.

(** The default budget of three attempts against a database that is down,
    and against one that comes up for the third attempt. *)
Lemma connect_retry_budget_witness :
  (exists msg,
     (connect default_config down (fresh 1)).1 = Raised (CxOracleError msg)
     /\ raised (down (3 - 1)%Z) = Some (CxOracleError msg)
     /\ exists new, trace (connect default_config down (fresh 1)).2 = new ++ []
          /\ Z.of_nat (length (attempts_of new)) = 3%Z
          /\ sleeps_of new = doubling 1 (Z.to_nat (3 - 1)))
  /\ (connect default_config up_at_third (fresh 1)).1 = Returned.
Proof.
  split.
  - apply (proj2 (proj2 (connect_retry_budget default_config down (fresh 1)))).
    + cbn. lia.
    + intros i _. by exists "ORA-12541".
  - apply (proj1 (proj2 (connect_retry_budget default_config up_at_third (fresh 1))) 0).
    + cbn. lia.
    + intros i Hi. cbn in Hi. exists "ORA-12541". unfold up_at_third.
      by rewrite (proj2 (Z.ltb_lt _ _)) by lia.
    + reflexivity.
Defined.

End Connect.

Section ConnectExamples.
Import OracleAsync ConnectSpec.

Example three_attempts_two_sleeps :
  sleeps_of (trace (connect default_config down (fresh 1)).2) = [1%Q; (1 * 2)%Q]
  /\ attempts_of (trace (connect default_config down (fresh 1)).2) = [0; 1; 2]%Z.
Proof. split; reflexivity. Qed.

Example no_budget_no_attempt :
  connect plain_zero down (fresh 1) = (Returned, fresh 1).
Proof. reflexivity. Qed.

End ConnectExamples.

(** ** Adaptive batch size *)

Section AdaptiveBatch.
Import OracleAsync BatchSpec.




(** An adjusted size stays within the bounds the current size is in. *)
Lemma adjust_batch_size_bounded (cfg : Config) (size : Z) (t : Q) :
  (0 <= size)%Z ->
  (min_batch_size cfg <= size <= max_batch_size cfg)%Z ->
  (0 <= _adjust_batch_size cfg size t)%Z
  /\ (min_batch_size cfg <= _adjust_batch_size cfg size t <= max_batch_size cfg)%Z.
Proof.
  intros Hpos Hin. unfold _adjust_batch_size, int_scaled.
  assert (Hs : (0 <= Z.quot (size * 8) 10 <= size)%Z).
  { rewrite Z.quot_div_nonneg by lia. split.
    - apply Z.div_pos; lia.
    - apply Z.div_le_upper_bound; lia. }
  assert (Hg : (size <= Z.quot (size * 12) 10)%Z).
  { rewrite Z.quot_div_nonneg by lia. apply Z.div_le_lower_bound; lia. }
  destruct (adaptive_batch cfg); cbn [negb]; [|lia].
  destruct (Qltb _ t); [lia|]. destruct (Qltb t _); lia.
Qed.

Lemma after_batch_bounded (cfg : Config) (l : Loop) (t : Q) :
  (0 <= current_batch_size l)%Z ->
  (min_batch_size cfg <= current_batch_size l <= max_batch_size cfg)%Z ->
  (0 <= current_batch_size (after_batch cfg l t))%Z
  /\ (min_batch_size cfg <= current_batch_size (after_batch cfg l t)
      <= max_batch_size cfg)%Z.
Proof.
  intros Hpos Hin. unfold after_batch. cbn [current_batch_size].
  destruct (_ && _); [by apply adjust_batch_size_bounded | done].
Qed.




(** C6, as stated, fails: with a fetch size of 500 rows and the default
    bounds, the size is 500, below the minimum of 1000, after five
    batches of half a second. *)
Lemma bounds_counterexample :
  ~ stated_bounds small_fetch [1 # 2; 1 # 2; 1 # 2; 1 # 2; 1 # 2]%Q.
Proof. intros [H _]. vm_compute in H. by apply H. Qed.

(** C6, amended: when the configured fetch size is not negative and lies
    between [min_batch_size] and [max_batch_size], the batch size of a
    unit stays between these bounds after any sequence of batch
    durations. *)
Theorem batch_size_bounded (cfg : Config) (batch_times : list Q) :
  (0 <= fetch_size cfg)%Z ->
  (min_batch_size cfg <= fetch_size cfg <= max_batch_size cfg)%Z ->
  (min_batch_size cfg <= current_batch_size (after_batches cfg batch_times)
   <= max_batch_size cfg)%Z.
Proof.
  intros Hpos Hin. unfold after_batches.
  assert (H0 : (0 <= current_batch_size (loop_start cfg))%Z
               /\ (min_batch_size cfg <= current_batch_size (loop_start cfg)
                   <= max_batch_size cfg)%Z) by done.
  revert H0. generalize (loop_start cfg).
  induction batch_times as [|t ts IH]; intros l [Hl0 Hl]; [done|].
  cbn. apply IH. by apply after_batch_bounded.
Qed.

(** The default options under batches of a millisecond and of an hour. *)
Lemma batch_size_bounded_witness :
  (1000 <= current_batch_size
             (after_batches default_config
                [1 # 1000; 1 # 1000; 1 # 1000; 1 # 1000; 1 # 1000;
                 3600; 3600; 3600; 3600; 3600]%Q)
   <= 50000)%Z.
Proof.
  apply (batch_size_bounded default_config); cbn; lia.
Defined.

End AdaptiveBatch.

(** ** The pattern catalog and the options object *)

Section PatternCatalog.
Import ScanOpts Catalog CatalogSpec.


Lemma comprehension_not_in (l : list string) (ps : list Pattern) :
  comprehension (fun p => b ← py_in (name p) (PList l); Ok (negb b)) ps
  = Ok (List.filter (fun p => negb (Py.in_list (name p) l)) ps).
Proof.
  induction ps as [|p ps IH]; [done|].
  cbn [comprehension]. rewrite IH. cbn. by destruct (Py.in_list (name p) l).
Qed.

Lemma bind_ok {A B} (a : A) (k : A -> result B) : Ok a ≫= k = k a.
Proof. reflexivity. Qed.







End PatternCatalog.

(** ** The options object *)

Section Options.
Import ScanOpts Catalog CatalogSpec.

Lemma append_ad_hoc (pattern : pyval) (ps : list Pattern) :
  (if truthy pattern
   then ps ++ [mkPattern "custom" pattern "Custom pattern"] else ps)
  = ps ++ ad_hoc pattern.
Proof.
  unfold ad_hoc. destruct (truthy pattern); [done|]. by rewrite app_nil_r.
Qed.

(** [get_patterns] reads three attributes and nothing else. *)
Lemma get_patterns_reads (o1 o2 : gmap string pyval) :
  o1 !! "only_patterns" = o2 !! "only_patterns" ->
  o1 !! "except_patterns" = o2 !! "except_patterns" ->
  o1 !! "pattern" = o2 !! "pattern" ->
  get_patterns o1 = get_patterns o2.
Proof.
  intros H1 H2 H3. unfold get_patterns, getattr. by rewrite H1, H2, H3.
Qed.

(** The keyword loop leaves alone the attributes it has no keyword for. *)
Lemma kwargs_loop_other (kwargs : list (string * pyval)) (k : string)
    (self : gmap string pyval) :
  k ∉ kwargs.*1 ->
  foldl (fun self kv => setattr self kv.1 kv.2) self kwargs !! k = self !! k.
Proof.
  revert self. induction kwargs as [|[k' v] kwargs IH]; intros self Hk; [done|].
  cbn in Hk. apply not_elem_of_cons in Hk as [Hne Hk].
  cbn. rewrite IH by done. unfold setattr. by rewrite lookup_insert_ne.
Qed.

Lemma init_only_patterns (p : params) :
  __init__ p [] !! "only_patterns" = Some (only_patterns p).
Proof. reflexivity. Qed.

Lemma init_pattern (p : params) :
  __init__ p [] !! "pattern" = Some (pattern p).
Proof. reflexivity. Qed.

Lemma init_except_patterns (p : params) :
  __init__ p [] !! "except_patterns" = Some PNone.
Proof. reflexivity. Qed.

(** C9: an object built from the declared parameters alone has
    [except_patterns = None], whatever is passed as [except_]; so
    [get_patterns] does not depend on [except_] and, without an inclusion
    filter, returns every default pattern.  The attribute stays [None]
    under any extra keywords other than [except_patterns]; an exclusion
    list passed as the extra keyword [except_patterns] is stored by the
    keyword loop and filters the defaults. *)
Theorem declared_exclusion_has_no_effect (p : params) :
  __init__ p [] !! "except_patterns" = Some PNone
  /\ (forall x, get_patterns (__init__ (with_except_ x p) [])
                = get_patterns (__init__ p []))
  /\ (truthy (only_patterns p) = false ->
      get_patterns (__init__ p [])
      = Ok (_get_default_patterns ++ ad_hoc (pattern p)))
  /\ (forall kwargs, "except_patterns" ∉ kwargs.*1 ->
        __init__ p kwargs !! "except_patterns" = Some PNone)
  /\ (forall l, l <> [] -> truthy (only_patterns p) = false ->
        let o := __init__ p [("except_patterns", PList l)] in
        o !! "except_patterns" = Some (PList l)
        /\ get_patterns o
           = Ok (List.filter (fun q => negb (Py.in_list (name q) l))
                   _get_default_patterns ++ ad_hoc (pattern p))).
Proof.
  split; [reflexivity|]. split; [|split; [|split]].
  - intros x. by apply get_patterns_reads.
  - intros Hoff. unfold get_patterns, getattr.
    rewrite init_only_patterns, init_pattern, init_except_patterns.
    cbv beta iota. rewrite bind_ok, Hoff.
    repeat (rewrite bind_ok; cbn [truthy]). by rewrite append_ad_hoc.
  - intros kwargs Hk. unfold __init__. by rewrite kwargs_loop_other.
  - intros l Hl Hoff. cbn zeta. split; [reflexivity|].
    unfold get_patterns, getattr.
    change (__init__ p [("except_patterns", PList l)] !! "only_patterns")
      with (Some (only_patterns p)).
    change (__init__ p [("except_patterns", PList l)] !! "pattern")
      with (Some (pattern p)).
    change (__init__ p [("except_patterns", PList l)] !! "except_patterns")
      with (Some (PList l)).
    cbv beta iota. rewrite bind_ok, Hoff.
    assert (Hon : truthy (PList l) = true) by (by destruct l).
    rewrite bind_ok, Hon, comprehension_not_in.
    repeat (rewrite bind_ok; cbn beta). by rewrite append_ad_hoc.
Qed.

(** The call [ScanOptions(except_=["email"])], and the same list passed
    as [except_patterns]. *)
Lemma declared_exclusion_has_no_effect_witness :
  get_patterns (__init__ (with_except_ (PList ["email"]) defaults) [])
  = Ok (_get_default_patterns ++ ad_hoc PNone)
  /\ __init__ defaults [("limit", PInt 5)] !! "except_patterns" = Some PNone
  /\ get_patterns (__init__ defaults [("except_patterns", PList ["email"])])
     = Ok (List.filter (fun q => negb (Py.in_list (name q) ["email"]))
             _get_default_patterns ++ ad_hoc PNone).
Proof.
  pose proof (declared_exclusion_has_no_effect
                (with_except_ (PList ["email"]) defaults)) as [_ [_ [H3 _]]].
  pose proof (declared_exclusion_has_no_effect defaults) as [_ [_ [_ [H4 H5]]]].
  split; [|split].
  - apply H3. reflexivity.
  - apply H4. cbn. by rewrite list_elem_of_singleton.
  - apply (H5 ["email"]); [discriminate | reflexivity].
Defined.

End Options.

(** ** Progress accounting *)

Section ProgressAccounting.
Import ScanOpts Catalog OracleAsync ProgressSpec.

(** Compiling touches the cache of compiled patterns only. *)
Lemma compile_patterns_frame (re_compile : string -> option re.Pattern)
    (patterns : list Pattern) :
  forall (compiled : list (string * re.Pattern)) (self : Adapter),
    let out := _compile_patterns re_compile patterns compiled self in
    _scan_progress out.2 = _scan_progress self
    /\ _metrics out.2 = _metrics self
    /\ trace out.2 = trace self.
Proof.
  induction patterns as [|p ps IH]; intros compiled self; [done|].
  cbn [_compile_patterns]. cbn zeta.
  destruct (_compiled_patterns self !! name p) as [rx|]; [apply IH|].
  destruct (regex p) as [| | |text|]; try done.
  destruct (re_compile text) as [rx|]; [|done].
  match goal with |- context [_compile_patterns _ _ ?c ?s] =>
    destruct (IH c s) as [H1 [H2 H3]] end.
  by rewrite H1, H2, H3.
Qed.

(** A unit that streams to its end is counted, when its [try] block
    leaves the progress record alone. *)
Lemma streamed_unit_counted (re_compile : string -> option re.Pattern)
    (table : string) (patterns : list Pattern)
    (body : list (string * re.Pattern) -> Adapter -> list Found * Adapter)
    (self : Adapter) (compiled : list (string * re.Pattern)) :
  (forall c s, _scan_progress (body c s).2 = _scan_progress s) ->
  (_compile_patterns re_compile patterns [] self).1 = Some compiled ->
  completed (_scan_progress
               (_scan_table_with_progress re_compile table patterns body self).2)
  = (completed (_scan_progress self) + 1)%Z.
Proof.
  intros Hbody Hc.
  unfold _scan_table_with_progress, _scan_table_streaming.
  pose proof (compile_patterns_frame re_compile patterns [] self) as [Hp _].
  destruct (_compile_patterns re_compile patterns [] self) as [[c|] s];
    [|discriminate].
  cbn in Hp. specialize (Hbody c s).
  destruct (body c s) as [ms s']. cbn in Hbody. cbn. by rewrite Hbody, Hp.
Qed.

(** C8 fails on the code: a unit whose patterns do not compile is skipped
    through the [except] branch of [_scan_table_with_progress]; the
    progress bar is advanced and the unit is counted as skipped, but the
    [completed] counter of the progress record stays as it was. *)
Theorem skipped_unit_not_counted (re_compile : string -> option re.Pattern)
    (table : string) (patterns : list Pattern)
    (body : list (string * re.Pattern) -> Adapter -> list Found * Adapter)
    (self : Adapter) :
  (_compile_patterns re_compile patterns [] self).1 = None ->
  let out := _scan_table_with_progress re_compile table patterns body self in
  out.1 = []
  /\ completed (_scan_progress out.2) = completed (_scan_progress self)
  /\ tables_skipped (_metrics out.2) = (tables_skipped (_metrics self) + 1)%Z
  /\ tables_completed (_metrics out.2) = tables_completed (_metrics self)
  /\ exists rest, trace out.2 = Advance :: rest.
Proof.
  intros Hc. cbn zeta.
  unfold _scan_table_with_progress, _scan_table_streaming.
  pose proof (compile_patterns_frame re_compile patterns [] self)
    as [Hp [Hm _]].
  destruct (_compile_patterns re_compile patterns [] self) as [[c|] s];
    [discriminate|].
  cbn in Hp, Hm. cbn. rewrite Hp, Hm. repeat split; eauto.
Qed.

(** The ad-hoc regex "(" on a table of an adapter that has compiled
    nothing yet. *)
Lemma skipped_unit_not_counted_witness :
  completed (_scan_progress
               (_scan_table_with_progress rejects_open_paren "HR.EMPLOYEES"
                  bad_patterns empty_table
                  (start_progress 1 (fresh 1))).2) = 0%Z.
Proof.
  apply (skipped_unit_not_counted rejects_open_paren "HR.EMPLOYEES"
           bad_patterns empty_table (start_progress 1 (fresh 1))).
  reflexivity.
Defined.

End ProgressAccounting.

Section ProgressExamples.
Import ScanOpts Catalog OracleAsync ProgressSpec.

Example bad_regex_patterns :
  get_patterns (__init__ bad_regex_options []) = Ok bad_patterns.
Proof. reflexivity. Qed.

(** A scan of two tables with the ad-hoc regex "(": both units end, the
    bar shows two of two, and [completed] is still 0 of 2. *)
Example two_units_none_completed :
  let out := scan_units rejects_open_paren bad_patterns
               [("HR.EMPLOYEES", empty_table); ("HR.JOBS", empty_table)]
               (fresh 1) in
  _scan_progress out.2 = mkProgress 0 2
  /\ tables_skipped (_metrics out.2) = 2%Z
  /\ length (List.filter (fun e => match e with Advance => true | _ => false end)
                (trace out.2)) = 2.
Proof. cbn. repeat split. Qed.

End ProgressExamples.

(** ** The definitions at work *)

Section Examples.
Import ScanOpts Catalog CatalogSpec MatchFinder OracleAsync.

Example lower_ex : Py.lower "Hello World" = "hello world".
Proof. reflexivity. Qed.

Example isdigit_ex :
  Py.isdigit "0123456789" = true /\ Py.isdigit "" = false
  /\ Py.isdigit "12-34" = false.
Proof. repeat split. Qed.

Example normalize_ex : _normalize_value "  My   API key " = "my api key".
Proof. reflexivity. Qed.

Example finditer_ex :
  re.finditer (re.literal "ab") "xABcabab" = ["AB"; "ab"; "ab"].
Proof. reflexivity. Qed.

Example whole_word_ex : _token_match "the API key" "api" = true.
Proof. reflexivity. Qed.

Example path_inside_word_ex : _token_match "x/home/y" "/home/" = true.
Proof. reflexivity. Qed.

Example absent_token_ex : _token_match "nothing here" "pwd" = false.
Proof. reflexivity. Qed.

Example email_is_kept :
  _early_termination_check default_config "a@b.com" [] = false.
Proof. reflexivity. Qed.

Example ssn_is_kept :
  _early_termination_check default_config "123-45-6789" [] = false.
Proof. reflexivity. Qed.

Example short_number_is_dropped :
  _early_termination_check default_config "123456789012" [] = true.
Proof. reflexivity. Qed.

Example words_are_dropped :
  _early_termination_check default_config "not-an-email" [] = true.
Proof. reflexivity. Qed.

Example shrink_floor : _adjust_batch_size default_config 1100 2%Q = 1000%Z.
Proof. reflexivity. Qed.

Example grow_cap : _adjust_batch_size default_config 45000 (1 # 10)%Q = 50000%Z.
Proof. reflexivity. Qed.

(** With both filters given, the inclusion filter alone applies. *)
Example inclusion_first :
  name <$> stated_patterns (Some ["email"; "phone"]) (Some ["email"]) None
  = ["email"; "phone"].
Proof. reflexivity. Qed.

End Examples.

(** * Further properties of the matching pipeline *)

(** ** Evaluation against plain matching *)

Section Evaluation.
Import OracleAsync.

Lemma batch_match_values (v : string) (cps : list (string * re.Pattern)) (h : Hit) :
  h ∈ _batch_match_patterns v cps -> matched_value h = v.
Proof.
  induction cps as [|[n rx] cps IH]; cbn; [by intros ?%elem_of_nil|].
  destruct (re.search rx v); [|done].
  intros [-> | H]%elem_of_cons; [done | by apply IH].
Qed.

(** The evaluation loop appends to what it was given a part of the plain
    hits, in their order. *)
Lemma match_loop_sublist (cfg : Config) (v : string)
    (cps : list (string * re.Pattern)) (acc : list Hit) :
  exists l, match_loop cfg v cps acc = acc ++ l
            /\ sublist l (_batch_match_patterns v cps).
Proof.
  revert acc. induction cps as [|[n rx] cps IH]; intros acc; cbn.
  { exists []. by rewrite app_nil_r. }
  destruct (shape_skip n v).
  - destruct (IH acc) as [l [-> Hl]]. exists l. split; [done|].
    destruct (re.search rx v); [by apply sublist_cons | done].
  - destruct (re.search rx v).
    + destruct (show_all cfg); cbn.
      * destruct (IH (acc ++ [mkHit n v])) as [l [-> Hl]].
        exists (mkHit n v :: l). split; [by rewrite <- app_assoc|].
        by apply sublist_skip.
      * exists [mkHit n v]. split; [done|].
        apply sublist_skip, sublist_nil_l.
    + apply IH.
Qed.

Lemma match_loop_first_only (cfg : Config) (v : string)
    (cps : list (string * re.Pattern)) (acc : list Hit) :
  show_all cfg = false ->
  length (match_loop cfg v cps acc) <= S (length acc).
Proof.
  intros Hone. revert acc. induction cps as [|[n rx] cps IH]; intros acc; cbn.
  { lia. }
  destruct (shape_skip n v); [apply IH|].
  destruct (re.search rx v); [|apply IH].
  rewrite Hone. cbn. rewrite length_app. cbn. lia.
Qed.

(** X1: a value that is not in the cache is answered with a part of what
    plain matching returns for it, in the same order: the shape checks,
    the early rejection and the stop at the first match only drop hits and
    never add one; and with pattern optimisation on and [show_all] off at
    most one hit is returned. *)
Theorem evaluation_drops_never_adds (md5 : string -> string) (cfg : Config)
    (v : string) (cps : list (string * re.Pattern)) (self : Adapter) :
  _value_cache self !! md5 v = None ->
  let hits := (_optimized_pattern_matching md5 cfg v cps self).1 in
  sublist hits (_batch_match_patterns v cps)
  /\ (pattern_optimization cfg = true -> show_all cfg = false ->
      length hits <= 1).
Proof.
  intros Hfresh. cbn zeta. unfold _optimized_pattern_matching.
  destruct (pattern_optimization cfg); cbn [negb];
    [|split; [reflexivity | intros; discriminate]].
  destruct (_early_termination_check cfg v cps).
  { cbn. split; [apply sublist_nil_l | lia]. }
  assert (Hmiss : _is_value_cached cfg self (_hash_value md5 v) = false).
  { unfold _is_value_cached, _hash_value. rewrite Hfresh.
    by destruct (value_caching cfg). }
  rewrite Hmiss. cbn [fst].
  destruct (match_loop_sublist cfg v cps []) as [l [Hl Hsub]].
  rewrite Hl. cbn. split; [done|]. intros _ Hone.
  pose proof (match_loop_first_only cfg v cps [] Hone) as Hlen.
  rewrite Hl in Hlen. cbn in Hlen. lia.
Qed.

(** A card number under an email pattern and a card pattern. *)
Lemma evaluation_drops_never_adds_witness :
  sublist (_optimized_pattern_matching (fun s => s) default_config
             "4111-1111-1111-1111"
             [("email", re.literal "@"); ("credit_card", re.literal "4111")]
             (fresh 1)).1
          (_batch_match_patterns "4111-1111-1111-1111"
             [("email", re.literal "@"); ("credit_card", re.literal "4111")]).
Proof.
  apply (evaluation_drops_never_adds (fun s => s) default_config
           "4111-1111-1111-1111"
           [("email", re.literal "@"); ("credit_card", re.literal "4111")]
           (fresh 1)).
  reflexivity.
Defined.

End Evaluation.

(** ** The value cache *)

Section ValueCache.
Import OracleAsync Counters.

(** X2: evaluating a value a second time under the same patterns returns
    the same list, whatever the options are; and when pattern optimisation
    and value caching are on and the value is not rejected, the second call
    is a cache hit: it leaves the cache and the miss counter as they are
    and adds one to the hit counter. *)
Theorem second_evaluation_same_result (md5 : string -> string) (cfg : Config)
    (v : string) (cps : list (string * re.Pattern)) (self : Adapter) :
  let first := _optimized_pattern_matching md5 cfg v cps self in
  let second := _optimized_pattern_matching md5 cfg v cps first.2 in
  second.1 = first.1
  /\ (pattern_optimization cfg = true -> value_caching cfg = true ->
      _early_termination_check cfg v cps = false ->
      _value_cache second.2 = _value_cache first.2
      /\ cache_hits (_metrics second.2) = (cache_hits (_metrics first.2) + 1)%Z
      /\ cache_misses (_metrics second.2) = cache_misses (_metrics first.2)).
Proof.
  cbn zeta. unfold _optimized_pattern_matching.
  destruct (pattern_optimization cfg); cbn [negb];
    [|split; [done | intros; discriminate]].
  destruct (_early_termination_check cfg v cps);
    [split; [done | intros; discriminate]|].
  unfold _is_value_cached, _get_cached_result, _cache_value_result.
  destruct (value_caching cfg); cbn [negb];
    [|split; [done | intros; discriminate]].
  destruct (_value_cache self !! _hash_value md5 v) as [old|] eqn:Hold.
  - cbn. rewrite Hold. cbn. split; [done|]. intros _ _ _. by repeat split.
  - cbn. rewrite lookup_insert_eq. cbn. split; [done|]. intros _ _ _.
    by repeat split.
Qed.

(** The card number twice under the same pattern. *)
Lemma second_evaluation_same_result_witness :
  let first := _optimized_pattern_matching (fun s => s) default_config
                 "4111-1111-1111-1111" [("credit_card", re.literal "4111")]
                 (fresh 1) in
  let second := _optimized_pattern_matching (fun s => s) default_config
                  "4111-1111-1111-1111" [("credit_card", re.literal "4111")]
                  first.2 in
  _value_cache second.2 = _value_cache first.2
  /\ cache_hits (_metrics second.2) = (cache_hits (_metrics first.2) + 1)%Z
  /\ cache_misses (_metrics second.2) = cache_misses (_metrics first.2).
Proof.
  apply (proj2 (second_evaluation_same_result (fun s => s) default_config
                  "4111-1111-1111-1111" [("credit_card", re.literal "4111")]
                  (fresh 1))); reflexivity.
Defined.

(** X3: with pattern optimisation on, every call is counted exactly once,
    as an early termination, a cache hit or a cache miss; with it off no
    counter moves and the cache is not touched; and with value caching off
    the cache is never written. *)
Theorem every_call_counted_once (md5 : string -> string) (cfg : Config)
    (v : string) (cps : list (string * re.Pattern)) (self : Adapter) :
  let after := (_optimized_pattern_matching md5 cfg v cps self).2 in
  (pattern_optimization cfg = true ->
   lookups (_metrics after) = (lookups (_metrics self) + 1)%Z)
  /\ (pattern_optimization cfg = false -> after = self)
  /\ (value_caching cfg = false -> _value_cache after = _value_cache self).
Proof.
  cbn zeta. unfold _optimized_pattern_matching, lookups.
  destruct (pattern_optimization cfg); cbn [negb];
    [|split; [intros; discriminate | done]].
  split; [intros _ | split; [intros; discriminate|]].
  - destruct (_early_termination_check cfg v cps); [cbn; lia|].
    unfold _is_value_cached, _get_cached_result, _cache_value_result.
    destruct (value_caching cfg); cbn [negb]; [|cbn; lia].
    destruct (_value_cache self !! _hash_value md5 v) as [old|] eqn:Hold;
      cbn; rewrite ?Hold; cbn; lia.
  - intros Hoff. destruct (_early_termination_check cfg v cps); [done|].
    unfold _is_value_cached, _get_cached_result, _cache_value_result.
    by rewrite Hoff.
Qed.

(** Three calls under the default options: a rejected word, a card number,
    the card number again. *)
Lemma every_call_counted_once_witness :
  lookups (_metrics (_optimized_pattern_matching (fun s => s) default_config
                       "abc" [("credit_card", re.literal "4111")] (fresh 1)).2)
  = (lookups (_metrics (fresh 1)) + 1)%Z.
Proof.
  apply (proj1 (every_call_counted_once (fun s => s) default_config
                  "abc" [("credit_card", re.literal "4111")] (fresh 1))).
  reflexivity.
Defined.

End ValueCache.

(** ** Column order *)

Section ColumnOrder.
Import Columns.

Lemma insert_scored_perm (x : string * string * nat) (l : list (string * string * nat)) :
  insert_scored x l ≡ₚ x :: l.
Proof.
  induction l as [|y l IH]; cbn; [done|].
  destruct (y.2 <=? x.2); [done|]. rewrite IH. apply Permutation_swap.
Qed.

Lemma sort_scored_perm (l : list (string * string * nat)) : sort_scored l ≡ₚ l.
Proof.
  induction l as [|x l IH]; cbn; [done|].
  by rewrite insert_scored_perm, IH.
Qed.

Lemma insert_scored_sorted (x : string * string * nat) (l : list (string * string * nat)) :
  StronglySorted (fun a b => b.2 <= a.2) l ->
  StronglySorted (fun a b => b.2 <= a.2) (insert_scored x l).
Proof.
  induction 1 as [|y l Hl IH Hy]; cbn.
  { repeat constructor. }
  destruct (Nat.leb_spec y.2 x.2).
  - constructor; [by constructor|]. constructor; [done|].
    eapply Forall_impl; [exact Hy|]. cbn. lia.
  - constructor; [done|]. rewrite insert_scored_perm.
    constructor; [lia | done].
Qed.

Lemma sort_scored_sorted (l : list (string * string * nat)) :
  StronglySorted (fun a b => b.2 <= a.2) (sort_scored l).
Proof.
  induction l as [|x l IH]; cbn; [constructor|].
  by apply insert_scored_sorted.
Qed.

Lemma insert_scored_stable (k : nat) (x : string * string * nat)
    (l : list (string * string * nat)) :
  filter (fun y => y.2 = k) (insert_scored x l)
  = filter (fun y => y.2 = k) (x :: l).
Proof.
  induction l as [|y l IH]; cbn [insert_scored]; [done|].
  destruct (Nat.leb_spec y.2 x.2); [done|].
  rewrite (filter_cons _ y), IH, !(filter_cons _ x), (filter_cons _ y).
  destruct (decide (y.2 = k)), (decide (x.2 = k)); try done. lia.
Qed.

Lemma sort_scored_stable (k : nat) (l : list (string * string * nat)) :
  filter (fun y => y.2 = k) (sort_scored l) = filter (fun y => y.2 = k) l.
Proof.
  induction l as [|x l IH]; cbn [sort_scored foldr]; [done|].
  fold (sort_scored l). rewrite insert_scored_stable, !(filter_cons _ x), IH.
  done.
Qed.

Lemma strongly_sorted_lookup {A} (R : relation A) (l : list A) (i j : nat) (a b : A) :
  StronglySorted R l -> i < j -> l !! i = Some a -> l !! j = Some b -> R a b.
Proof.
  intros Hl. revert i j. induction Hl as [|x l Hl IH Hx]; intros i j Hij Hi Hj.
  { by rewrite lookup_nil in Hi. }
  destruct j as [|j]; [lia|]. cbn in Hj. destruct i as [|i]; cbn in Hi.
  - injection Hi as ->. rewrite Forall_forall in Hx. apply Hx.
    by eapply list_elem_of_lookup_2.
  - apply (IH i j); [lia | done | done].
Qed.

(** The scored entries [_optimize_column_order] sorts, and what it makes of
    them afterwards. *)
Lemma unscore_scored (cols : list (string * string)) :
  (fun x : string * string * nat => (x.1.1, x.1.2))
    <$> ((fun c : string * string => (c.1, c.2, column_score c.1 c.2)) <$> cols)
  = cols.
Proof.
  induction cols as [|[n t] cols IH]; [done|]. cbn. by rewrite IH.
Qed.

Lemma scored_consistent (cols : list (string * string)) (x : string * string * nat) :
  x ∈ (fun c : string * string => (c.1, c.2, column_score c.1 c.2)) <$> cols ->
  x.2 = score_of (x.1.1, x.1.2).
Proof. intros [c [-> _]]%list_elem_of_fmap. done. Qed.

Lemma filter_unscore (k : nat) (l : list (string * string * nat)) :
  (forall x, x ∈ l -> x.2 = score_of (x.1.1, x.1.2)) ->
  filter (fun c => score_of c = k)
         ((fun x : string * string * nat => (x.1.1, x.1.2)) <$> l)
  = (fun x : string * string * nat => (x.1.1, x.1.2))
      <$> filter (fun y => y.2 = k) l.
Proof.
  induction l as [|x l IH]; intros Hl; [done|].
  rewrite fmap_cons, !filter_cons, IH
    by (intros y Hy; apply Hl; by right).
  rewrite <- (Hl x) by (by left).
  by destruct (decide (x.2 = k)).
Qed.

(** X4: with column optimisation on, [_optimize_column_order] returns the
    same columns in another order: sorted by score, highest first, and
    columns of equal score in the order they came in; with it off the
    list is returned as it is. *)
Theorem column_order_stable_sort (cols : list (string * string)) :
  let out := _optimize_column_order true cols in
  out ≡ₚ cols
  /\ (forall i j a b, i < j -> out !! i = Some a -> out !! j = Some b ->
        score_of b <= score_of a)
  /\ (forall k, filter (fun c => score_of c = k) out
               = filter (fun c => score_of c = k) cols)
  /\ _optimize_column_order false cols = cols.
Proof.
  cbn zeta. unfold _optimize_column_order. cbn [negb].
  set (scored := (fun c : string * string => (c.1, c.2, column_score c.1 c.2)) <$> cols).
  assert (Hcons : forall x, x ∈ sort_scored scored ->
                            x.2 = score_of (x.1.1, x.1.2)).
  { intros x Hx. rewrite sort_scored_perm in Hx. by eapply scored_consistent. }
  split; [|split; [|split; [|done]]].
  - rewrite sort_scored_perm. unfold scored. by rewrite unscore_scored.
  - intros i j a b Hij Hi Hj.
    apply list_lookup_fmap_Some in Hi as [x [-> Hx]].
    apply list_lookup_fmap_Some in Hj as [y [-> Hy]].
    rewrite <- (Hcons x), <- (Hcons y) by (by eapply list_elem_of_lookup_2).
    by apply (strongly_sorted_lookup _ _ i j x y (sort_scored_sorted scored)).
  - intros k. rewrite filter_unscore by done.
    rewrite sort_scored_stable.
    rewrite <- filter_unscore by (intros x Hx; by eapply scored_consistent).
    unfold scored. by rewrite unscore_scored.
Qed.

(** Four columns of a customer table. *)
Lemma column_order_stable_sort_witness :
  score_of ("CARD_NUMBER", "VARCHAR2") <= score_of ("EMAIL", "VARCHAR2").
Proof.
  pose proof (column_order_stable_sort
                [("ID", "NUMBER"); ("EMAIL", "VARCHAR2");
                 ("NOTES", "CLOB"); ("CARD_NUMBER", "VARCHAR2")])
    as [_ [H _]].
  apply (H 0 1); [lia | reflexivity | reflexivity].
Defined.

End ColumnOrder.

Section ColumnExamples.
Import Columns.

Example customer_columns_order :
  _optimize_column_order true
    [("ID", "NUMBER"); ("EMAIL", "VARCHAR2"); ("NOTES", "CLOB");
     ("CARD_NUMBER", "VARCHAR2")]
  = [("EMAIL", "VARCHAR2"); ("CARD_NUMBER", "VARCHAR2"); ("NOTES", "CLOB");
     ("ID", "NUMBER")].
Proof. vm_compute. reflexivity. Qed.

End ColumnExamples.

(** ** Which columns are skipped *)

Section ColumnSkip.
Import Columns.

Lemma score_count (f : string -> bool) (w : nat) (ps : list string) (s0 : nat) :
  foldl (fun score pattern => if f pattern then score + w else score) s0 ps
  = s0 + w * length (List.filter f ps).
Proof.
  revert s0. induction ps as [|p ps IH]; intros s0; cbn; [lia|].
  rewrite IH. destruct (f p); cbn; lia.
Qed.

Lemma existsb_count (f : string -> bool) (ps : list string) :
  existsb f ps = negb (length (List.filter f ps) =? 0).
Proof.
  induction ps as [|p ps IH]; cbn; [done|]. by destruct (f p).
Qed.

Lemma column_score_keywords (n t : string) :
  (mentions (high_prob_patterns ++ medium_prob_patterns) n = true ->
   5 <= column_score n t)
  /\ (mentions (high_prob_patterns ++ medium_prob_patterns) n = false ->
      column_score n t <= 3).
Proof.
  unfold mentions, column_score.
  generalize high_prob_patterns medium_prob_patterns. intros hs ms.
  rewrite existsb_app, !existsb_count, !score_count.
  generalize (length (List.filter (fun pattern => re.search (re.literal pattern) n) hs)).
  generalize (length (List.filter (fun pattern => re.search (re.literal pattern) n) ms)).
  intros m h. generalize (Py.in_list t ["VARCHAR2"; "VARCHAR"; "CHAR"; "CLOB"]).
  intros bonus.
  destruct (Nat.eqb_spec h 0), (Nat.eqb_spec m 0), bonus;
    cbn [negb orb]; split; intros; try discriminate; lia.
Qed.

(** The ordered columns go down in score. *)
Lemma optimize_column_order_sorted (cols : list (string * string)) (i j : nat)
    (a b : string * string) :
  i < j ->
  _optimize_column_order true cols !! i = Some a ->
  _optimize_column_order true cols !! j = Some b ->
  score_of b <= score_of a.
Proof.
  unfold _optimize_column_order. cbn [negb].
  set (scored := (fun c : string * string => (c.1, c.2, column_score c.1 c.2)) <$> cols).
  assert (Hcons : forall x, x ∈ sort_scored scored ->
                            x.2 = score_of (x.1.1, x.1.2)).
  { intros x Hx. rewrite sort_scored_perm in Hx. by eapply scored_consistent. }
  intros Hij Hi Hj.
  apply list_lookup_fmap_Some in Hi as [x [-> Hx]].
  apply list_lookup_fmap_Some in Hj as [y [-> Hy]].
  rewrite <- (Hcons x), <- (Hcons y) by (by eapply list_elem_of_lookup_2).
  by apply (strongly_sorted_lookup _ _ i j x y (sort_scored_sorted scored)).
Qed.

(** X5: with column optimisation on, a column whose name holds one of the
    keywords of the two lists comes before every column whose name holds
    none. *)
Theorem keyword_columns_first (cols : list (string * string)) (i j : nat)
    (a b : string * string) :
  _optimize_column_order true cols !! i = Some a ->
  _optimize_column_order true cols !! j = Some b ->
  mentions (high_prob_patterns ++ medium_prob_patterns) a.1 = false ->
  mentions (high_prob_patterns ++ medium_prob_patterns) b.1 = true ->
  j < i.
Proof.
  intros Hi Hj Ha Hb.
  pose proof (proj2 (column_score_keywords a.1 a.2) Ha) as Hlow.
  pose proof (proj1 (column_score_keywords b.1 b.2) Hb) as Hhigh.
  destruct (Nat.lt_trichotomy i j) as [Hlt | [-> | Hgt]]; [|congruence|done].
  pose proof (optimize_column_order_sorted cols i j a b Hlt Hi Hj) as Hsorted.
  unfold score_of in Hsorted. lia.
Qed.

(** A remark column listed before the account column. *)
Lemma keyword_columns_first_witness : 0 < 1.
Proof.
  apply (keyword_columns_first
           [("REMARK", "VARCHAR2"); ("BANK_ACCOUNT", "NUMBER")] 1 0
           ("REMARK", "VARCHAR2") ("BANK_ACCOUNT", "NUMBER"));
    reflexivity.
Defined.

(** The rules of the skip list, one by one. *)
Lemma skip_rules_unfolded (n : string) :
  existsb (fun pattern => re_match pattern n) skip_patterns
  = (exact_name "id" n
     || (Py.startswith "pk_" (Py.lower n)
     || (Py.startswith "fk_" (Py.lower n)
     || (exact_name "_id" n
     || (Py.startswith "created_" (Py.lower n)
     || (Py.startswith "updated_" (Py.lower n)
     || (Py.startswith "modified_" (Py.lower n)
     || (exact_name "version" n
     || (exact_name "status" n
     || (exact_name "flag" n
     || (exact_name "deleted" n
     || (exact_name "active" n
     || (exact_name "enabled" n
     || (Py.startswith "sort_" (Py.lower n)
     || (Py.startswith "order_" (Py.lower n)
     || (Py.startswith "seq_" (Py.lower n)
     || (Py.startswith "temp_" (Py.lower n)
     || (Py.startswith "tmp_" (Py.lower n)
     || (Py.startswith "bkp_" (Py.lower n) || false))))))))))))))))))).
Proof. reflexivity. Qed.

Lemma endswith_app (q suffix : string) : endswith suffix (q +:+ suffix) = true.
Proof.
  induction q as [|c q IH].
  - rewrite str_app_nil_l. destruct suffix; cbn [endswith];
      apply orb_true_iff; left; by apply bool_decide_eq_true_2.
  - rewrite str_app_cons. cbn [endswith]. rewrite IH. apply orb_true_r.
Qed.

Lemma not_with_suffix (q suffix literal : string) :
  endswith suffix literal = false -> q +:+ suffix <> literal.
Proof. intros H <-. by rewrite endswith_app in H. Qed.

Lemma lower_empty (p : string) : Py.lower p = "" -> p = "".
Proof. by destruct p. Qed.

Lemma exact_name_with_id (literal p : string) :
  endswith "_id" literal = false ->
  endswith "_id" (literal +:+ newline) = false ->
  exact_name literal (p +:+ "_ID") = false.
Proof.
  intros H1 H2. unfold exact_name. rewrite lower_app.
  change (Py.lower "_ID") with "_id".
  rewrite !bool_decide_eq_false_2; [done | |]; by apply not_with_suffix.
Qed.

Lemma suffix_rule_with_id (p : string) :
  p <> "" -> exact_name "_id" (p +:+ "_ID") = false.
Proof.
  intros Hp. unfold exact_name. rewrite lower_app.
  change (Py.lower "_ID") with "_id".
  rewrite !bool_decide_eq_false_2; [done | |].
  - by apply not_with_suffix.
  - intros H. apply Hp, lower_empty.
    assert (Hlen : Py.len (Py.lower p +:+ "_id") = Py.len "_id") by (by rewrite H).
    rewrite str_len_app in Hlen. cbn in Hlen.
    destruct (Py.lower p); [done | cbn in Hlen; lia].
Qed.

(** X6: the rule [_ID$] of the skip list, tried with [re.match], skips no
    column whose name merely ends in _ID: such a column (USER_ID, say) is
    skipped exactly when its name starts with one of the listed prefixes
    or its type is numeric; and with column optimisation off no column is
    skipped. *)
Theorem id_suffix_is_not_skipped (p data_type table_name : string) :
  p <> "" ->
  _should_skip_column true (p +:+ "_ID") data_type table_name
  = has_skip_prefix (p +:+ "_ID") || Py.in_list data_type numeric_types
  /\ _should_skip_column false (p +:+ "_ID") data_type table_name = false.
Proof.
  intros Hp. split; [|done].
  unfold _should_skip_column. cbn [negb]. rewrite skip_rules_unfolded.
  rewrite suffix_rule_with_id by done.
  rewrite !exact_name_with_id by reflexivity.
  unfold has_skip_prefix, skip_prefixes, numeric_types. cbn [existsb].
  rewrite ?orb_false_l, ?orb_false_r.
  by destruct (_ || _), (Py.in_list _ _).
Qed.

(** The column USER_ID of type VARCHAR2. *)
Lemma id_suffix_is_not_skipped_witness :
  _should_skip_column true "USER_ID" "VARCHAR2" "CUSTOMERS" = false.
Proof.
  apply (proj1 (id_suffix_is_not_skipped "USER" "VARCHAR2" "CUSTOMERS"
                  ltac:(discriminate))).
Defined.

End ColumnSkip.

(** ** The cache of compiled patterns *)

Section CompiledPatterns.
Import ScanOpts Catalog OracleAsync.

Lemma dict_set_here (n : string) (rx : re.Pattern) (c : list (string * re.Pattern)) :
  (n, rx) ∈ dict_set n rx c.
Proof.
  induction c as [|[k v] c IH]; cbn; [by left|].
  case_bool_decide as Hk; [subst; by left | by right].
Qed.

Lemma dict_set_other (n m : string) (rx r : re.Pattern) (c : list (string * re.Pattern)) :
  n <> m -> (n, rx) ∈ c -> (n, rx) ∈ dict_set m r c.
Proof.
  intros Hne. induction c as [|[k v] c IH]; cbn; [by intros ?%elem_of_nil|].
  intros [[= <- <-] | H]%elem_of_cons.
  - rewrite bool_decide_eq_false_2 by done. by left.
  - case_bool_decide; right; [done | by apply IH].
Qed.

Lemma compile_patterns_inv (re_compile : string -> option re.Pattern)
    (patterns : list Pattern) :
  forall (compiled : list (string * re.Pattern)) (self : Adapter)
         (cps : list (string * re.Pattern)) (self' : Adapter),
    _compile_patterns re_compile patterns compiled self = (Some cps, self') ->
    (forall n rx, _compiled_patterns self !! n = Some rx ->
                  _compiled_patterns self' !! n = Some rx)
    /\ (forall n rx, (n, rx) ∈ compiled ->
                     _compiled_patterns self !! n = Some rx -> (n, rx) ∈ cps)
    /\ (forall p, p ∈ patterns ->
          exists rx, _compiled_patterns self' !! name p = Some rx
                     /\ (name p, rx) ∈ cps).
Proof.
  induction patterns as [|p ps IH]; intros compiled self cps self' Hc.
  { cbn in Hc. injection Hc as <- <-. repeat split; try done.
    intros q Hq. by apply elem_of_nil in Hq. }
  cbn [_compile_patterns] in Hc. cbn zeta in Hc.
  destruct (_compiled_patterns self !! name p) as [rx|] eqn:Hcache.
  - destruct (IH _ _ _ _ Hc) as [Hmono [Hkeep Hall]].
    assert (Hkeep' : forall n r, (n, r) ∈ compiled ->
              _compiled_patterns self !! n = Some r -> (n, r) ∈ cps).
    { intros n r Hin Hn. apply Hkeep; [|done].
      destruct (decide (n = name p)) as [->|Hne].
      - rewrite Hcache in Hn. injection Hn as ->. apply dict_set_here.
      - by apply dict_set_other. }
    split; [done|]. split; [done|].
    intros q [-> | Hq]%elem_of_cons; [|by apply Hall].
    exists rx. split; [by apply Hmono|].
    apply Hkeep; [apply dict_set_here | done].
  - destruct (regex p) as [| | |text|]; try discriminate.
    destruct (re_compile text) as [rx|]; [|discriminate].
    destruct (IH _ _ _ _ Hc) as [Hmono [Hkeep Hall]].
    assert (Hnew : forall n r, _compiled_patterns self !! n = Some r ->
              <[name p := rx]> (_compiled_patterns self) !! n = Some r).
    { intros n r Hn. rewrite lookup_insert_ne; [done|]. congruence. }
    split; [intros n r Hn; apply Hmono, Hnew, Hn|]. split.
    + intros n r Hin Hn. apply Hkeep; [|by apply Hnew].
      apply dict_set_other; [congruence | done].
    + intros q [-> | Hq]%elem_of_cons; [|by apply Hall].
      exists rx. split.
      * apply Hmono. cbn. apply lookup_insert_eq.
      * apply Hkeep; [apply dict_set_here | cbn; apply lookup_insert_eq].
Qed.

(** X7: [_compile_patterns] remembers compiled patterns by name only.  When
    it succeeds, no entry of the adapter's cache has changed, and every
    pattern of the list is mapped to the cache entry of its name: a
    pattern whose name was compiled before gets the old regex, whatever
    its own regex text is. *)
Theorem compiled_by_name_only (re_compile : string -> option re.Pattern)
    (patterns : list Pattern) (self : Adapter)
    (cps : list (string * re.Pattern)) (self' : Adapter) :
  _compile_patterns re_compile patterns [] self = (Some cps, self') ->
  (forall n rx, _compiled_patterns self !! n = Some rx ->
                _compiled_patterns self' !! n = Some rx)
  /\ (forall p, p ∈ patterns ->
        exists rx, _compiled_patterns self' !! name p = Some rx
                   /\ (name p, rx) ∈ cps)
  /\ (forall p rx, p ∈ patterns -> _compiled_patterns self !! name p = Some rx ->
        (name p, rx) ∈ cps).
Proof.
  intros Hc. destruct (compile_patterns_inv _ _ _ _ _ _ Hc) as [Hmono [_ Hall]].
  split; [done|]. split; [done|].
  intros p rx Hp Hold. destruct (Hall p Hp) as [rx' [Hnew Hin]].
  rewrite (Hmono _ _ Hold) in Hnew. by injection Hnew as <-.
Qed.

(** An adapter that has compiled "4111" under the name custom is given
    the ad-hoc pattern "(" under the same name. *)
Lemma compiled_by_name_only_witness :
  ("custom", re.literal "4111") ∈ [("custom", re.literal "4111")].
Proof.
  assert (Hc : _compile_patterns ProgressSpec.rejects_open_paren
                 ProgressSpec.bad_patterns []
                 (set_compiled {["custom" := re.literal "4111"]} (fresh 1))
               = (Some [("custom", re.literal "4111")],
                  set_compiled {["custom" := re.literal "4111"]} (fresh 1))).
  { unfold ProgressSpec.bad_patterns. cbn [_compile_patterns name].
    change (_compiled_patterns (set_compiled ?c _)) with c.
    by rewrite lookup_singleton_eq. }
  apply (proj2 (proj2 (compiled_by_name_only _ _ _ _ _ Hc))
           (mkPattern "custom" (PStr "(") "Custom pattern") (re.literal "4111")).
  - by left.
  - apply lookup_singleton_eq.
Defined.

End CompiledPatterns.

(** ** The catalog under options of any type *)

Section CatalogEdges.
Import ScanOpts Catalog CatalogSpec OptionsMore.

Lemma comprehension_sublist (cond : Pattern -> result bool) (ps r : list Pattern) :
  comprehension cond ps = Ok r -> sublist r ps.
Proof.
  revert r. induction ps as [|p ps IH]; intros r; cbn [comprehension].
  { intros [= <-]. constructor. }
  destruct (cond p) as [b|e]; [|discriminate]. rewrite bind_ok.
  destruct (comprehension cond ps) as [r'|e]; [|discriminate].
  rewrite bind_ok. intros [= <-].
  destruct b; [by apply sublist_skip, IH | by apply sublist_cons, IH].
Qed.

(** X8: whatever the option values are, a pattern list that [get_patterns]
    returns is made of default patterns, in the order of the catalog,
    followed by at most one pattern, named "custom", that carries the
    value of [options.pattern]. *)
Theorem get_patterns_shape (o : gmap string pyval) (ps : list Pattern) :
  get_patterns o = Ok ps ->
  exists ds, sublist ds _get_default_patterns
    /\ (ps = ds \/ exists v, o !! "pattern" = Some v
                           /\ ps = ds ++ [mkPattern "custom" v "Custom pattern"]).
Proof.
  unfold get_patterns, getattr.
  destruct (o !! "only_patterns") as [only|]; [|discriminate].
  rewrite bind_ok.
  assert (Hsel : forall sel : result (list Pattern),
    (forall ds, sel = Ok ds -> sublist ds _get_default_patterns) ->
    sel ≫= (fun patterns =>
      pattern ← match o !! "pattern" with
                | Some v => Ok v
                | None => Raise (AttributeError "pattern")
                end;
      Ok (if truthy pattern
          then patterns ++ [mkPattern "custom" pattern "Custom pattern"]
          else patterns)) = Ok ps ->
    exists ds, sublist ds _get_default_patterns
      /\ (ps = ds \/ exists v, o !! "pattern" = Some v
                             /\ ps = ds ++ [mkPattern "custom" v "Custom pattern"])).
  { intros [ds|e] Hds; [|discriminate]. rewrite bind_ok.
    destruct (o !! "pattern") as [v|]; [|discriminate]. rewrite bind_ok.
    intros [= <-]. exists ds. split; [by apply Hds|].
    destruct (truthy v); [right; by exists v | by left]. }
  destruct (truthy only).
  - apply Hsel. intros ds Hd. by eapply comprehension_sublist.
  - destruct (o !! "except_patterns") as [exc|]; [|discriminate].
    rewrite bind_ok. destruct (truthy exc).
    + apply Hsel. intros ds Hd. by eapply comprehension_sublist.
    + apply Hsel. by intros ds [= <-].
Qed.

(** The options [email_and_unknown]. *)
Lemma get_patterns_shape_witness :
  exists ds, sublist ds _get_default_patterns
    /\ (stated_patterns (Some ["bogus"; "email"]) None (Some "\d{7}") = ds
        \/ exists v, __init__ email_and_unknown [] !! "pattern" = Some v
             /\ stated_patterns (Some ["bogus"; "email"]) None (Some "\d{7}")
                = ds ++ [mkPattern "custom" v "Custom pattern"]).
Proof.
  apply (get_patterns_shape (__init__ email_and_unknown [])). reflexivity.
Defined.

Lemma comprehension_raises (v : pyval) (p : Pattern) (ps : list Pattern) :
  py_in (name p) v = Raise TypeError ->
  comprehension (fun q => py_in (name q) v) (p :: ps) = Raise TypeError.
Proof. intros H. cbn [comprehension]. by rewrite H. Qed.

Lemma comprehension_contains (s : string) (ps : list Pattern) :
  comprehension (fun p => py_in (name p) (PStr s)) ps
  = Ok (List.filter (fun p => Py.contains (name p) s) ps).
Proof.
  induction ps as [|p ps IH]; [done|].
  cbn [comprehension]. rewrite IH. cbn. by destruct (Py.contains (name p) s).
Qed.

(** X9: an inclusion filter that is not a list.  A non-empty string
    selects every default pattern whose name occurs in the string as a
    substring; a number other than 0, or [True], makes [get_patterns]
    raise [TypeError]; and an options object without the attribute
    [only_patterns] makes it raise [AttributeError]. *)
Theorem inclusion_filter_of_other_type (o : gmap string pyval) :
  (forall s v, o !! "only_patterns" = Some (PStr s) -> s <> "" ->
     o !! "pattern" = Some v ->
     get_patterns o
     = Ok (List.filter (fun p => Py.contains (name p) s) _get_default_patterns
           ++ ad_hoc v))
  /\ (forall z, o !! "only_patterns" = Some (PInt z) -> z <> 0%Z ->
        get_patterns o = Raise TypeError)
  /\ (o !! "only_patterns" = Some (PBool true) ->
      get_patterns o = Raise TypeError)
  /\ (o !! "only_patterns" = None ->
      get_patterns o = Raise (AttributeError "only_patterns")).
Proof.
  unfold get_patterns, getattr. repeat split.
  - intros s v -> Hs ->. rewrite !bind_ok.
    assert (Hon : truthy (PStr s) = true) by (by destruct s).
    rewrite Hon, comprehension_contains. repeat (rewrite bind_ok; cbn beta).
    by rewrite append_ad_hoc.
  - intros z -> Hz. rewrite bind_ok.
    assert (Hon : truthy (PInt z) = true)
      by (cbn; by rewrite (proj2 (Z.eqb_neq _ _) Hz)).
    by rewrite Hon.
  - by intros ->.
  - by intros ->.
Qed.

(** The filter "credit_card_masked" given as a string instead of a list. *)
Lemma inclusion_filter_of_other_type_witness :
  name <$> List.filter (fun p => Py.contains (name p) "credit_card_masked")
             _get_default_patterns
  = ["credit_card"; "credit_card_masked"]
  /\ get_patterns (<["only_patterns" := PStr "credit_card_masked"]>
                     (__init__ defaults []))
     = Ok (List.filter (fun p => Py.contains (name p) "credit_card_masked")
             _get_default_patterns ++ ad_hoc PNone).
Proof.
  split; [reflexivity|].
  apply (proj1 (inclusion_filter_of_other_type
                  (<["only_patterns" := PStr "credit_card_masked"]>
                     (__init__ defaults [])))
           "credit_card_masked" PNone);
    [reflexivity | discriminate | reflexivity].
Defined.

(** X10: the declared parameter [only] is stored under the attribute
    [only] and read by nothing: the patterns [get_patterns] returns do
    not depend on it, and an object built with [only] alone gets every
    default pattern. *)
Theorem declared_only_has_no_effect (p : params) (x : pyval) :
  __init__ (with_only x p) [] !! "only_patterns" = Some (only_patterns p)
  /\ get_patterns (__init__ (with_only x p) []) = get_patterns (__init__ p [])
  /\ (truthy (only_patterns p) = false ->
      get_patterns (__init__ (with_only x p) [])
      = Ok (_get_default_patterns ++ ad_hoc (pattern p))).
Proof.
  split; [reflexivity|].
  assert (Hsame : get_patterns (__init__ (with_only x p) [])
                  = get_patterns (__init__ p []))
    by (by apply get_patterns_reads).
  split; [done|]. intros Hoff. rewrite Hsame.
  unfold get_patterns, getattr.
  rewrite init_only_patterns, init_pattern, init_except_patterns.
  cbv beta iota. rewrite bind_ok, Hoff.
  repeat (rewrite bind_ok; cbn [truthy]). by rewrite append_ad_hoc.
Qed.

(** The call [ScanOptions(only=["email"])]. *)
Lemma declared_only_has_no_effect_witness :
  get_patterns (__init__ (with_only (PList ["email"]) defaults) [])
  = Ok (_get_default_patterns ++ ad_hoc PNone).
Proof.
  apply (proj2 (proj2 (declared_only_has_no_effect defaults (PList ["email"])))).
  reflexivity.
Defined.

End CatalogEdges.

(** ** Errors while a table is streamed *)

Section StreamErrors.
Import OracleAsync Streaming.

Lemma existsb_member (f : string -> bool) (x : string) (l : list string) :
  x ∈ l -> f x = true -> existsb f l = true.
Proof.
  intros Hx Hf. apply existsb_exists. exists x.
  split; [by apply list_elem_of_In | done].
Qed.

(** X11: an error whose message holds one of the codes ORA-00942,
    ORA-01031 or ORA-03113 ends the scan of the table at once, with the
    matches yielded so far and one more connection error; so ORA-03113,
    which [_should_retry] accepts, is never retried. *)
Theorem skip_codes_end_the_scan (fuel : nat)
    (backend : nat -> Adapter -> try_outcome * Adapter) (round : nat)
    (self self1 : Adapter) (yielded : list Found) (error_msg code : string) :
  backend round self = (Failed yielded error_msg, self1) ->
  code ∈ skip_codes -> Py.contains code error_msg = true ->
  stream_table (S fuel) backend round self
  = (Some yielded,
     set_metrics incr_connection_errors (emit (Say "Skipping table") self1))
  /\ (code = "ORA-03113" -> _should_retry error_msg = true).
Proof.
  intros Hb Hcode Hin. split.
  - cbn [stream_table]. rewrite Hb.
    by rewrite (existsb_member _ code skip_codes Hcode Hin).
  - intros ->. apply (existsb_member _ "ORA-03113"); [|done].
    unfold retryable_errors. do 5 right. by left.
Qed.

(** A connection that is lost in the first round. *)
Lemma skip_codes_end_the_scan_witness :
  _should_retry "ORA-03113: end-of-file on communication channel" = true.
Proof.
  apply (proj2 (skip_codes_end_the_scan 0
           (always_failing "ORA-03113: end-of-file on communication channel")
           0 (fresh 1) (fresh 1) []
           "ORA-03113: end-of-file on communication channel" "ORA-03113"
           eq_refl ltac:(do 2 right; by left) eq_refl)).
  reflexivity.
Defined.





End StreamErrors.

(** ** Records of the aggregator over time *)

Section Records.
Import Rules MatchFinder AggregatorSpec Finder.

Lemma extends_refl (m : RuleMatch.t) : extends m m.
Proof. by repeat split. Qed.

Lemma extends_trans (m1 m2 m3 : RuleMatch.t) :
  extends m2 m1 -> extends m3 m2 -> extends m3 m1.
Proof.
  intros (?&?&?&?&?) (?&?&?&?&?). repeat split; try congruence.
  by etrans.
Qed.

Lemma offer_extends (value : string) (m : RuleMatch.t) : extends (offer value m) m.
Proof.
  unfold offer. destruct (Py.in_list _ _); [apply extends_refl|].
  repeat split; cbn. by apply prefix_app_r.
Qed.

Lemma add_match_extends (rule : Rule) (value location key : string)
    (ms : gmap string RuleMatch.t) (m : RuleMatch.t) :
  ms !! key = Some m ->
  exists m', _add_match rule value location ms !! key = Some m' /\ extends m' m.
Proof.
  intros Hm. rewrite add_match_insert, lookup_insert. case_decide as Hk.
  - subst key. rewrite Hm. cbn. eexists. split; [done|]. apply offer_extends.
  - exists m. split; [done|]. apply extends_refl.
Qed.

Lemma add_hits_extends (hits : list (Rule * string * string)) (key : string)
    (ms : gmap string RuleMatch.t) (m : RuleMatch.t) :
  ms !! key = Some m ->
  exists m', add_hits hits ms !! key = Some m' /\ extends m' m.
Proof.
  revert ms m. induction hits as [|h hits IH]; intros ms m Hm.
  - exists m. split; [done|]. apply extends_refl.
  - destruct (add_match_extends h.1.1 h.1.2 h.2 key ms m Hm) as [m1 [H1 E1]].
    destruct (IH _ _ H1) as [m2 [H2 E2]].
    exists m2. split; [done|]. by eapply extends_trans.
Qed.

(** X14: [check_line] only ever appends.  A record that is in the
    dictionary is still there after any further calls, under the same key,
    with the rule name, display name, confidence and location it was
    created with, and with its values as a prefix of the later values. *)
Theorem check_lines_only_appends (calls : list (MatchConfig * string * string))
    (ms : gmap string RuleMatch.t) (key : string) (m : RuleMatch.t) :
  ms !! key = Some m ->
  exists m', check_lines calls ms !! key = Some m' /\ extends m' m.
Proof. intros Hm. rewrite check_lines_hits. by apply add_hits_extends. Qed.

(** The first spelling of a line stays, the second call adds nothing in
    front of it. *)
Lemma check_lines_only_appends_witness :
  exists m', check_lines two_spellings
               (check_lines [(token_only, "my api key", "users.note")] ∅)
             !! "api-key:users.note" = Some m'
    /\ extends m' (RuleMatch.mk "api-key" "API Key" "high" "users.note" ["my api key"]).
Proof.
  apply (check_lines_only_appends two_spellings
           (check_lines [(token_only, "my api key", "users.note")] ∅)
           "api-key:users.note").
  vm_compute. reflexivity.
Defined.

End Records.

(** ** Custom patterns taken away *)

Section Removal.
Import Rules MatchFinder Finder.

Lemma foldl_delete_lookup (keys : list string) (ms : gmap string RuleMatch.t)
    (k : string) :
  foldl (fun ms key => delete key ms) ms keys !! k
  = if bool_decide (k ∈ keys) then None else ms !! k.
Proof.
  revert ms. induction keys as [|key keys IH]; intros ms; [done|].
  cbn [foldl]. rewrite IH. destruct (decide (k = key)) as [->|Hne].
  - rewrite lookup_delete_eq. rewrite (bool_decide_eq_true_2 (key ∈ key :: keys)).
    + by case_bool_decide.
    + by left.
  - rewrite lookup_delete_ne by done.
    case_bool_decide as H1; case_bool_decide as H2; try done.
    + exfalso. apply H2. by right.
    + exfalso. apply elem_of_cons in H2 as [?|?]; done.
Qed.

(** Which records [remove_custom_pattern] leaves. *)
Lemma remove_custom_pattern_lookup (name k : string) (self : t) :
  matches (remove_custom_pattern name self) !! k
  = if Py.startswith (name +:+ ":") k then None else matches self !! k.
Proof.
  unfold remove_custom_pattern. cbn [matches]. rewrite foldl_delete_lookup.
  case_bool_decide as Hin.
  - apply list_elem_of_filter in Hin as [-> _]. done.
  - destruct (Py.startswith (name +:+ ":") k) eqn:Hs; [|done].
    destruct (matches self !! k) as [m|] eqn:Hk; [|done].
    exfalso. apply Hin. apply list_elem_of_filter. split; [done|].
    apply list_elem_of_fmap. exists (k, m). split; [done|].
    by apply elem_of_map_to_list.
Qed.

Lemma colon_free_head (c : ascii) (s : string) :
  Py.contains ":" (String c s) = false -> c <> ":"%char /\ Py.contains ":" s = false.
Proof.
  cbn [Py.contains Py.startswith]. intros H.
  apply orb_false_iff in H as [H1 H2]. split; [|done].
  intros ->. cbn in H1. discriminate.
Qed.

(** Below a name without a colon, the key of a record tells the name. *)
Lemma key_prefix_names (name rname location : string) :
  Py.contains ":" name = false -> Py.contains ":" rname = false ->
  Py.startswith (name +:+ ":") (rname +:+ ":" +:+ location)
  = bool_decide (rname = name).
Proof.
  revert rname. induction name as [|a name IH]; intros rname Hn Hr.
  - destruct rname as [|c rname].
    + done.
    + apply colon_free_head in Hr as [Hc _].
      rewrite str_app_nil_l, str_app_cons. cbn [Py.startswith].
      rewrite (bool_decide_eq_false_2 (":"%char = c)) by congruence.
      by rewrite bool_decide_eq_false_2.
  - apply colon_free_head in Hn as [Ha Hn].
    destruct rname as [|c rname].
    + rewrite str_app_nil_l, str_app_cons.
      change (":" +:+ location) with (String ":" location).
      cbn [Py.startswith].
      rewrite (bool_decide_eq_false_2 (a = ":"%char)) by done.
      by rewrite bool_decide_eq_false_2.
    + apply colon_free_head in Hr as [Hc Hr].
      change (String a name +:+ ":") with (String a (name +:+ ":")).
      change (String c rname +:+ ":" +:+ location)
        with (String c (rname +:+ ":" +:+ location)).
      cbn [Py.startswith]. rewrite (IH _ Hn Hr).
      destruct (decide (a = c)) as [->|Hac].
      * rewrite bool_decide_eq_true_2 by done. cbn.
        apply bool_decide_ext. split; [by intros -> | by intros [= ->]].
      * rewrite bool_decide_eq_false_2 by done. cbn.
        rewrite bool_decide_eq_false_2; [done|]. by intros [= -> ->].
Qed.

(** X15: when neither name holds a colon, [remove_custom_pattern(name)]
    deletes the records of the rules called [name], at every location and
    whether or not the rule is a custom pattern, and leaves the record of
    any other rule as it was. *)
Theorem removal_goes_by_rule_name (name : string) (rule : Rule) (location : string)
    (self : t) :
  Py.contains ":" name = false ->
  Py.contains ":" (Rules.name rule) = false ->
  matches (remove_custom_pattern name self) !! match_key rule location
  = if bool_decide (Rules.name rule = name) then None
    else matches self !! match_key rule location.
Proof.
  intros Hn Hr. rewrite remove_custom_pattern_lookup. unfold match_key.
  by rewrite key_prefix_names.
Qed.

(** Removing a name that is no custom pattern: the matches of the token
    rule of that name go all the same. *)
Lemma removal_goes_by_rule_name_witness :
  matches (remove_custom_pattern "api-key"
             (mk AggregatorSpec.token_only
                 (check_lines AggregatorSpec.two_spellings ∅)))
    !! "api-key:users.note" = None.
Proof.
  apply (removal_goes_by_rule_name "api-key" (mkRule "api-key" "API Key" "high")
           "users.note"); reflexivity.
Defined.

(** With a colon in a name the keys no longer tell the rules apart:
    removing the pattern [card] takes the matches of [card:test] along. *)
Example removal_reaches_longer_names :
  (matches colon_names !! "card:test:T.C") <> None
  /\ matches (remove_custom_pattern "card" colon_names) !! "card:test:T.C" = None.
Proof. split; vm_compute; done. Qed.

End Removal.

(** ** Normal forms of values *)

Section NormalForms.
Import Rules MatchFinder.

Lemma isspace_lower_char (c : ascii) :
  Py.isspace_char (Py.lower_char c) = Py.isspace_char c.
Proof. destruct c as [[] [] [] [] [] [] [] []]; vm_compute; reflexivity. Qed.

Lemma lower_char_idem (c : ascii) :
  Py.lower_char (Py.lower_char c) = Py.lower_char c.
Proof. destruct c as [[] [] [] [] [] [] [] []]; vm_compute; reflexivity. Qed.

Lemma lower_idem (s : string) : Py.lower (Py.lower s) = Py.lower s.
Proof.
  induction s as [|c s IH]; [done|]. cbn. by rewrite lower_char_idem, IH.
Qed.

Lemma lstrip_lower (s : string) : Py.lstrip (Py.lower s) = Py.lower (Py.lstrip s).
Proof.
  induction s as [|c s IH]; [done|]. cbn. rewrite isspace_lower_char.
  by destruct (Py.isspace_char c).
Qed.

Lemma rstrip_lower (s : string) : Py.rstrip (Py.lower s) = Py.lower (Py.rstrip s).
Proof.
  induction s as [|c s IH]; [done|]. cbn. rewrite IH, isspace_lower_char.
  destruct (Py.rstrip s); cbn; [|done]. by destruct (Py.isspace_char c).
Qed.

Lemma collapse_ws_lower (b : bool) (s : string) :
  Py.collapse_ws b (Py.lower s) = Py.lower (Py.collapse_ws b s).
Proof.
  revert b. induction s as [|c s IH]; intros b; [done|]. cbn.
  rewrite isspace_lower_char.
  destruct (Py.isspace_char c); [destruct b|]; cbn; by rewrite IH.
Qed.

Lemma collapse_ws_idem (s : string) :
  Py.collapse_ws false (Py.collapse_ws false s) = Py.collapse_ws false s
  /\ Py.collapse_ws true (Py.collapse_ws true s) = Py.collapse_ws true s.
Proof.
  induction s as [|c s [IH1 IH2]]; [done|]. cbn.
  destruct (Py.isspace_char c) eqn:Hc; cbn.
  - by rewrite IH2.
  - by rewrite Hc, IH1.
Qed.

(** A string is its own [rstrip] when it is empty or ends in a character
    that is no white space. *)
Lemma rstrip_fixed_cons (c : ascii) (t : string) :
  Py.rstrip (String c t) = String c t
  <-> (t = "" /\ Py.isspace_char c = false) \/ (t <> "" /\ Py.rstrip t = t).
Proof.
  cbn [Py.rstrip]. destruct (Py.rstrip t) as [|d r] eqn:Hr.
  - destruct (Py.isspace_char c); split.
    + discriminate.
    + intros [[_ ?] | [Hne Heq]]; [discriminate | by rewrite <- Heq in Hne].
    + intros [= <-]. by left.
    + intros [[-> _] | [Hne Heq]]; [done | by rewrite <- Heq in Hne].
  - split.
    + intros [= <-]. by right.
    + intros [[-> _] | [_ ->]]; [discriminate | done].
Qed.

Lemma rstrip_idem (s : string) : Py.rstrip (Py.rstrip s) = Py.rstrip s.
Proof.
  induction s as [|c s IH]; [done|]. cbn [Py.rstrip].
  destruct (Py.rstrip s) as [|d r] eqn:Hr.
  - destruct (Py.isspace_char c) eqn:Hc; [done|]. cbn. by rewrite Hc.
  - apply rstrip_fixed_cons. by right.
Qed.

Lemma collapse_ws_nonempty (b : bool) (s : string) :
  s <> "" -> Py.rstrip s = s -> Py.collapse_ws b s <> "".
Proof.
  revert b. induction s as [|c s IH]; intros b Hne Hfix; [done|].
  apply rstrip_fixed_cons in Hfix as [[-> Hc] | [Hs Hfix]]; cbn.
  - by rewrite Hc.
  - destruct (Py.isspace_char c); [destruct b|]; try done. by apply IH.
Qed.

Lemma collapse_ws_rstrip (b : bool) (s : string) :
  Py.rstrip s = s -> Py.rstrip (Py.collapse_ws b s) = Py.collapse_ws b s.
Proof.
  revert b. induction s as [|c s IH]; intros b Hfix; [done|].
  apply rstrip_fixed_cons in Hfix as [[-> Hc] | [Hs Hfix]].
  - cbn [Py.collapse_ws]. rewrite Hc. cbn [Py.rstrip]. by rewrite Hc.
  - cbn [Py.collapse_ws].
    destruct (Py.isspace_char c); [destruct b|]; try by apply IH.
    + apply rstrip_fixed_cons. right.
      split; [by apply collapse_ws_nonempty | by apply IH].
    + apply rstrip_fixed_cons. right.
      split; [by apply collapse_ws_nonempty | by apply IH].
Qed.

Lemma lstrip_clean (s : string) :
  match Py.lstrip s with
  | "" => True
  | String c _ => Py.isspace_char c = false
  end.
Proof.
  induction s as [|c s IH]; [done|]. cbn.
  by destruct (Py.isspace_char c) eqn:Hc.
Qed.

Lemma rstrip_head (s : string) :
  match s with "" => True | String c _ => Py.isspace_char c = false end ->
  match Py.rstrip s with "" => True | String c _ => Py.isspace_char c = false end.
Proof.
  destruct s as [|c s]; [done|]. intros Hc. cbn.
  destruct (Py.rstrip s); [by rewrite Hc | done].
Qed.

Lemma lstrip_fixed (s : string) :
  match s with "" => True | String c _ => Py.isspace_char c = false end ->
  Py.lstrip s = s.
Proof. destruct s as [|c s]; [done|]. cbn. by intros ->. Qed.

(** The stripped and collapsed form is stripped and collapsed. *)
Lemma tidy_idem (v : string) :
  Py.sub_ws (Py.strip (Py.sub_ws (Py.strip v))) = Py.sub_ws (Py.strip v).
Proof.
  unfold Py.sub_ws, Py.strip.
  pose proof (rstrip_head _ (lstrip_clean v)) as Hhead.
  pose proof (rstrip_idem (Py.lstrip v)) as Hfix.
  set (t := Py.rstrip (Py.lstrip v)) in *.
  rewrite lstrip_fixed.
  - rewrite collapse_ws_rstrip by done. apply collapse_ws_idem.
  - destruct t as [|c t]; [done|]. cbn. by rewrite Hhead.
Qed.

(** X16: [_normalize_value] gives a fixed point of itself, so a value
    and its normal form count as the same value: adding the normal form
    of a value after the value leaves the dictionary as it is. *)
Theorem normal_form_is_fixed (v : string) :
  _normalize_value (_normalize_value v) = _normalize_value v
  /\ forall (rule : Rule) (location : string) (ms : gmap string RuleMatch.t),
       _add_match rule (_normalize_value v) location (_add_match rule v location ms)
       = _add_match rule v location ms.
Proof.
  assert (Hidem : _normalize_value (_normalize_value v) = _normalize_value v).
  { unfold _normalize_value, Py.strip, Py.sub_ws.
    rewrite lstrip_lower, rstrip_lower, collapse_ws_lower, lower_idem.
    f_equal. apply tidy_idem. }
  split; [done|]. intros rule location ms.
  rewrite (add_match_insert rule (_normalize_value v)).
  rewrite (add_match_insert rule v), lookup_insert_eq. cbn [default].
  rewrite insert_insert_eq. f_equal.
  set (m := AggregatorSpec.offer v _).
  destruct (offer_holds v (default (AggregatorSpec.new_record rule location)
                             (ms !! match_key rule location))) as [w [Hw Hn]].
  fold m in Hw. unfold AggregatorSpec.offer at 1. rewrite Hidem.
  unfold Py.in_list. rewrite bool_decide_eq_true_2; [done|].
  apply list_elem_of_fmap. by exists w.
Qed.

Example normal_form_of_spaced_key :
  _normalize_value "  MY  API   key " = "my api key".
Proof. reflexivity. Qed.

End NormalForms.

(** ** Names of tables, written and read back *)

Section TableNameFacts.
Import TableNames.

Lemma absent_head (q c : ascii) (s : string) :
  Py.contains (String q "") (String c s) = false ->
  c <> q /\ Py.contains (String q "") s = false.
Proof.
  cbn [Py.contains Py.startswith]. intros H.
  apply orb_false_iff in H as [H1 H2]. split; [|done].
  intros ->. rewrite bool_decide_eq_true_2 in H1 by done. discriminate.
Qed.

Lemma among_one (q c : ascii) : among (String q "") c = bool_decide (q = c).
Proof. unfold among. cbn. by rewrite orb_false_r. Qed.

Lemma lstrip_chars_absent (q : ascii) (s : string) :
  Py.contains (String q "") s = false -> lstrip_chars (String q "") s = s.
Proof.
  destruct s as [|c s]; [done|]. intros [Hc _]%absent_head.
  cbn [lstrip_chars]. rewrite among_one. by rewrite bool_decide_eq_false_2.
Qed.

Lemma rstrip_chars_absent (q : ascii) (s : string) :
  Py.contains (String q "") s = false -> rstrip_chars (String q "") s = s.
Proof.
  induction s as [|c s IH]; [done|]. intros [Hc Hs]%absent_head.
  cbn [rstrip_chars]. rewrite (IH Hs), among_one.
  rewrite bool_decide_eq_false_2 by done. by destruct s.
Qed.

Lemma rstrip_chars_last (q : ascii) (s : string) :
  rstrip_chars (String q "") (s +:+ String q "")
  = rstrip_chars (String q "") s.
Proof.
  induction s as [|c s IH].
  - rewrite str_app_nil_l. cbn [rstrip_chars]. rewrite among_one.
    by rewrite bool_decide_eq_true_2.
  - rewrite str_app_cons. cbn [rstrip_chars]. by rewrite IH.
Qed.

Lemma strip_chars_absent (q : ascii) (s : string) :
  Py.contains (String q "") s = false -> strip_chars (String q "") s = s.
Proof.
  intros Hs. unfold strip_chars.
  by rewrite lstrip_chars_absent, rstrip_chars_absent.
Qed.

(** Characters other than the quote are read into the piece. *)
Lemma split_go_piece (s piece rest : string) :
  Py.contains (String quote "") s = false ->
  split_go separator 0 piece (s +:+ rest)
  = split_go separator 0 (piece +:+ s) rest.
Proof.
  revert piece. induction s as [|c s IH]; intros piece Hs.
  - by rewrite str_app_nil_l, str_app_nil_r.
  - apply absent_head in Hs as [Hc Hs]. rewrite str_app_cons.
    cbn [split_go separator Py.startswith].
    rewrite (bool_decide_eq_false_2 (quote = c)) by congruence.
    cbn [andb]. rewrite (IH _ Hs). f_equal.
    by rewrite str_app_assoc.
Qed.

Lemma split_qualified (owner table : string) :
  Py.contains (String quote "") owner = false ->
  Py.contains (String quote "") table = false ->
  owner <> "." ->
  split separator (qualified owner table)
  = [String quote owner; table +:+ String quote ""].
Proof.
  intros Ho Ht Hdot. unfold split, qualified.
  rewrite str_app_cons.
  assert (Hfirst : Py.startswith separator
            (String quote (owner +:+ String quote (String "." (String quote table))
                           +:+ String quote "")) = false).
  { destruct (Py.startswith separator _) eqn:E; [|done].
    apply startswith_spec in E as [r Hr].
    change (separator +:+ r)
      with (String quote (String "." (String quote r))) in Hr.
    injection Hr as Hr. destruct owner as [|c [|d owner]].
    - rewrite str_app_nil_l, str_app_cons in Hr. discriminate.
    - rewrite str_app_cons, str_app_nil_l, str_app_cons in Hr.
      injection Hr as -> _. done.
    - apply absent_head in Ho as [_ Ho]. apply absent_head in Ho as [Hd _].
      rewrite !str_app_cons in Hr. injection Hr as _ -> _. done. }
  cbn [split_go]. rewrite Hfirst.
  rewrite (split_go_piece owner _ _ Ho).
  rewrite !str_app_cons, !str_app_nil_l.
  cbn [split_go separator Py.startswith Py.len String.length Nat.sub].
  rewrite !bool_decide_eq_true_2 by done. cbn [andb]. f_equal.
  rewrite (split_go_piece table "" _ Ht). reflexivity.
Qed.

(** X17: what [fetch_tables] writes, [_scan_table_streaming] reads back.
    For an owner and a table name without a double quote, the owner not
    being a single dot, the entry made of them is split into these two
    names again. *)
Theorem table_name_round_trip (user_upper owner table : string) :
  Py.contains (String quote "") owner = false ->
  Py.contains (String quote "") table = false ->
  owner <> "." ->
  parse_table user_upper (qualified owner table) = Some (owner, table).
Proof.
  intros Ho Ht Hdot. unfold parse_table.
  rewrite split_qualified by done.
  assert (Py.contains (String quote "") (qualified owner table) = true) as ->.
  { unfold qualified. rewrite str_app_cons. cbn [Py.contains Py.startswith].
    by rewrite bool_decide_eq_true_2. }
  f_equal. f_equal.
  - unfold strip_chars. cbn [lstrip_chars]. rewrite among_one.
    rewrite bool_decide_eq_true_2 by done.
    by rewrite lstrip_chars_absent, rstrip_chars_absent.
  - unfold strip_chars. destruct table as [|c table].
    + reflexivity.
    + apply absent_head in Ht as Hc. destruct Hc as [Hc _].
      rewrite str_app_cons. cbn [lstrip_chars]. rewrite among_one.
      rewrite bool_decide_eq_false_2 by congruence.
      rewrite <- str_app_cons, rstrip_chars_last.
      by apply rstrip_chars_absent.
Qed.

Lemma table_name_round_trip_witness :
  parse_table "SCOTT" (qualified "HR" "EMPLOYEES") = Some ("HR", "EMPLOYEES").
Proof.
  apply (table_name_round_trip "SCOTT" "HR" "EMPLOYEES");
    [reflexivity | reflexivity | discriminate].
Defined.

(** The schema whose name is a dot is read back as two other names, and
    an entry with a quote and no separator has no second part. *)
Example dot_schema_misread :
  parse_table "SCOTT" (qualified "." "T")
  = Some ("", String "." (String quote "T")).
Proof. reflexivity. Qed.

Example quoted_table_alone :
  parse_table "SCOTT" (String quote ("T" +:+ String quote "")) = None.
Proof. reflexivity. Qed.

End TableNameFacts.

(** ** One batch of rows *)

Section BatchFacts.
Import OracleAsync Columns Batches.

Variable md5 : string -> string.
Variable cfg : Config.
Variable column_optimization : bool.
Variable table : string.
Variable cps : list (string * re.Pattern).

Lemma matching_leaves_match_count (v : string) (self : Adapter) :
  total_matches_found (_metrics (_optimized_pattern_matching md5 cfg v cps self).2)
  = total_matches_found (_metrics self).
Proof.
  unfold _optimized_pattern_matching.
  destruct (pattern_optimization cfg); cbn [negb]; [|done].
  destruct (_early_termination_check cfg v cps); [done|].
  unfold _is_value_cached, _get_cached_result, _cache_value_result.
  destruct (value_caching cfg); cbn [negb]; [|done].
  destruct (_value_cache self !! _hash_value md5 v) as [old|] eqn:Hold;
    cbn; rewrite ?Hold; done.
Qed.

Lemma counted_per_hit (hits : list Hit) (self : Adapter) :
  total_matches_found
    (_metrics (foldl (fun self _ => set_metrics incr_total_matches_found self)
                     self hits))
  = (total_matches_found (_metrics self) + Z.of_nat (length hits))%Z.
Proof.
  revert self. induction hits as [|h hits IH]; intros self; cbn [foldl length].
  - lia.
  - rewrite IH. cbn. lia.
Qed.

Lemma yields_of_hit (col_name str_val : string) (hits : list Hit) (y : Match) :
  y ∈ yield_of table col_name str_val <$> hits ->
  value y = str_val /\ column y = col_name
  /\ path y = table +:+ "." +:+ col_name.
Proof. intros [h [-> _]]%list_elem_of_fmap. done. Qed.

Lemma scan_cols_inv (cols : list (string * string)) (row : list (option string))
    (base : Z) (todo : list (string * string)) (st : State) :
  todo ⊆ cols ->
  batch_inv column_optimization table cols base st ->
  batch_inv column_optimization table cols base
    (scan_cols md5 cfg column_optimization table cps cols row todo st).1.
Proof.
  revert st. induction todo as [|[col_name data_type] todo IH]; intros st Hsub Hinv;
    [done|].
  assert (Htodo : todo ⊆ cols) by (intros x Hx; apply Hsub; by right).
  assert (Hcol : (col_name, data_type) ∈ cols) by (apply Hsub; by left).
  cbn [scan_cols].
  destruct (_should_skip_column column_optimization col_name data_type table)
    eqn:Hskip.
  { apply IH; [done|]. destruct Hinv as (H1 & H2 & H3 & H4). by repeat split. }
  destruct (index (col_name, data_type) cols) as [i|]; [|done].
  destruct (row !! i) as [[str_val|]|]; [|by apply IH|done].
  case_bool_decide as Hseen; [by apply IH|].
  destruct (_optimized_pattern_matching md5 cfg str_val cps (adapter st))
    as [hits self] eqn:Hopm.
  apply IH; [done|]. destruct Hinv as (H1 & H2 & H3 & H4).
  pose proof (matching_leaves_match_count str_val (adapter st)) as Hframe.
  rewrite Hopm in Hframe. cbn [snd] in Hframe.
  repeat split; cbn [adapter yielded processed_values].
  - rewrite counted_per_hit, Hframe, H1, length_app, length_fmap. lia.
  - intros y [Hy|Hy]%elem_of_app.
    + apply elem_of_union. right. by apply H2.
    + apply yields_of_hit in Hy as [-> _]. apply elem_of_union. left.
      by apply elem_of_singleton.
  - intros y1 y2 [Hy1|Hy1]%elem_of_app [Hy2|Hy2]%elem_of_app Heq.
    + by apply H3.
    + apply yields_of_hit in Hy2 as [Hv _]. exfalso. apply Hseen.
      rewrite <- Hv, <- Heq. by apply H2.
    + apply yields_of_hit in Hy1 as [Hv _]. exfalso. apply Hseen.
      rewrite <- Hv, Heq. by apply H2.
    + apply yields_of_hit in Hy1 as (_ & -> & _).
      by apply yields_of_hit in Hy2 as (_ & -> & _).
  - intros y [Hy|Hy]%elem_of_app; [by apply H4|].
    apply yields_of_hit in Hy as (_ & Hc & Hp). exists data_type.
    by rewrite Hc, Hp.
Qed.

Lemma scan_rows_inv (cols : list (string * string))
    (rows : list (list (option string))) (base : Z) (st : State) :
  batch_inv column_optimization table cols base st ->
  batch_inv column_optimization table cols base
    (scan_rows md5 cfg column_optimization table cps cols rows st).1.
Proof.
  revert st. induction rows as [|row rows IH]; intros st Hinv; [done|].
  cbn [scan_rows].
  pose proof (scan_cols_inv cols row base cols st ltac:(done) Hinv) as Hrow.
  destruct (scan_cols md5 cfg column_optimization table cps cols row cols st)
    as [st1 []]; [by apply IH | done | done].
Qed.

Lemma batch_inv_start (cols : list (string * string)) (self : Adapter) :
  batch_inv column_optimization table cols (total_matches_found (_metrics self))
    (mkState ∅ self []).
Proof.
  repeat split; cbn; try lia; intros; by repeat match goal with
    | H : _ ∈ [] |- _ => apply elem_of_nil in H end.
Qed.

Lemma processing_inv (rows : list (list (option string)))
    (cols : list (string * string)) (self : Adapter) :
  let r := _optimized_batch_processing md5 cfg column_optimization true table cps
             rows cols self in
  exists st, r.1.1 = yielded st /\ r.1.2 = adapter st
    /\ batch_inv column_optimization table cols
         (total_matches_found (_metrics self)) st.
Proof.
  cbn zeta. unfold _optimized_batch_processing. cbn [negb].
  pose proof (scan_rows_inv cols rows _ _ (batch_inv_start cols self)) as Hinv.
  destruct (scan_rows md5 cfg column_optimization table cps cols rows
              (mkState ∅ self [])) as [st e].
  by exists st.
Qed.

(** X18: in the optimised loop a value is reported for one column of the
    batch only: two matches with the same value have the same column and
    path, wherever else in the batch the value stands. *)
Theorem value_reported_for_one_column (rows : list (list (option string)))
    (cols : list (string * string)) (self : Adapter) (y1 y2 : Match) :
  let ys := (_optimized_batch_processing md5 cfg column_optimization true table
               cps rows cols self).1.1 in
  y1 ∈ ys -> y2 ∈ ys -> value y1 = value y2 ->
  column y1 = column y2 /\ path y1 = path y2.
Proof.
  cbn zeta. destruct (processing_inv rows cols self) as (st & -> & _ & Hinv).
  destruct Hinv as (_ & _ & H3 & H4). intros Hy1 Hy2 Heq.
  pose proof (H3 _ _ Hy1 Hy2 Heq) as Hc. split; [done|].
  destruct (H4 _ Hy1) as (? & _ & _ & ->).
  destruct (H4 _ Hy2) as (? & _ & _ & ->). by rewrite Hc.
Qed.

(** X19: the counter [total_matches_found] moves with every match the
    optimised loop yields, and not at all when batch optimisation is off,
    whatever is yielded then. *)
Theorem matches_counted_when_optimised (batch_optimization : bool)
    (rows : list (list (option string))) (cols : list (string * string))
    (self : Adapter) :
  let r := _optimized_batch_processing md5 cfg column_optimization
             batch_optimization table cps rows cols self in
  total_matches_found (_metrics r.1.2)
  = (total_matches_found (_metrics self)
     + if batch_optimization then Z.of_nat (length r.1.1) else 0)%Z.
Proof.
  cbn zeta. destruct batch_optimization.
  - destruct (processing_inv rows cols self) as (st & -> & -> & Hinv).
    by destruct Hinv as (H1 & _).
  - cbn. lia.
Qed.

(** X20: the optimised loop yields for columns of the table that
    [_should_skip_column] lets through, and for no other: every match
    names such a column, and its path is the table and that column. *)
Theorem matches_come_from_kept_columns (rows : list (list (option string)))
    (cols : list (string * string)) (self : Adapter) (y : Match) :
  y ∈ (_optimized_batch_processing md5 cfg column_optimization true table cps
         rows cols self).1.1 ->
  exists data_type, (column y, data_type) ∈ cols
    /\ _should_skip_column column_optimization (column y) data_type table = false
    /\ path y = table +:+ "." +:+ column y.
Proof.
  destruct (processing_inv rows cols self) as (st & -> & _ & Hinv).
  destruct Hinv as (_ & _ & _ & H4). apply H4.
Qed.

End BatchFacts.

Section BatchExamples.
Import OracleAsync Columns Batches.

(** The mail address that stands in two columns of the second row,
    matched by two patterns. *)
Lemma value_reported_for_one_column_witness :
  let y1 := yield_of "CUSTOMERS" "EMAIL" "bob@example.com"
              (mkHit "email" "bob@example.com") in
  let y2 := yield_of "CUSTOMERS" "EMAIL" "bob@example.com"
              (mkHit "domain" "bob@example.com") in
  column y1 = column y2 /\ path y1 = path y2.
Proof.
  apply (value_reported_for_one_column (fun s => s) every_pattern_tried true
           "CUSTOMERS" mail_patterns customer_rows customer_cols (fresh 1)).
  - vm_compute. do 2 right. left.
  - vm_compute. do 3 right. left.
  - reflexivity.
Defined.

Lemma matches_come_from_kept_columns_witness :
  exists data_type, ("EMAIL", data_type) ∈ customer_cols
    /\ _should_skip_column true "EMAIL" data_type "CUSTOMERS" = false
    /\ "CUSTOMERS.EMAIL" = "CUSTOMERS" +:+ "." +:+ "EMAIL".
Proof.
  apply (matches_come_from_kept_columns (fun s => s) default_config true
           "CUSTOMERS" mail_pattern customer_rows customer_cols (fresh 1)
           (yield_of "CUSTOMERS" "EMAIL" "ann@example.com"
              (mkHit "email" "ann@example.com"))).
  vm_compute. left.
Defined.

(** The two loops on the same rows: the optimised one reports the
    address of the second row once, the plain one for both columns; only
    the optimised one counts. *)
Example customers_optimised :
  let r := _optimized_batch_processing (fun s => s) default_config true true
             "CUSTOMERS" mail_pattern customer_rows customer_cols (fresh 1) in
  path <$> r.1.1 = ["CUSTOMERS.EMAIL"; "CUSTOMERS.EMAIL"]
  /\ total_matches_found (_metrics r.1.2) = 2%Z
  /\ column_skips (_metrics r.1.2) = 2%Z.
Proof. vm_compute. done. Qed.

Example customers_plain :
  let r := _optimized_batch_processing (fun s => s) default_config true false
             "CUSTOMERS" mail_pattern customer_rows customer_cols (fresh 1) in
  path <$> r.1.1 = ["CUSTOMERS.EMAIL"; "CUSTOMERS.EMAIL"; "CUSTOMERS.CONTACT"]
  /\ total_matches_found (_metrics r.1.2) = 0%Z.
Proof. vm_compute. done. Qed.

End BatchExamples.

(** ** The whole scan *)

Section ScanFacts.
Import OracleAsync ConnectSpec Scan.

Variable re_compile : string -> option re.Pattern.

Lemma disconnect_pool (self : Adapter) : _pool (disconnect self) = None.
Proof. unfold disconnect. by destruct (_pool self) eqn:H. Qed.

(** X21: a database that fails every connection attempt ends the scan in
    [sys.exit(1)] when the message of the last failure holds one of the
    five critical codes, and in an empty list of matches otherwise, the
    pool being released either way.  The critical codes list [TNS-12541]
    and not [ORA-12541]. *)
Theorem failed_connection_ends_scan (cfg : Config)
    (backend : Z -> attempt_outcome)
    (catalogue : exc + list (string * string))
    (body_of : string -> list (string * re.Pattern) -> Adapter -> list Found * Adapter)
    (options : gmap string ScanOpts.pyval) (self : Adapter) :
  (1 <= retry_attempts cfg)%Z ->
  (forall i, (0 <= i < retry_attempts cfg)%Z -> fails (backend i)) ->
  exists msg,
    raised (backend (retry_attempts cfg - 1)%Z) = Some (CxOracleError msg)
    /\ (scan re_compile cfg backend catalogue body_of options self).1
       = (if existsb (fun code => Py.contains code msg) critical_codes
          then SystemExit 1 else Matches [])
    /\ _pool (scan re_compile cfg backend catalogue body_of options self).2 = None.
Proof.
  intros Hbudget Hfail.
  destruct (connect_loop_exhausts cfg backend (Z.to_nat (retry_attempts cfg) - 1)
              (Z.to_nat (retry_attempts cfg)) 0 self)
    as (self' & new & msg & Hconn & Hlast & _); [lia | done | lia |].
  exists msg. split; [done|]. unfold scan, connect. rewrite Hconn.
  cbn [message]. destruct (existsb _ critical_codes); cbn [fst snd].
  - split; [done|]. apply disconnect_pool.
  - split; [done|]. cbn. apply disconnect_pool.
Qed.

Lemma connect_at_once (cfg : Config) (backend : Z -> attempt_outcome)
    (pool : nat) (self : Adapter) :
  (1 <= retry_attempts cfg)%Z -> backend 0%Z = Connected pool ->
  exists self', connect cfg backend self = (Returned, self')
    /\ _pool self' = Some pool
    /\ _metrics self' = _metrics self.
Proof.
  intros Hbudget Hup. unfold connect.
  destruct (Z.to_nat (retry_attempts cfg)) as [|fuel] eqn:Hfuel; [lia|].
  cbn [connect_loop]. destruct (Z.ltb_spec 0 (retry_attempts cfg)); [|lia].
  rewrite Hup. by eexists.
Qed.

(** X22: when [get_patterns] raises [TypeError] on the options, a scan
    that has connected and listed its tables scans none of them: it
    returns an empty list, with the progress record at zero of all the
    tables and no table counted as completed or skipped. *)
Theorem unusable_filter_scans_nothing (cfg : Config)
    (backend : Z -> attempt_outcome) (pool : nat)
    (tables : list (string * string))
    (body_of : string -> list (string * re.Pattern) -> Adapter -> list Found * Adapter)
    (options : gmap string ScanOpts.pyval) (self : Adapter) :
  (1 <= retry_attempts cfg)%Z ->
  backend 0%Z = Connected pool ->
  Catalog.get_patterns options = Catalog.Raise Catalog.TypeError ->
  let r := scan re_compile cfg backend (inr tables) body_of options self in
  r.1 = Matches []
  /\ _scan_progress r.2 = mkProgress 0 (Z.of_nat (length tables))
  /\ tables_completed (_metrics r.2) = tables_completed (_metrics self)
  /\ tables_skipped (_metrics r.2) = tables_skipped (_metrics self)
  /\ _pool r.2 = None.
Proof.
  intros Hbudget Hup Hraise. cbn zeta.
  destruct (connect_at_once cfg backend pool self Hbudget Hup)
    as (self' & Hconn & Hpool & Hmetrics).
  unfold scan. rewrite Hconn. unfold fetch_tables. rewrite Hpool, Hraise.
  assert (Hmsg : existsb (fun code => Py.contains code
                            (message (of_exn Catalog.TypeError)))
                   critical_codes = false) by reflexivity.
  rewrite Hmsg. cbn [fst snd]. unfold disconnect.
  cbn [_pool emit start_progress set_progress]. rewrite Hpool.
  cbn [_pool _metrics _scan_progress emit set_pool].
  unfold TableNames.fetch_tables. rewrite length_fmap, <- Hmetrics.
  by repeat split.
Qed.

(** X24: with a retry budget of zero or less, [connect] returns without
    an attempt and without a pool, and the scan ends as after a minor
    error: it returns an empty list and has contacted the database not
    once. *)
Theorem no_budget_scans_nothing (cfg : Config)
    (backend : Z -> attempt_outcome)
    (catalogue : exc + list (string * string))
    (body_of : string -> list (string * re.Pattern) -> Adapter -> list Found * Adapter)
    (options : gmap string ScanOpts.pyval) (self : Adapter) :
  (retry_attempts cfg <= 0)%Z ->
  _pool self = None ->
  let r := scan re_compile cfg backend catalogue body_of options self in
  r.1 = Matches []
  /\ trace r.2
     = Say "Scan completed" :: Say "Minor error during scan, continuing"
       :: trace self
  /\ _metrics r.2 = _metrics self.
Proof.
  intros Hbudget Hpool. cbn zeta. unfold scan, connect.
  assert (Hconn : forall fuel, connect_loop cfg backend fuel 0 self = (Returned, self)).
  { intros [|fuel]; cbn [connect_loop];
      by destruct (Z.ltb_spec 0 (retry_attempts cfg)); [lia|]. }
  rewrite Hconn. unfold fetch_tables. rewrite Hpool.
  assert (Hmsg : existsb (fun code => Py.contains code
                    (message (OtherException
                       "'NoneType' object has no attribute 'acquire'")))
                   critical_codes = false) by reflexivity.
  rewrite Hmsg. cbn [fst snd]. unfold disconnect. cbn [_pool emit].
  by rewrite Hpool.
Qed.

End ScanFacts.

Section ScanExamples.
Import OracleAsync ConnectSpec Scan.

(** No listener: the scan returns an empty list. *)
Lemma failed_connection_ends_scan_witness :
  exists msg,
    raised (down (retry_attempts default_config - 1)%Z) = Some (CxOracleError msg)
    /\ (scan (fun text => Some (re.literal text)) default_config down (inr [])
          one_address numeric_filter (fresh 1)).1
       = (if existsb (fun code => Py.contains code msg) critical_codes
          then SystemExit 1 else Matches [])
    /\ _pool (scan (fun text => Some (re.literal text)) default_config down
                (inr []) one_address numeric_filter (fresh 1)).2 = None.
Proof.
  apply (failed_connection_ends_scan (fun text => Some (re.literal text))
           default_config down (inr []) one_address numeric_filter (fresh 1)).
  - cbn. lia.
  - intros i _. by exists "ORA-12541".
Defined.

(** One table with a mail address, and an inclusion filter that is a
    number. *)
Lemma unusable_filter_scans_nothing_witness :
  let r := scan (fun text => Some (re.literal text)) default_config
             (fun _ => Connected 0) (inr [("HR", "EMPLOYEES")]) one_address
             numeric_filter (fresh 1) in
  r.1 = Matches []
  /\ _scan_progress r.2 = mkProgress 0 1
  /\ tables_completed (_metrics r.2) = 0%Z
  /\ tables_skipped (_metrics r.2) = 0%Z
  /\ _pool r.2 = None.
Proof.
  apply (unusable_filter_scans_nothing (fun text => Some (re.literal text))
           default_config (fun _ => Connected 0) 0 [("HR", "EMPLOYEES")]
           one_address numeric_filter (fresh 1)).
  - cbn. lia.
  - reflexivity.
  - reflexivity.
Defined.

Lemma no_budget_scans_nothing_witness :
  (scan (fun text => Some (re.literal text)) plain_zero
     (fun _ => Connected 0) (inr [("HR", "EMPLOYEES")]) one_address
     (ScanOpts.__init__ ScanOpts.defaults []) (fresh 1)).1
  = Matches [].
Proof.
  apply (no_budget_scans_nothing (fun text => Some (re.literal text)) plain_zero
           (fun _ => Connected 0) (inr [("HR", "EMPLOYEES")]) one_address
           (ScanOpts.__init__ ScanOpts.defaults []) (fresh 1)).
  - cbn. lia.
  - reflexivity.
Defined.

(** The same table under the default options. *)
Example one_table_scanned :
  (scan (fun text => Some (re.literal text)) default_config
     (fun _ => Connected 0) (inr [("HR", "EMPLOYEES")]) one_address
     (ScanOpts.__init__ ScanOpts.defaults []) (fresh 1)).1
  = Matches [mkFound (TableNames.qualified "HR" "EMPLOYEES" +:+ ".EMAIL")
               "ann@example.com" (TableNames.qualified "HR" "EMPLOYEES")
               "EMAIL" "email"].
Proof. vm_compute. reflexivity. Qed.

Example no_listener_no_matches :
  (scan (fun text => Some (re.literal text)) default_config down (inr [])
     one_address (ScanOpts.__init__ ScanOpts.defaults []) (fresh 1)).1
  = Matches [].
Proof. vm_compute. reflexivity. Qed.

End ScanExamples.

(** ** The columns that are looked into *)

Section ExaminedColumns.
Import ScanOpts Catalog Columns ValidColumns.

Lemma insert_scored_first (x : string * string * nat)
    (l : list (string * string * nat)) :
  Forall (fun y => y.2 <= x.2) l -> insert_scored x l = x :: l.
Proof.
  destruct 1 as [|y l Hy _]; [done|]. cbn.
  by destruct (Nat.leb_spec y.2 x.2); [|lia].
Qed.

Lemma insert_scored_filter (Q : string * string * nat -> Prop)
    `{forall x, Decision (Q x)} (x : string * string * nat)
    (l : list (string * string * nat)) :
  StronglySorted (fun a b => b.2 <= a.2) l ->
  filter Q (insert_scored x l)
  = if decide (Q x) then insert_scored x (filter Q l) else filter Q l.
Proof.
  induction 1 as [|y l Hl IH Hy]; cbn [insert_scored].
  { rewrite filter_cons. by destruct (decide (Q x)). }
  destruct (Nat.leb_spec y.2 x.2) as [Hle|Hlt].
  - rewrite (filter_cons _ x). destruct (decide (Q x)); [|done].
    rewrite insert_scored_first; [done|].
    apply Forall_forall. intros z Hz.
    apply list_elem_of_filter in Hz as [_ Hz].
    apply elem_of_cons in Hz as [->|Hz]; [done|].
    rewrite Forall_forall in Hy. specialize (Hy z Hz). cbn in Hy. lia.
  - rewrite (filter_cons _ y), IH, (filter_cons _ y).
    destruct (decide (Q x)), (decide (Q y)); try done.
    cbn [insert_scored]. by destruct (Nat.leb_spec y.2 x.2); [lia|].
Qed.

Lemma sort_scored_filter (Q : string * string * nat -> Prop)
    `{forall x, Decision (Q x)} (l : list (string * string * nat)) :
  filter Q (sort_scored l) = sort_scored (filter Q l).
Proof.
  induction l as [|x l IH]; [done|].
  cbn [sort_scored foldr]. fold (sort_scored l).
  rewrite insert_scored_filter by apply sort_scored_sorted.
  rewrite filter_cons, IH. by destruct (decide (Q x)).
Qed.

(** Ordering the columns and leaving some out can be done in either
    order. *)
Lemma optimize_column_order_filter (P : string * string -> Prop)
    `{forall c, Decision (P c)} (cols : list (string * string)) :
  filter P (_optimize_column_order true cols)
  = _optimize_column_order true (filter P cols).
Proof.
  unfold _optimize_column_order. cbn [negb].
  set (unscore := fun x : string * string * nat => (x.1.1, x.1.2)).
  set (score := fun c : string * string => (c.1, c.2, column_score c.1 c.2)).
  assert (Hun : forall m : list (string * string * nat),
            filter P (unscore <$> m) = unscore <$> filter (fun x => P (unscore x)) m).
  { induction m as [|x m IHm]; [done|].
    rewrite fmap_cons, !filter_cons, IHm.
    by destruct (decide (P (unscore x))). }
  assert (Hsc : forall l : list (string * string),
            filter (fun x => P (unscore x)) (score <$> l) = score <$> filter P l).
  { induction l as [|[n t] l IHl]; [done|].
    rewrite fmap_cons, !filter_cons, IHl.
    change (unscore (score (n, t))) with (n, t).
    by destruct (decide (P (n, t))). }
  by rewrite Hun, sort_scored_filter, Hsc.
Qed.

Lemma numeric_types_skipped (table : string) (catalogue : list (string * string)) :
  examined true table (filter (fun row : string * string => row.2 ∈ all_types) catalogue)
  = examined true table (filter (fun row : string * string => row.2 ∈ text_types) catalogue).
Proof.
  unfold examined. induction catalogue as [|[n t] rows IH]; [done|].
  rewrite !(filter_cons _ (n, t)). cbn [snd].
  destruct (decide (t ∈ text_types)) as [Ht|Ht].
  - rewrite decide_True.
    + rewrite !(filter_cons _ (n, t)), IH. done.
    + unfold all_types. unfold text_types in Ht.
      repeat (apply elem_of_cons in Ht as [->|Ht];
              [solve [apply (bool_decide_unpack _); vm_compute; reflexivity]|]).
      by apply elem_of_nil in Ht.
  - destruct (decide (t ∈ all_types)) as [Ha|Ha]; [|done].
    rewrite filter_cons, IH. rewrite decide_False; [done|].
    cbn [fst snd]. unfold _should_skip_column. cbn [negb].
    destruct (existsb _ skip_patterns); [done|].
    assert (Hnum : Py.in_list t ["NUMBER"; "FLOAT"; "DECIMAL"; "NUMERIC"] = true).
    { unfold Py.in_list. apply bool_decide_eq_true_2.
      unfold all_types in Ha.
      repeat (apply elem_of_cons in Ha as [->|Ha];
              [first [solve [exfalso; apply Ht; apply (bool_decide_unpack _);
                             vm_compute; reflexivity]
                     | solve [apply (bool_decide_unpack _); vm_compute;
                              reflexivity]]|]).
      by apply elem_of_nil in Ha. }
    by rewrite Hnum.
Qed.

(** X23: with column optimisation on, the options do not change which
    columns the optimised batch loop looks into, nor their order: the
    numeric columns that a scan other than for card numbers asks the
    catalogue for are all skipped. *)
Theorem options_keep_examined_columns (table : string)
    (catalogue : list (string * string))
    (options1 options2 : option (gmap string pyval))
    (cols1 cols2 : list (string * string)) :
  _get_valid_columns true catalogue options1 = Ok cols1 ->
  _get_valid_columns true catalogue options2 = Ok cols2 ->
  examined true table cols1 = examined true table cols2.
Proof.
  assert (Hall : forall options cols,
            _get_valid_columns true catalogue options = Ok cols ->
            examined true table cols
            = _optimize_column_order true
                (examined true table
                   (filter (fun row : string * string => row.2 ∈ text_types)
                           catalogue))).
  { intros options cols. unfold _get_valid_columns.
    destruct (is_credit_card_scan options) as [b|e];
      [rewrite bind_ok; cbv beta zeta iota | intros Hr; discriminate Hr].
    intros [= <-]. unfold examined at 1.
    rewrite optimize_column_order_filter. f_equal.
    destruct b; [done|]. apply numeric_types_skipped. }
  intros H1 H2. by rewrite (Hall _ _ H1), (Hall _ _ H2).
Qed.

Lemma options_keep_examined_columns_witness :
  examined true "ACCOUNTS" [("OWNER_NAME", "VARCHAR2"); ("CARD_NUMBER", "CHAR");
                            ("ID", "NUMBER"); ("BALANCE", "NUMBER")]
  = examined true "ACCOUNTS" [("OWNER_NAME", "VARCHAR2"); ("CARD_NUMBER", "CHAR")].
Proof.
  apply (options_keep_examined_columns "ACCOUNTS" account_columns
           None (Some card_scan)).
  - vm_compute. reflexivity.
  - vm_compute. reflexivity.
Defined.

End ExaminedColumns.
